(** * hippopt: the casadi-Opti solver session ([hippopt/base/opti_solver.py])

    A shallow embedding of [OptiSolver]: the object generator
    ([generate_optimization_objects]), the initial-guess binder
    ([set_initial_guess]) and the session facade ([add_cost], [solve],
    [get_values], ...), over an explicit store of Python objects.

    Python objects that the code mutates (dataclass instances and lists) live
    in a heap of cells and are referred to by location, so that aliasing and
    in-place updates ([__setattr__], [output[i] = ...]) are visible.  Every
    function runs in a state-and-exception monad: an exception keeps the state
    reached when it was raised, as in Python. *)

From stdpp Require Import base numbers list strings.
From Stdlib Require Import ZArith Lia.

Local Open Scope string_scope.
Local Open Scope list_scope.

(** ** Values *)

(** a location in the heap *)
Abbreviation loc := nat (only parsing).

(** Modelled from the spec: the metadata value stored under
    [OptimizationObject.StorageTypeField].  [hippopt.base.variable] and
    [hippopt.base.parameter] are not part of the sources at hand; the code
    only compares the value with [Variable.StorageTypeValue] and
    [Parameter.StorageTypeValue] by identity, every other value is a third
    case. *)
Inductive StorageType :=
| Variable_StorageTypeValue
| Parameter_StorageTypeValue
| Other_StorageTypeValue (tag : string).

(** [np.ndarray]: only [shape] and [ndim] are inspected by the code; the
    entries are carried along unchanged.  No statement of the module writes
    into an array ([np.expand_dims] returns a new one), so arrays are plain
    values here and not heap cells. *)
Record ndarray := mk_ndarray { shape : list nat; entries : list Z }.

Definition ndim (a : ndarray) : nat := length (shape a).

(** [cs.MX]: symbols created by [Opti.variable] / [Opti.parameter], numeric
    constants, sums (the only operator the session itself applies, in
    [add_cost]) and the comparisons [a <= b] and [a == b], the expressions
    that [Opti.subject_to] is given. *)
Inductive MX :=
| MX_sym (is_parameter : bool) (id rows cols : nat)
| MX_const (c : Z)
| MX_add (a b : MX)
| MX_le (a b : MX)
| MX_eq (a b : MX).

Fixpoint MX_shape (m : MX) : nat * nat :=
  match m with
  | MX_sym _ _ r c => (r, c)
  | MX_const _ => (1, 1)
  | MX_add a b | MX_le a b | MX_eq a b =>
      match MX_shape a with
      | (1, 1) => MX_shape b
      | s => s
      end
  end.

(** A Python value as the solver sees it.  Mutable containers are references
    into the heap. *)
Inductive val :=
| VNone
| VNum (z : Z)
| VStr (s : string)
| VArray (a : ndarray)
| VMX (m : MX)
| VRef (l : loc).

(** A dataclass field of an instance: [field.name], the entry of
    [field.metadata] under [OptimizationObject.StorageTypeField] (if any) and
    the current attribute value. *)
Record field := mk_field {
  fname : string;
  fmetadata : option StorageType;
  fvalue : val }.

(** Modelled from the spec: [OptimizationObject] (hippopt.base.optimization_object,
    not part of the sources at hand) is a dataclass whose fields may be tagged
    as storage.  A heap cell is either such an instance or a Python list. *)
Inductive cell :=
| OptimizationObject (fields : list field)
| PyList (items : list val).

Definition options := list (string * val).

(** ** The solver engine ([cs.Opti])

    The engine is external.  Its bookkeeping operations are modelled by what
    they record (symbols created, initial values, parameter values,
    constraints, objective); what [minimize] accepts, the outcome of [solve]
    and the values of a solution are left to an [Engine] instance. *)

Record Opti := mk_Opti {
  problem_type : string;
  plugin : option (string * options * options);
  n_symbols : nat;
  initial_store : list (MX * ndarray);
  value_store : list (MX * ndarray);
  objective : option MX;
  constraints : list MX }.

(** [cs.Opti(problem_type)] *)
Definition cs_Opti (problem_type : string) : Opti :=
  mk_Opti problem_type None 0 [] [] None [].

Definition Opti_solver (inner : string) (p s : options) (o : Opti) : Opti :=
  mk_Opti (problem_type o) (Some (inner, p, s)) (n_symbols o) (initial_store o) (value_store o)
          (objective o) (constraints o).

Definition Opti_new_symbol (is_parameter : bool) (r c : nat) (o : Opti) : MX * Opti :=
  (MX_sym is_parameter (n_symbols o) r c,
   mk_Opti (problem_type o) (plugin o) (S (n_symbols o)) (initial_store o) (value_store o)
           (objective o) (constraints o)).

Definition Opti_set_initial (x : MX) (v : ndarray) (o : Opti) : Opti :=
  mk_Opti (problem_type o) (plugin o) (n_symbols o) (initial_store o ++ [(x, v)]) (value_store o)
          (objective o) (constraints o).

Definition Opti_set_value (x : MX) (v : ndarray) (o : Opti) : Opti :=
  mk_Opti (problem_type o) (plugin o) (n_symbols o) (initial_store o) (value_store o ++ [(x, v)])
          (objective o) (constraints o).

Definition Opti_subject_to (c : MX) (o : Opti) : Opti :=
  mk_Opti (problem_type o) (plugin o) (n_symbols o) (initial_store o) (value_store o)
          (objective o) (constraints o ++ [c]).

Definition Opti_set_objective (c : MX) (o : Opti) : Opti :=
  mk_Opti (problem_type o) (plugin o) (n_symbols o) (initial_store o) (value_store o)
          (Some c) (constraints o).

(** [cs.OptiSol]: a solution is used through [OptiSol.value] only *)
Definition OptiSol : Type := val -> string + ndarray.

Class Engine := {
  (** [cs.Opti(problem_type)]: the message of the error for a problem type
      that the engine does not know *)
  Opti_problem_type_error : string -> option string;
  (** [a + b] on expressions: the message of the error that casadi raises
      when the dimensions of [a] and [b] do not go together *)
  MX_plus_error : MX -> MX -> option string;
  (** [Opti.subject_to]: the message of the error for an expression that the
      engine does not take for a constraint *)
  Opti_subject_to_error : MX -> Opti -> option string;
  (** [Opti.minimize]: the argument is [self._cost], which may be [None] *)
  Opti_minimize : option MX -> Opti -> string + Opti;
  (** [minimize] takes an expression: casadi rejects [None] *)
  Opti_minimize_None : forall o, exists msg, Opti_minimize None o = inl msg;
  (** [Opti.solve]: a solution, or the engine's failure *)
  Opti_solve : Opti -> string + OptiSol }.

(** ** Exceptions *)

Inductive exn :=
| ValueError (msg : string)
| AssertionError
| TypeError
| AttributeError
| IndexError
| AxisError
| RecursionError
| SolutionNotAvailableException
| ProblemNotRegisteredException
| EngineError (msg : string)
(** a location outside the heap: no Python value denotes one; the case keeps
    the model total *)
| InvalidReference.

(** ** The session object and the state *)

Record OptiSolver := mk_OptiSolver {
  _inner_solver : string;
  _options_plugin : options;
  _options_solver : options;
  _cost : option MX;
  _solver : Opti;
  _opti_solution : option OptiSol;
  _output_solution : val;
  _output_cost : option ndarray;
  _variables : val;
  _problem : val }.

Record state := mk_state { heap : list cell; self : OptiSolver }.

Definition with_solver (o : Opti) (s : OptiSolver) : OptiSolver :=
  mk_OptiSolver (_inner_solver s) (_options_plugin s) (_options_solver s) (_cost s) o
    (_opti_solution s) (_output_solution s) (_output_cost s) (_variables s) (_problem s).

Definition with_cost (c : option MX) (s : OptiSolver) : OptiSolver :=
  mk_OptiSolver (_inner_solver s) (_options_plugin s) (_options_solver s) c (_solver s)
    (_opti_solution s) (_output_solution s) (_output_cost s) (_variables s) (_problem s).

Definition with_opti_solution (x : option OptiSol) (s : OptiSolver) : OptiSolver :=
  mk_OptiSolver (_inner_solver s) (_options_plugin s) (_options_solver s) (_cost s) (_solver s)
    x (_output_solution s) (_output_cost s) (_variables s) (_problem s).

Definition with_output_solution (x : val) (s : OptiSolver) : OptiSolver :=
  mk_OptiSolver (_inner_solver s) (_options_plugin s) (_options_solver s) (_cost s) (_solver s)
    (_opti_solution s) x (_output_cost s) (_variables s) (_problem s).

Definition with_output_cost (x : option ndarray) (s : OptiSolver) : OptiSolver :=
  mk_OptiSolver (_inner_solver s) (_options_plugin s) (_options_solver s) (_cost s) (_solver s)
    (_opti_solution s) (_output_solution s) x (_variables s) (_problem s).

Definition with_variables (x : val) (s : OptiSolver) : OptiSolver :=
  mk_OptiSolver (_inner_solver s) (_options_plugin s) (_options_solver s) (_cost s) (_solver s)
    (_opti_solution s) (_output_solution s) (_output_cost s) x (_problem s).

Definition with_problem (x : val) (s : OptiSolver) : OptiSolver :=
  mk_OptiSolver (_inner_solver s) (_options_plugin s) (_options_solver s) (_cost s) (_solver s)
    (_opti_solution s) (_output_solution s) (_output_cost s) (_variables s) x.

Definition with_options (inner : string) (p so : options) (s : OptiSolver) : OptiSolver :=
  mk_OptiSolver inner p so (_cost s) (_solver s)
    (_opti_solution s) (_output_solution s) (_output_cost s) (_variables s) (_problem s).

(** ** The monad: state passing with exceptions *)

Definition M (A : Type) : Type := state -> (exn + A) * state.

Definition ret {A} (a : A) : M A := fun st => (inr a, st).

Definition raise {A} (e : exn) : M A := fun st => (inl e, st).

Definition bind {A B} (m : M A) (f : A -> M B) : M B :=
  fun st =>
    match m st with
    | (inr a, st') => f a st'
    | (inl e, st') => (inl e, st')
    end.

Notation "x <- m ;; k" := (bind m (fun x => k))
  (at level 100, m at next level, right associativity).
Notation "m ;;; k" := (bind m (fun _ => k))
  (at level 100, right associativity).

Definition gets {A} (f : state -> A) : M A := fun st => (inr (f st), st).

Definition modify_self (f : OptiSolver -> OptiSolver) : M unit :=
  fun st => (inr tt, mk_state (heap st) (f (self st))).

Definition modify_heap (f : list cell -> list cell) : M unit :=
  fun st => (inr tt, mk_state (f (heap st)) (self st)).

(** [for x in l: body x] *)
Fixpoint for_each {A} (body : A -> M unit) (l : list A) : M unit :=
  match l with
  | [] => ret tt
  | x :: l' => body x ;;; for_each body l'
  end.

(** ** Heap primitives *)

Definition read (l : loc) : M cell :=
  fun st =>
    match heap st !! l with
    | Some c => (inr c, st)
    | None => (inl InvalidReference, st)
    end.

(** a new object: its location is the next free one *)
Definition alloc (c : cell) : M loc :=
  fun st => (inr (length (heap st)), mk_state (heap st ++ [c]) (self st)).

Definition write (l : loc) (c : cell) : M unit :=
  modify_heap (fun h => <[l := c]> h).

Definition isinstance_OptimizationObject (h : list cell) (v : val) : bool :=
  match v with
  | VRef l => match h !! l with Some (OptimizationObject _) => true | _ => false end
  | _ => false
  end.

Definition isinstance_list (h : list cell) (v : val) : bool :=
  match v with
  | VRef l => match h !! l with Some (PyList _) => true | _ => false end
  | _ => false
  end.

Definition isinstance_ndarray (v : val) : bool :=
  match v with VArray _ => true | _ => false end.

(** the elements of a list value (empty for anything else) *)
Definition list_items (h : list cell) (v : val) : list val :=
  match v with
  | VRef l => match h !! l with Some (PyList items) => items | _ => [] end
  | _ => []
  end.

Fixpoint lookup_field (n : string) (fs : list field) : option val :=
  match fs with
  | [] => None
  | f :: fs' => if String.eqb (fname f) n then Some (fvalue f) else lookup_field n fs'
  end.

Fixpoint update_field (n : string) (v : val) (fs : list field) : list field :=
  match fs with
  | [] => []
  | f :: fs' =>
      if String.eqb (fname f) n then mk_field (fname f) (fmetadata f) v :: fs'
      else f :: update_field n v fs'
  end.

(** [dataclasses.fields(x)]: names and metadata, in declaration order *)
Definition dataclasses_fields (x : val) : M (list (string * option StorageType)) :=
  match x with
  | VRef l =>
      c <- read l ;;
      match c with
      | OptimizationObject fs => ret (map (fun f => (fname f, fmetadata f)) fs)
      | PyList _ => raise TypeError
      end
  | _ => raise TypeError
  end.

(** [hasattr(x, name)] for the dataclass fields of an instance.  The members
    that Python gives to every value (such as [__class__]), the methods of
    built-in values (such as [count] of a list) and class attributes are not
    modelled: for such a name the result here is [false] where Python
    answers [True]. *)
Definition hasattr (h : list cell) (x : val) (n : string) : bool :=
  match x with
  | VRef l =>
      match h !! l with
      | Some (OptimizationObject fs) =>
          match lookup_field n fs with Some _ => true | None => false end
      | _ => false
      end
  | _ => false
  end.

(** [x.__getattribute__(name)] *)
Definition getattribute (x : val) (n : string) : M val :=
  match x with
  | VRef l =>
      c <- read l ;;
      match c with
      | OptimizationObject fs =>
          match lookup_field n fs with
          | Some v => ret v
          | None => raise AttributeError
          end
      | PyList _ => raise AttributeError
      end
  | _ => raise AttributeError
  end.

(** [x.__setattr__(name, v)]: an update in place of the instance at [x] *)
Definition setattr (x : val) (n : string) (v : val) : M unit :=
  match x with
  | VRef l =>
      c <- read l ;;
      match c with
      | OptimizationObject fs => write l (OptimizationObject (update_field n v fs))
      | PyList _ => raise AttributeError
      end
  | _ => raise AttributeError
  end.

(** [dataclasses.asdict(x)[name]]: a copy of the attribute value.  The code
    only tests the copy for [None] and for being an array, reads its shape or
    iterates it, so the copy is not materialised: a reference stands for the
    dict or list that [asdict] builds. *)
Definition asdict_field (x : val) (n : string) : M val := getattribute x n.

(** [len(x)] and [x[i]] on lists *)
Definition py_len (x : val) : M nat :=
  match x with
  | VRef l =>
      c <- read l ;;
      match c with
      | PyList items => ret (length items)
      | OptimizationObject _ => raise TypeError
      end
  | _ => raise TypeError
  end.

Definition getitem (x : val) (i : nat) : M val :=
  match x with
  | VRef l =>
      c <- read l ;;
      match c with
      | PyList items =>
          match items !! i with
          | Some v => ret v
          | None => raise IndexError
          end
      | OptimizationObject _ => raise TypeError
      end
  | _ => raise TypeError
  end.

(** [x[i] = v] *)
Definition setitem (x : val) (i : nat) (v : val) : M unit :=
  match x with
  | VRef l =>
      c <- read l ;;
      match c with
      | PyList items =>
          if decide (i < length items) then write l (PyList (<[i := v]> items))
          else raise IndexError
      | OptimizationObject _ => raise TypeError
      end
  | _ => raise TypeError
  end.

(** [x.append(v)] *)
Definition append (x : val) (v : val) : M unit :=
  match x with
  | VRef l =>
      c <- read l ;;
      match c with
      | PyList items => write l (PyList (items ++ [v]))
      | OptimizationObject _ => raise AttributeError
      end
  | _ => raise AttributeError
  end.

(** ** numpy and engine calls used by the session *)

(** [np.expand_dims(a, axis)] *)
Definition np_expand_dims (a : ndarray) (axis : nat) : M ndarray :=
  if decide (axis <= ndim a)
  then ret (mk_ndarray (take axis (shape a) ++ 1 :: drop axis (shape a)) (entries a))
  else raise AxisError.

(** [x.shape], for the values that have one *)
Definition shape_attr (x : val) : M (list nat) :=
  match x with
  | VArray a => ret (shape a)
  | VMX m => ret [fst (MX_shape m); snd (MX_shape m)]
  | _ => raise AttributeError
  end.

Definition new_symbol (is_parameter : bool) (r c : nat) : M MX :=
  fun st =>
    let '(x, o) := Opti_new_symbol is_parameter r c (_solver (self st)) in
    (inr x, mk_state (heap st) (with_solver o (self st))).

(** [self._solver.variable( *dims )] and [self._solver.parameter( *dims )]:
    rows and columns default to 1 *)
Definition star_dims (is_parameter : bool) (dims : list nat) : M MX :=
  match dims with
  | [] => new_symbol is_parameter 1 1
  | [n] => new_symbol is_parameter n 1
  | [n; m] => new_symbol is_parameter n m
  | _ => raise (EngineError "wrong number or type of arguments")
  end.

Definition Opti_variable : list nat -> M MX := star_dims false.
Definition Opti_parameter : list nat -> M MX := star_dims true.

(** [self._solver.set_initial(x, v)] and [self._solver.set_value(x, v)] *)
Definition set_initial (x : val) (v : ndarray) : M unit :=
  match x with
  | VMX m => modify_self (fun s => with_solver (Opti_set_initial m v (_solver s)) s)
  | _ => raise (EngineError "set_initial: not a symbolic expression")
  end.

Definition set_value (x : val) (v : ndarray) : M unit :=
  match x with
  | VMX m => modify_self (fun s => with_solver (Opti_set_value m v (_solver s)) s)
  | _ => raise (EngineError "set_value: not a symbolic expression")
  end.

Definition lift_engine {A} (r : string + A) : M A :=
  match r with
  | inl msg => raise (EngineError msg)
  | inr a => ret a
  end.

(** ** [copy.deepcopy]

    With its memo: an object met twice is copied once.  The copy of a
    container is created and recorded in the memo before its contents are
    copied.  [fuel] bounds the depth of the recursion, as Python's recursion
    limit does. *)

Fixpoint lookup_memo (l : loc) (memo : list (loc * loc)) : option loc :=
  match memo with
  | [] => None
  | (k, y) :: memo' => if decide (k = l) then Some y else lookup_memo l memo'
  end.

Fixpoint deepcopy_items (copy : val -> list (loc * loc) -> M (val * list (loc * loc)))
    (items : list val) (memo : list (loc * loc)) : M (list val * list (loc * loc)) :=
  match items with
  | [] => ret ([], memo)
  | x :: items' =>
      r <- copy x memo ;;
      rs <- deepcopy_items copy items' (snd r) ;;
      ret (fst r :: fst rs, snd rs)
  end.

Definition with_fvalue (f : field) (v : val) : field :=
  mk_field (fname f) (fmetadata f) v.

Fixpoint deepcopy_memo (fuel : nat) (x : val) (memo : list (loc * loc))
    : M (val * list (loc * loc)) :=
  match x with
  | VRef l =>
      match lookup_memo l memo with
      | Some y => ret (VRef y, memo)
      | None =>
          match fuel with
          | 0 => raise RecursionError
          | S fuel' =>
              c <- read l ;;
              match c with
              | PyList items =>
                  y <- alloc (PyList []) ;;
                  r <- deepcopy_items (deepcopy_memo fuel') items ((l, y) :: memo) ;;
                  write y (PyList (fst r)) ;;;
                  ret (VRef y, snd r)
              | OptimizationObject fs =>
                  y <- alloc (OptimizationObject []) ;;
                  r <- deepcopy_items (deepcopy_memo fuel') (map fvalue fs) ((l, y) :: memo) ;;
                  write y (OptimizationObject (zip_with with_fvalue fs (fst r))) ;;;
                  ret (VRef y, snd r)
              end
          end
      end
  | _ => ret (x, memo)
  end.

Definition deepcopy (fuel : nat) (x : val) : M val :=
  r <- deepcopy_memo fuel x [] ;;
  ret (fst r).

(** ** [OptiSolver] *)

Definition DefaultSolverType : string := "ipopt".

(** The fields as the generated [__init__] sets them when it is given no
    argument (lines 22-44); any of them can be given instead.  [_solver] is
    [None] then: [__post_init__] assigns it before anything reads it, so the
    engine written here plays no part. *)
Definition OptiSolver_defaults : OptiSolver :=
  mk_OptiSolver DefaultSolverType [] [] None (cs_Opti "nlp") None VNone None VNone VNone.

(** [__post_init__] (lines 46-61), run on the fields that [__init__] has
    set: the engine is created, which fails for a problem type it does not
    know, the options are taken from the init-only arguments (a dictionary,
    or [{}] for anything else) and the engine is configured. *)
Definition __post_init__ `{Engine} (problem_type : string)
    (options_solver options_plugin : option options) : M unit :=
  match Opti_problem_type_error problem_type with
  | Some msg => raise (EngineError msg)
  | None =>
      modify_self (fun s =>
        let os := match options_solver with Some d => d | None => [] end in
        let op := match options_plugin with Some d => d | None => [] end in
        with_solver (Opti_solver (_inner_solver s) op os (cs_Opti problem_type))
                    (with_options (_inner_solver s) op os s))
  end.

(** [_generate_opti_object] (lines 63-81) *)
Definition _generate_opti_object (storage_type : StorageType) (name : string) (value : val)
    : M MX :=
  match value with
  | VNone => raise (ValueError ("Field " +:+ name +:+ " is tagged as storage, but it is None."))
  | _ =>
      value <- match value with
               | VArray a =>
                   if decide (2 < ndim a)
                   then raise (ValueError
                                 ("Field " +:+ name +:+ " has number of dimensions greater than 2."))
                   else if decide (ndim a < 2)
                        then (a' <- np_expand_dims a 1 ;; ret (VArray a'))
                        else ret value
               | _ => ret value
               end ;;
      match storage_type with
      | Variable_StorageTypeValue => (dims <- shape_attr value ;; Opti_variable dims)
      | Parameter_StorageTypeValue => (dims <- shape_attr value ;; Opti_parameter dims)
      | Other_StorageTypeValue _ => raise (ValueError "Unsupported input storage type")
      end
  end.

(** One turn of the loop of [_generate_objects_from_instance] (lines 88-127),
    for the field [fld] of the copy [output]; [generate] is
    [self.generate_optimization_objects]. *)
Definition generate_field (generate : val -> M val) (output : val)
    (fld : string * option StorageType) : M unit :=
  let '(name, metadata) := fld in
  composite_value <- getattribute output name ;;
  h <- gets heap ;;
  let is_list := isinstance_list h composite_value in
  let list_of_optimization_objects :=
    is_list && forallb (fun elem => isinstance_OptimizationObject h elem || isinstance_list h elem)
                       (list_items h composite_value) in
  if isinstance_OptimizationObject h composite_value || list_of_optimization_objects
  then (r <- generate composite_value ;; setattr output name r)
  else
    match metadata with
    | Some storage_type =>
        value_field <- asdict_field output name ;;
        h <- gets heap ;;
        let value_list := if is_list then list_items h value_field else [value_field] in
        output_value <- alloc (PyList []) ;;
        for_each (fun value =>
                    x <- _generate_opti_object storage_type name value ;;
                    append (VRef output_value) (VMX x))
                 value_list ;;;
        if is_list then setattr output name (VRef output_value)
        else (x <- getitem (VRef output_value) 0 ;; setattr output name x)
    | None => ret tt
    end.

(** [_generate_objects_from_instance] (lines 83-130) *)
Definition _generate_objects_from_instance (fuel : nat) (generate : val -> M val)
    (input_structure : val) : M val :=
  output <- deepcopy fuel input_structure ;;
  fields <- dataclasses_fields output ;;
  for_each (generate_field generate output) fields ;;;
  modify_self (with_variables output) ;;;
  ret output.

(** [_generate_objects_from_list] (lines 132-142) *)
Definition _generate_objects_from_list (fuel : nat) (generate : val -> M val)
    (input_structure : val) : M val :=
  h <- gets heap ;;
  if isinstance_list h input_structure then
    output <- deepcopy fuel input_structure ;;
    n <- py_len output ;;
    for_each (fun i => x <- getitem output i ;; y <- generate x ;; setitem output i y)
             (seq 0 n) ;;;
    modify_self (with_variables output) ;;;
    ret output
  else raise AssertionError.

(** [generate_optimization_objects] (lines 342-347); [fuel] is the depth of
    calls left before Python's [RecursionError]. *)
Fixpoint generate_optimization_objects (fuel : nat) (input_structure : val) : M val :=
  match fuel with
  | 0 => raise RecursionError
  | S fuel' =>
      h <- gets heap ;;
      if isinstance_OptimizationObject h input_structure
      then _generate_objects_from_instance fuel' (generate_optimization_objects fuel')
             input_structure
      else _generate_objects_from_list fuel' (generate_optimization_objects fuel')
             input_structure
  end.

(** [get_optimization_objects] *)
Definition get_optimization_objects : M val := gets (fun st => _variables (self st)).

Definition is_variable_or_parameter (metadata : option StorageType) : bool :=
  match metadata with
  | Some Variable_StorageTypeValue | Some Parameter_StorageTypeValue => true
  | _ => false
  end.

(** One turn of the field loop of [_generate_solution_output] (lines 158-188) *)
Definition solution_field (rec : val -> M val) (variables output : val)
    (fld : string * option StorageType) : M unit :=
  let '(name, metadata) := fld in
  if is_variable_or_parameter metadata then
    var <- asdict_field variables name ;;
    sol <- gets (fun st => _opti_solution (self st)) ;;
    match sol with
    | Some sol => (v <- lift_engine (sol var) ;; setattr output name (VArray v))
    | None => raise AttributeError
    end
  else
    composite_variable <- getattribute variables name ;;
    h <- gets heap ;;
    let is_list := isinstance_list h composite_variable in
    let list_of_optimization_objects :=
      is_list && forallb (isinstance_OptimizationObject h) (list_items h composite_variable) in
    if isinstance_OptimizationObject h composite_variable || list_of_optimization_objects
    then (r <- rec composite_variable ;; setattr output name r)
    else ret tt.

(** [_generate_solution_output] (lines 145-190) *)
Fixpoint _generate_solution_output (fuel : nat) (variables : val) : M val :=
  match fuel with
  | 0 => raise RecursionError
  | S fuel' =>
      output <- deepcopy fuel' variables ;;
      h <- gets heap ;;
      if isinstance_list h variables then
        for_each (fun ie => r <- _generate_solution_output fuel' (snd ie) ;;
                            setitem output (fst ie) r)
                 (imap pair (list_items h variables)) ;;;
        ret output
      else
        fields <- dataclasses_fields variables ;;
        for_each (solution_field (_generate_solution_output fuel') variables output) fields ;;;
        ret output
  end.

(** The [Variable] and the [Parameter] branch of [_set_initial_guess_internal]
    (lines 206-241 and 248-283) are the same text up to the last word of one
    message and the engine call, here [noun] and [push]. *)
Definition guess_input_shape (guess : ndarray) : M (list nat) :=
  if decide (1 < length (shape guess)) then ret (shape guess)
  else match shape guess with
       | n :: _ => ret [n; 1]
       | [] => raise IndexError
       end.

Definition guess_storage (push : val -> ndarray -> M unit) (noun : string)
    (initial_guess corresponding_variable : val) (name : string) : M unit :=
  guess <- asdict_field initial_guess name ;;
  match guess with
  | VNone => ret tt
  | VArray g =>
      h <- gets heap ;;
      if hasattr h corresponding_variable name then
        corresponding_value <- getattribute corresponding_variable name ;;
        input_shape <- guess_input_shape g ;;
        s <- shape_attr corresponding_value ;;
        if decide (s = input_shape) then push corresponding_value g
        else raise (ValueError
                      ("The guess has the field " +:+ name +:+
                       " but its dimension does not match with the corresponding optimization variable"))
      else raise (ValueError
                    ("The guess has the field " +:+ name +:+
                     " but it is not present in the optimization " +:+ noun))
  | _ => raise (ValueError ("The guess for the field " +:+ name +:+ " is not an numpy array."))
  end.

(** The loops over a list of guesses (lines 327-340 and 371-381): the
    symbolic list [variables] is read again at every turn. *)
Fixpoint guess_list_loop (variables : M val) (msg : string) (rec : val -> val -> M unit)
    (elements : list val) (i : nat) : M unit :=
  match elements with
  | [] => ret tt
  | element :: rest =>
      vs <- variables ;;
      n <- py_len vs ;;
      if decide (n <= i) then raise (ValueError msg)
      else
        v <- getitem vs i ;;
        rec element v ;;;
        guess_list_loop variables msg rec rest (S i)
  end.

(** One turn of the loop of [_set_initial_guess_internal] (lines 198-340) *)
Definition guess_field (rec : val -> val -> M unit)
    (initial_guess corresponding_variable : val) (fld : string * option StorageType) : M unit :=
  let '(name, metadata) := fld in
  match metadata with
  | Some Variable_StorageTypeValue =>
      guess_storage set_initial "variables" initial_guess corresponding_variable name
  | Some Parameter_StorageTypeValue =>
      guess_storage set_value "parameters" initial_guess corresponding_variable name
  | _ =>
      composite_variable_guess <- getattribute initial_guess name ;;
      h <- gets heap ;;
      if isinstance_OptimizationObject h composite_variable_guess then
        if hasattr h corresponding_variable name then
          (c <- getattribute corresponding_variable name ;; rec composite_variable_guess c)
        else raise (ValueError
                      ("The guess has the field " +:+ name +:+
                       " but it is not present in the optimization structure"))
      else
        let is_list := isinstance_list h composite_variable_guess in
        let list_of_optimization_objects :=
          is_list && forallb (isinstance_OptimizationObject h)
                             (list_items h composite_variable_guess) in
        if list_of_optimization_objects then
          if hasattr h corresponding_variable name then
            corresponding_nested_variable <- getattribute corresponding_variable name ;;
            h <- gets heap ;;
            if isinstance_list h corresponding_nested_variable then
              guess_list_loop (ret corresponding_nested_variable)
                ("The input guess is the list " +:+ name +:+
                 " but the corresponding variable structure is not a list")
                rec (list_items h composite_variable_guess) 0
            else raise (ValueError
                          ("The guess has the field " +:+ name +:+
                           " as list, but the corresponding structure is not a list"))
          else raise (ValueError
                        ("The guess has the field " +:+ name +:+
                         " but it is not present in the optimization structure"))
        else ret tt
  end.

(** [_set_initial_guess_internal] (lines 193-340) *)
Fixpoint _set_initial_guess_internal (fuel : nat)
    (initial_guess corresponding_variable : val) : M unit :=
  match fuel with
  | 0 => raise RecursionError
  | S fuel' =>
      fields <- dataclasses_fields initial_guess ;;
      for_each (guess_field (_set_initial_guess_internal fuel')
                            initial_guess corresponding_variable) fields
  end.

(** [set_initial_guess] (lines 362-386) *)
Definition set_initial_guess (fuel : nat) (initial_guess : val) : M unit :=
  h <- gets heap ;;
  if isinstance_list h initial_guess then
    vars <- gets (fun st => _variables (self st)) ;;
    if isinstance_list h vars then
      guess_list_loop (gets (fun st => _variables (self st)))
        "The input guess is a list, but the specified variables structure is not"
        (_set_initial_guess_internal fuel) (list_items h initial_guess) 0
    else raise (ValueError
                  "The input guess is a list, but the specified variables structure is not")
  else
    vars <- gets (fun st => _variables (self st)) ;;
    _set_initial_guess_internal fuel initial_guess vars.

(** [register_problem], [get_problem] *)
Definition register_problem (problem : val) : M unit := modify_self (with_problem problem).

Definition get_problem : M val :=
  p <- gets (fun st => _problem (self st)) ;;
  match p with
  | VNone => raise ProblemNotRegisteredException
  | _ => ret p
  end.

(** [set_opti_options] (lines 388-403) *)
Definition set_opti_options (inner_solver : option string)
    (options_solver options_plugin : option options) : M unit :=
  modify_self (fun s =>
    let inner := match inner_solver with Some x => x | None => _inner_solver s end in
    let op := match options_plugin with Some x => x | None => _options_plugin s end in
    let os := match options_solver with Some x => x | None => _options_solver s end in
    with_solver (Opti_solver inner op os (_solver s)) (with_options inner op os s)).

Definition cost_as_val (c : option MX) : val :=
  match c with
  | Some m => VMX m
  | None => VNone
  end.

(** [solve] (lines 405-410) *)
Definition solve `{Engine} (fuel : nat) : M unit :=
  s <- gets self ;;
  o <- lift_engine (Opti_minimize (_cost s) (_solver s)) ;;
  modify_self (with_solver o) ;;;
  sol <- lift_engine (Opti_solve o) ;;
  modify_self (with_opti_solution (Some sol)) ;;;
  c <- lift_engine (sol (cost_as_val (_cost s))) ;;
  modify_self (with_output_cost (Some c)) ;;;
  vars <- gets (fun st => _variables (self st)) ;;
  out <- _generate_solution_output fuel vars ;;
  modify_self (with_output_solution out).

(** [get_values], [get_cost_value] (lines 412-420) *)
Definition get_values : M val :=
  x <- gets (fun st => _output_solution (self st)) ;;
  match x with
  | VNone => raise SolutionNotAvailableException
  | _ => ret x
  end.

Definition get_cost_value : M ndarray :=
  x <- gets (fun st => _output_cost (self st)) ;;
  match x with
  | None => raise SolutionNotAvailableException
  | Some c => ret c
  end.

(** [add_cost] (lines 422-427): [self._cost += input_cost] is casadi's sum,
    which raises when the dimensions do not go together; the cost is then
    left as it was. *)
Definition add_cost `{Engine} (input_cost : MX) : M unit :=
  c <- gets (fun st => _cost (self st)) ;;
  match c with
  | None => modify_self (with_cost (Some input_cost))
  | Some c =>
      match MX_plus_error c input_cost with
      | Some msg => raise (EngineError msg)
      | None => modify_self (with_cost (Some (MX_add c input_cost)))
      end
  end.

(** [add_constraint] (lines 429-430): the engine raises for an expression
    that is no constraint, and records the others *)
Definition add_constraint `{Engine} (input_constraint : MX) : M unit :=
  s <- gets self ;;
  match Opti_subject_to_error input_constraint (_solver s) with
  | Some msg => raise (EngineError msg)
  | None => modify_self (fun s => with_solver (Opti_subject_to input_constraint (_solver s)) s)
  end.

(** [cost_function] (lines 432-433) *)

Definition cost_function : M (option MX) := gets (fun st => _cost (self st)).

(** ** Engines and sessions used in the examples *)

(** the array that [np.array(sol.value(m))] is for a solution that is zero
    everywhere: no dimension for a scalar, one for a vector, two for a
    matrix *)
Definition zeros (m : MX) : ndarray :=
  let '(r, c) := MX_shape m in
  if decide (r = 1 /\ c = 1) then mk_ndarray [] [0%Z]
  else if decide (r = 1 \/ c = 1) then mk_ndarray [r * c] (replicate (r * c) 0%Z)
  else mk_ndarray [r; c] (replicate (r * c) 0%Z).

Definition zero_solution : OptiSol :=
  fun v =>
    match v with
    | VMX m => inr (zeros m)
    | _ => inl "value: wrong number or type of arguments"
    end.

(** what the example engines accept: the problem types of casadi, sums of
    expressions of the same dimensions or with a scalar, comparisons as
    constraints, a scalar expression as objective *)
Definition problem_type_error (problem_type : string) : option string :=
  if decide (problem_type = "nlp" \/ problem_type = "conic") then None
  else Some "Unknown problem type".

Definition dimension_mismatch (a b : MX) : option string :=
  if decide (MX_shape a = MX_shape b \/ MX_shape a = (1, 1) \/ MX_shape b = (1, 1))
  then None
  else Some "Dimension mismatch for x+y".

Definition not_a_constraint (c : MX) (o : Opti) : option string :=
  match c with
  | MX_le _ _ | MX_eq _ _ => None
  | _ => Some "subject_to: the expression is not a constraint"
  end.

Definition minimize_scalar (c : option MX) (o : Opti) : string + Opti :=
  match c with
  | Some c =>
      if decide (MX_shape c = (1, 1)) then inr (Opti_set_objective c o)
      else inl "minimize: the objective must be a scalar"
  | None => inl "minimize: wrong number or type of arguments"
  end.

(** An engine whose solver always converges (to zero). *)
Definition strict_engine : Engine := {|
  Opti_problem_type_error := problem_type_error;
  MX_plus_error := dimension_mismatch;
  Opti_subject_to_error := not_a_constraint;
  Opti_minimize := minimize_scalar;
  Opti_minimize_None o := ex_intro _ "minimize: wrong number or type of arguments" eq_refl;
  Opti_solve _ := inr zero_solution |}.

(** An engine whose solver never converges. *)
Definition failing_engine : Engine := {|
  Opti_problem_type_error := problem_type_error;
  MX_plus_error := dimension_mismatch;
  Opti_subject_to_error := not_a_constraint;
  Opti_minimize := minimize_scalar;
  Opti_minimize_None o := ex_intro _ "minimize: wrong number or type of arguments" eq_refl;
  Opti_solve _ := inl "Infeasible_Problem_Detected" |}.

(** a session constructed without arguments, over the objects [h] *)
Definition new_session (h : list cell) : state :=
  Eval vm_compute in
    snd (@__post_init__ strict_engine "nlp" None None (mk_state h OptiSolver_defaults)).

Definition array (dims : list nat) : val := VArray (mk_ndarray dims []).

Definition example_template : list cell :=
  [OptimizationObject
     [mk_field "x" (Some Variable_StorageTypeValue) (array [2]);
      mk_field "p" (Some Parameter_StorageTypeValue) (array [1])]].

(** a session with generated objects and no cost *)
Definition session_without_cost : state :=
  Eval vm_compute in
    snd (generate_optimization_objects 10 (VRef 0) (new_session example_template)).

(** a template with an untagged field that holds a list of lists *)
Definition plain_nested_template : list cell :=
  [PyList [VNum 1];
   PyList [VRef 0];
   OptimizationObject [mk_field "data" None (VRef 1)]].

(** the session of the scenario with the cost [p + 2] *)
Definition session_with_cost : state :=
  Eval vm_compute in
    snd (@add_cost strict_engine (MX_add (MX_sym true 1 1 1) (MX_const 2))
           session_without_cost).

(** a session with a constant cost in which nothing was generated *)
Definition constant_cost_session : state :=
  Eval vm_compute in snd (@add_cost strict_engine (MX_const 1) (new_session [])).

(** a guess for the scenario: a value for [x], none for [p] *)
Definition guess_state : state :=
  mk_state
    (heap session_without_cost ++
     [OptimizationObject
        [mk_field "x" (Some Variable_StorageTypeValue) (VArray (mk_ndarray [2] [3; 4]%Z));
         mk_field "p" (Some Parameter_StorageTypeValue) VNone]])
    (self session_without_cost).

(** three structures generated from a list, and guesses for them *)
Definition list_template : list cell :=
  [OptimizationObject [mk_field "x" (Some Variable_StorageTypeValue) (array [2])];
   PyList [VRef 0; VRef 0; VRef 0]].

Definition list_session : state :=
  Eval vm_compute in
    snd (generate_optimization_objects 10 (VRef 1) (new_session list_template)).

Definition guess_list_state : state :=
  mk_state
    (heap list_session ++
     [OptimizationObject
        [mk_field "x" (Some Variable_StorageTypeValue) (VArray (mk_ndarray [2] [3; 4]%Z))];
      PyList [VRef 10];
      PyList [VRef 10; VRef 10; VRef 10; VRef 10]])
    (self list_session).

(** a storage field that holds a list of arrays *)
Definition storage_list_template : list cell :=
  [PyList [array [3]; array [2; 4]];
   OptimizationObject [mk_field "xs" (Some Variable_StorageTypeValue) (VRef 0)]].

(** * Notions used in the statements and proofs *)

(** [wp m Q st]: running [m] from [st] ends, by a result or by an exception,
    in an outcome and a state that satisfy [Q]. *)
Definition wp {A} (m : M A) (Q : exn + A -> state -> Prop) (st : state) : Prop :=
  Q (fst (m st)) (snd (m st)).

(** an operation that leaves the state as it is *)
Definition readonly {A} (m : M A) : Prop := forall st, snd (m st) = st.

(** an operation that leaves every existing object as it is *)
Definition grows_heap {A} (m : M A) : Prop :=
  forall st, wp m (fun _ st' => heap st `prefix_of` heap st') st.

(** a reference to an object created at or after heap size [n] *)
Definition fresh_val (n : nat) (v : val) : Prop :=
  match v with VRef y => n <= y | _ => True end.

(** the copies recorded in a memo were all created at or after heap size [n] *)
Definition memo_fresh (n : nat) (memo : list (loc * loc)) : Prop :=
  forall l y, lookup_memo l memo = Some y -> n <= y.

(** what a step of [copy.deepcopy] ensures: the heap has only grown, the
    session is untouched, the memo is still fresh and the copy satisfies [P] *)
Definition copy_post (n : nat) (st : state) {A} (r : exn + (A * list (loc * loc))) (st' : state)
    (P : A -> Prop) : Prop :=
  heap st `prefix_of` heap st' /\ self st' = self st /\
  forall v memo', r = inr (v, memo') -> memo_fresh n memo' /\ P v.

(** a value that is not a container *)
Definition is_atom (v : val) : Prop := forall l, v <> VRef l.

(** a field that is neither tagged nor a container *)
Definition plain_atom (f : field) : Prop := fmetadata f = None /\ is_atom (fvalue f).

(** ** Storage fields *)

(** the two roles the code knows *)
Definition supported (storage_type : StorageType) : Prop :=
  storage_type = Variable_StorageTypeValue \/ storage_type = Parameter_StorageTypeValue.

Definition is_parameter_type (storage_type : StorageType) : bool :=
  match storage_type with
  | Parameter_StorageTypeValue => true
  | _ => false
  end.

(** the column convention of the data model: [(N,)] stands for [(N, 1)] *)
Definition column_shape (dims : list nat) : list nat :=
  match dims with
  | [n] => [n; 1]
  | _ => dims
  end.

(** an array of rank 1 or 2 *)
Definition matrix_like (a : ndarray) : Prop := ndim a = 1 \/ ndim a = 2.

(** rows and columns of an array of rank 1 or 2, in column form *)
Definition rows_cols (a : ndarray) : nat * nat :=
  match column_shape (shape a) with
  | [r; c] => (r, c)
  | _ => (0, 0)
  end.

(** the symbols the engine hands out for a list of arrays, from number [k] on *)
Fixpoint handles (is_parameter : bool) (k : nat) (arrs : list ndarray) : list MX :=
  match arrs with
  | [] => []
  | a :: arrs' =>
      MX_sym is_parameter k (fst (rows_cols a)) (snd (rows_cols a))
        :: handles is_parameter (S k) arrs'
  end.

(** the engine after it has handed out one, or [n], symbols *)
Definition add_symbol (o : Opti) : Opti :=
  mk_Opti (problem_type o) (plugin o) (S (n_symbols o)) (initial_store o) (value_store o)
          (objective o) (constraints o).

Definition add_symbols (n : nat) (o : Opti) : Opti :=
  mk_Opti (problem_type o) (plugin o) (n + n_symbols o) (initial_store o) (value_store o)
          (objective o) (constraints o).

(** the engine after a guess is pushed: an initial value for a variable, a
    fixed value for a parameter *)
Definition push_guess (storage_type : StorageType) (leaf : MX) (a : ndarray) (o : Opti) : Opti :=
  match storage_type with
  | Parameter_StorageTypeValue => Opti_set_value leaf a o
  | _ => Opti_set_initial leaf a o
  end.

(** ** Lists of guesses *)

(** index-wise binding of a list of guesses against a list of structures *)
Definition bind_pairwise (fuel : nat) (guesses variables : list val) : M unit :=
  for_each (fun p => _set_initial_guess_internal fuel (fst p) (snd p))
           (combine guesses variables).

(** index-wise binding, then the length error if the guesses outnumber the
    structures *)
Definition list_guess_outcome (fuel : nat) (msg : string) (guesses variables : list val)
    : M unit :=
  bind_pairwise fuel guesses variables ;;;
  if decide (length variables < length guesses) then raise (ValueError msg) else ret tt.

(** what the binder leaves in place: the heap and the tracked structure *)
Definition binder_keeps (st st' : state) : Prop :=
  heap st' = heap st /\ _variables (self st') = _variables (self st).

(** the list at [l] holds [items], all of them structures *)
Definition is_list_of_objects (h : list cell) (l : loc) (items : list val) : Prop :=
  h !! l = Some (PyList items) /\ forallb (isinstance_OptimizationObject h) items = true.
(** ** Notions used for the rest of the session *)

(** what the generator does to the session: it hands out symbols and sets
    the tracked structure *)
Definition generator_keeps (s s' : OptiSolver) : Prop :=
  exists n v, s' = with_variables v (with_solver (add_symbols n (_solver s)) s).

(** the engine after guesses are pushed: initial values and fixed values are
    appended *)
Definition add_guesses (ini vals : list (MX * ndarray)) (o : Opti) : Opti :=
  mk_Opti (problem_type o) (plugin o) (n_symbols o) (initial_store o ++ ini)
          (value_store o ++ vals) (objective o) (constraints o).

(** what the binder does to the state: it pushes guesses to the engine *)
Definition binder_pushes (st st' : state) : Prop :=
  exists ini vals,
    st' = mk_state (heap st) (with_solver (add_guesses ini vals (_solver (self st))) (self st)).

(** the engine is configured with the options the session records *)
Definition options_in_sync (s : OptiSolver) : Prop :=
  plugin (_solver s) = Some (_inner_solver s, _options_plugin s, _options_solver s).

(** names and metadata of the fields, in order *)
Definition field_signature (fs : list field) : list (string * option StorageType) :=
  map (fun f => (fname f, fmetadata f)) fs.

(** a guess for the scenario whose second field has the wrong shape *)
Definition partial_guess_state : state :=
  mk_state
    (heap session_without_cost ++
     [OptimizationObject
        [mk_field "x" (Some Variable_StorageTypeValue) (VArray (mk_ndarray [2] [3; 4]%Z));
         mk_field "p" (Some Parameter_StorageTypeValue) (VArray (mk_ndarray [5] []))]])
    (self session_without_cost).

(** what [solve] leaves in the session: the tracked structure, the cost, the
    problem and the options *)
Definition solve_keeps (s s' : OptiSolver) : Prop :=
  _variables s' = _variables s /\ _cost s' = _cost s /\ _problem s' = _problem s /\
  _inner_solver s' = _inner_solver s /\ _options_plugin s' = _options_plugin s /\
  _options_solver s' = _options_solver s.

(** the field of the solution of a flat structure: the value of the leaf for
    a Variable or a Parameter, the field itself otherwise *)
Definition solved_field (sol : OptiSol) (f : field) : field :=
  if is_variable_or_parameter (fmetadata f) then
    match sol (fvalue f) with
    | inr a => with_fvalue f (VArray a)
    | inl _ => f
    end
  else f.

(** the session of the scenario after a successful [solve] *)
Definition solved_session : state := snd (@solve strict_engine 10 session_with_cost).

(** the cost after the terms are added one after the other to the cost [c]:
    sums nest to the left *)
Definition total_cost (c : option MX) (terms : list MX) : option MX :=
  match c, terms with
  | Some c0, _ => Some (fold_left MX_add terms c0)
  | None, [] => None
  | None, t :: ts => Some (fold_left MX_add ts t)
  end.

(** the engine accepts every sum that adding [terms], one after the other,
    to the cost [c] asks for *)
Fixpoint sums_defined `{Engine} (c : option MX) (terms : list MX) : Prop :=
  match terms with
  | [] => True
  | t :: ts =>
      match c with
      | None => sums_defined (Some t) ts
      | Some c0 => MX_plus_error c0 t = None /\ sums_defined (Some (MX_add c0 t)) ts
      end
  end.

(** the handle that stands for the array [a] when it is symbol number [k] *)
Definition handle_of (storage_type : StorageType) (k : nat) (a : ndarray) : MX :=
  MX_sym (is_parameter_type storage_type) k (fst (rows_cols a)) (snd (rows_cols a)).

(** a field tagged Variable or Parameter that holds an array of rank 1 or 2 *)
Definition array_storage (f : field) : Prop :=
  exists storage_type a,
    fmetadata f = Some storage_type /\ supported storage_type /\
    fvalue f = VArray a /\ matrix_like a.

(** the fields generated from the storage fields [fs], the first symbol
    being number [k] *)
Fixpoint symbolic_fields (k : nat) (fs : list field) : list field :=
  match fs with
  | [] => []
  | f :: fs' =>
      match fmetadata f, fvalue f with
      | Some storage_type, VArray a =>
          with_fvalue f (VMX (handle_of storage_type k a)) :: symbolic_fields (S k) fs'
      | _, _ => f :: symbolic_fields k fs'
      end
  end.

(** the engine after the arrays of the storage fields [fs] are pushed as
    guesses for their handles *)
Fixpoint template_guesses (k : nat) (fs : list field) (o : Opti) : Opti :=
  match fs with
  | [] => o
  | f :: fs' =>
      match fmetadata f, fvalue f with
      | Some storage_type, VArray a =>
          template_guesses (S k) fs' (push_guess storage_type (handle_of storage_type k a) a o)
      | _, _ => template_guesses k fs' o
      end
  end.

(** the tracked structure is what it was, or an object created at or after
    heap size [n] *)
Definition tracks_since (n : nat) (s s' : OptiSolver) : Prop :=
  _variables s' = _variables s \/ exists z, _variables s' = VRef z /\ n <= z.

(** a failing template: a nested structure, then a storage field without
    value *)
Definition nested_failing_template : list cell :=
  [OptimizationObject [mk_field "gain" None (VNum 2)];
   OptimizationObject
     [mk_field "inner" None (VRef 0);
      mk_field "x" (Some Variable_StorageTypeValue) VNone]].

(** a structure inside a structure *)
Definition nested_template : list cell :=
  [OptimizationObject [mk_field "x" (Some Variable_StorageTypeValue) (array [2])];
   OptimizationObject [mk_field "inner" None (VRef 0)]].


(** two variables of different lengths *)
Definition mismatch_template : list cell :=
  [OptimizationObject
     [mk_field "x" (Some Variable_StorageTypeValue) (array [2]);
      mk_field "y" (Some Variable_StorageTypeValue) (array [3])]].

Definition mismatch_session : state :=
  Eval vm_compute in
    snd (generate_optimization_objects 10 (VRef 0) (new_session mismatch_template)).

(** * Reasoning rules *)


Lemma wp_mono {A} (m : M A) (Q Q' : exn + A -> state -> Prop) st :
  wp m Q st -> (forall r st', Q r st' -> Q' r st') -> wp m Q' st.
Proof. unfold wp. auto. Qed.

Lemma wp_and {A} (m : M A) (Q Q' : exn + A -> state -> Prop) st :
  wp m Q st -> wp m Q' st -> wp m (fun r st' => Q r st' /\ Q' r st') st.
Proof. unfold wp. auto. Qed.

Lemma wp_ret {A} (a : A) Q st : Q (inr a) st -> wp (ret a) Q st.
Proof. auto. Qed.

Lemma wp_raise {A} e (Q : exn + A -> state -> Prop) st : Q (inl e) st -> wp (raise e) Q st.
Proof. auto. Qed.

Lemma wp_bind {A B} (m : M A) (k : A -> M B) Q st :
  wp m (fun r st' => match r with
                     | inr a => wp (k a) Q st'
                     | inl e => Q (inl e) st'
                     end) st ->
  wp (bind m k) Q st.
Proof. unfold wp, bind. destruct (m st) as [[e|a] st']; auto. Qed.

Lemma wp_gets {A} (f : state -> A) Q st : Q (inr (f st)) st -> wp (gets f) Q st.
Proof. auto. Qed.

Lemma wp_modify_self f Q st :
  Q (inr tt) (mk_state (heap st) (f (self st))) -> wp (modify_self f) Q st.
Proof. auto. Qed.

Lemma wp_read l Q st :
  (forall c, heap st !! l = Some c -> Q (inr c) st) ->
  (heap st !! l = None -> Q (inl InvalidReference) st) ->
  wp (read l) Q st.
Proof. unfold wp, read. destruct (heap st !! l); simpl; auto. Qed.

Lemma wp_alloc c Q st :
  Q (inr (length (heap st))) (mk_state (heap st ++ [c]) (self st)) -> wp (alloc c) Q st.
Proof. auto. Qed.

Lemma wp_write l c Q st :
  Q (inr tt) (mk_state (<[l := c]> (heap st)) (self st)) -> wp (write l c) Q st.
Proof. auto. Qed.

Lemma wp_lift_engine {A} (r : string + A) Q st :
  (forall a, r = inr a -> Q (inr a) st) ->
  (forall msg, r = inl msg -> Q (inl (EngineError msg)) st) ->
  wp (lift_engine r) Q st.
Proof. destruct r; unfold lift_engine, wp; simpl; auto. Qed.

(** A loop keeps an invariant that each turn keeps; an exception leaves it
    with the turn's own postcondition. *)
Lemma wp_for_each {A} (body : A -> M unit) (I : state -> Prop) Q l st :
  I st ->
  (forall x st, x ∈ l -> I st ->
     wp (body x) (fun r st' => match r with
                               | inr _ => I st'
                               | inl e => Q (inl e) st'
                               end) st) ->
  (forall st, I st -> Q (inr tt) st) ->
  wp (for_each body l) Q st.
Proof.
  intros HI Hbody Hend. revert st HI.
  induction l as [|x l IH]; intros st HI; simpl.
  - apply wp_ret. auto.
  - apply wp_bind. eapply wp_mono.
    + apply Hbody; [left | exact HI].
    + intros [e|[]] st' H; [exact H|].
      apply IH; [|exact H].
      intros y st0 Hy. apply Hbody. by right.
Qed.

Ltac wp_step :=
  lazymatch goal with
  | |- wp (bind _ _) _ _ => apply wp_bind
  | |- wp (ret _) _ _ => apply wp_ret
  | |- wp (raise _) _ _ => apply wp_raise
  | |- wp (gets _) _ _ => apply wp_gets
  | |- wp (modify_self _) _ _ => apply wp_modify_self
  | |- wp (read _) _ _ => apply wp_read; [intros ? ? | intros ?]
  | |- wp (alloc _) _ _ => apply wp_alloc
  | |- wp (write _ _) _ _ => apply wp_write
  | |- wp (lift_engine _) _ _ => apply wp_lift_engine; [intros ? ? | intros ? ?]
  | |- wp (match ?x with _ => _ end) _ _ => destruct x eqn:?
  end; cbv beta iota.

Ltac wp_steps := repeat wp_step.

(** Use a proved specification of the next call. *)
Tactic Notation "wp_use" uconstr(H) :=
  eapply wp_mono; [eapply H | cbv beta; intros ? ? ?].

Tactic Notation "wp_use" uconstr(H) "as" simple_intropattern(p) :=
  eapply wp_mono; [eapply H | cbv beta; intros ? ? p].

Lemma wp_any {A} (m : M A) st : wp m (fun _ _ => True) st.
Proof. done. Qed.

(** ** Running a computation step by step *)

Lemma bind_run {A B} (m : M A) (k : A -> M B) st a st' :
  m st = (inr a, st') -> bind m k st = k a st'.
Proof. unfold bind. by intros ->. Qed.

Lemma bind_fail {A B} (m : M A) (k : A -> M B) st e st' :
  m st = (inl e, st') -> bind m k st = (inl e, st').
Proof. unfold bind. by intros ->. Qed.

Lemma read_run l c st : heap st !! l = Some c -> read l st = (inr c, st).
Proof. unfold read. by intros ->. Qed.

Lemma getattribute_run o fs n v st :
  heap st !! o = Some (OptimizationObject fs) -> lookup_field n fs = Some v ->
  getattribute (VRef o) n st = (inr v, st).
Proof.
  intros Ho Hn. unfold getattribute. rewrite (bind_run _ _ _ _ _ (read_run _ _ _ Ho)).
  by rewrite Hn.
Qed.

Lemma setattr_run o fs n v st :
  heap st !! o = Some (OptimizationObject fs) ->
  setattr (VRef o) n v st =
    (inr tt, mk_state (<[o := OptimizationObject (update_field n v fs)]> (heap st)) (self st)).
Proof.
  intros Ho. unfold setattr. by rewrite (bind_run _ _ _ _ _ (read_run _ _ _ Ho)).
Qed.

Lemma append_run y items v st :
  heap st !! y = Some (PyList items) ->
  append (VRef y) v st =
    (inr tt, mk_state (<[y := PyList (items ++ [v])]> (heap st)) (self st)).
Proof.
  intros Hy. unfold append. by rewrite (bind_run _ _ _ _ _ (read_run _ _ _ Hy)).
Qed.

Lemma getitem_run y items i v st :
  heap st !! y = Some (PyList items) -> items !! i = Some v ->
  getitem (VRef y) i st = (inr v, st).
Proof.
  intros Hy Hi. unfold getitem. rewrite (bind_run _ _ _ _ _ (read_run _ _ _ Hy)).
  by rewrite Hi.
Qed.

Lemma py_len_run y items st :
  heap st !! y = Some (PyList items) -> py_len (VRef y) st = (inr (length items), st).
Proof.
  intros Hy. unfold py_len. by rewrite (bind_run _ _ _ _ _ (read_run _ _ _ Hy)).
Qed.

Lemma lookup_field_update n v fs :
  is_Some (lookup_field n fs) -> lookup_field n (update_field n v fs) = Some v.
Proof.
  induction fs as [|f fs IH]; simpl; [by intros [? ?]|].
  destruct (String.eqb (fname f) n) eqn:E; simpl; rewrite E; auto.
Qed.

(** * The heap only grows

    Every write of the generator goes to an object that the call itself
    created: objects that exist before the call are left as they are. *)

Lemma prefix_insert_ge (h0 h : list cell) i c :
  h0 `prefix_of` h -> length h0 <= i -> h0 `prefix_of` <[i := c]> h.
Proof.
  intros [k ->] Hi. rewrite insert_app_r_alt by done. by apply prefix_app_r.
Qed.

Lemma prefix_snoc (h0 h : list cell) c : h0 `prefix_of` h -> h0 `prefix_of` h ++ [c].
Proof. intros. by apply prefix_app_r. Qed.

Lemma memo_fresh_cons n l y memo : n <= y -> memo_fresh n memo -> memo_fresh n ((l, y) :: memo).
Proof.
  intros Hy Hm l' y'. simpl. case_decide; [intros [= <-]; done | apply Hm].
Qed.

Lemma deepcopy_items_frame copy n :
  (forall x memo st, n <= length (heap st) -> memo_fresh n memo ->
     wp (copy x memo) (fun r st' => copy_post n st r st' (fresh_val n)) st) ->
  forall items memo st, n <= length (heap st) -> memo_fresh n memo ->
     wp (deepcopy_items copy items memo)
        (fun r st' => copy_post n st r st'
                        (fun vs => Forall (fresh_val n) vs /\ length vs = length items)) st.
Proof.
  intros Hcopy. induction items as [|x items IH]; intros memo st Hn Hm; simpl.
  - wp_steps. split; [done|]. split; [done|]. intros v m' [= <- <-]. auto.
  - wp_step. wp_use Hcopy; [done..|].
    destruct H as (Hp & Hs & Hr). destruct r as [e|[v memo1]].
    { split; [done|]. split; [done|]. discriminate. }
    destruct (Hr _ _ eq_refl) as [Hm1 Hv].
    wp_step. wp_use IH; [ by etrans; [|apply prefix_length] | done |].
    destruct H as (Hp2 & Hs2 & Hr2). destruct r as [e|[vs memo2]].
    { split; [by etrans|]. split; [congruence|]. discriminate. }
    destruct (Hr2 _ _ eq_refl) as [Hm2 [Hvs Hlen]].
    wp_steps. split; [by etrans|]. split; [congruence|].
    intros ? ? [= <- <-]. simpl. auto.
Qed.

Lemma deepcopy_memo_frame n fuel :
  forall x memo st, n <= length (heap st) -> memo_fresh n memo ->
    wp (deepcopy_memo fuel x memo) (fun r st' => copy_post n st r st' (fresh_val n)) st.
Proof.
  assert (forall x memo st, memo_fresh n memo -> fresh_val n x ->
            wp (ret (x, memo)) (fun r st' => copy_post n st r st' (fresh_val n)) st) as Hret.
  { intros. wp_steps. split; [done|]. split; [done|]. by intros ? ? [= <- <-]. }
  assert (forall e st, wp (raise e)
            (fun (r : exn + val * list (loc * loc)) st' =>
               copy_post n st r st' (fresh_val n)) st) as Hraise.
  { intros. wp_steps. split; [done|]. split; [done|]. by intros ? ? [=]. }
  induction fuel as [|fuel IH]; intros x memo st Hn Hm;
    (destruct x as [| | | | |l]; simpl; [by apply Hret..|]);
    (destruct (lookup_memo l memo) eqn:Hl; [apply Hret; [done | by eapply Hm] |]).
  - apply Hraise.
  - wp_step. wp_step; [|apply Hraise].
    assert (forall items (mk : list val -> cell) (c0 : cell),
      wp (y <- alloc c0;;
          r <- deepcopy_items (deepcopy_memo fuel) items ((l, y) :: memo);;
          write y (mk (fst r));;; ret (VRef y, snd r))
         (fun r st' => copy_post n st r st' (fresh_val n)) st) as Hgo.
    { intros items mk c0. wp_steps.
      wp_use (deepcopy_items_frame (deepcopy_memo fuel) n IH).
      { simpl. rewrite length_app. lia. }
      { by apply memo_fresh_cons. }
      destruct H0 as (Hp & Hs & Hr). simpl in Hp, Hs.
      assert (heap st `prefix_of` heap st') as Hp'.
      { etrans; [|exact Hp]. by apply prefix_app_r. }
      destruct r as [e|[vs memo1]]; [split; [done|]; split; [done|]; by intros ? ? [=] |].
      destruct (Hr _ _ eq_refl) as (Hm1 & _).
      wp_steps. split; [by apply prefix_insert_ge|]. split; [done|].
      by intros ? ? [= <- <-]. }
    destruct c as [fs|items].
    + apply (Hgo (map fvalue fs) (fun vs => OptimizationObject (zip_with with_fvalue fs vs))).
    + apply (Hgo items PyList).
Qed.

Lemma deepcopy_frame fuel x st :
  wp (deepcopy fuel x)
     (fun r st' => heap st `prefix_of` heap st' /\ self st' = self st /\
                   forall v, r = inr v -> fresh_val (length (heap st)) v) st.
Proof.
  unfold deepcopy. wp_step.
  wp_use (deepcopy_memo_frame (length (heap st)) fuel x [] st); [done | by intros ? ? |].
  destruct H as (Hp & Hs & Hr). destruct r as [e|[v memo]]; [split; [done|]; split; [done|]; by intros ? [=] |].
  wp_steps. split; [done|]. split; [done|]. intros ? [= <-]. by apply (Hr _ _ eq_refl).
Qed.

Lemma wp_readonly {A} (m : M A) Q st :
  readonly m -> (forall r, m st = (r, st) -> Q r st) -> wp m Q st.
Proof.
  intros Hm HQ. unfold wp. specialize (Hm st).
  destruct (m st) as [r st'] eqn:E. simpl in *. subst. auto.
Qed.

Lemma readonly_ret {A} (a : A) : readonly (ret a).
Proof. done. Qed.

Lemma readonly_raise {A} e : readonly (@raise A e).
Proof. done. Qed.

Lemma readonly_gets {A} (f : state -> A) : readonly (gets f).
Proof. done. Qed.

Lemma readonly_read l : readonly (read l).
Proof. intros st. unfold read. by destruct (heap st !! l). Qed.

Lemma readonly_bind {A B} (m : M A) (k : A -> M B) :
  readonly m -> (forall a, readonly (k a)) -> readonly (bind m k).
Proof.
  intros Hm Hk st. unfold bind. specialize (Hm st).
  destruct (m st) as [[e|a] st']; simpl in *; subst; [done|apply Hk].
Qed.

Ltac readonly_tac :=
  repeat first
    [ apply readonly_ret | apply readonly_raise | apply readonly_gets | apply readonly_read
    | apply readonly_bind; [|intros ?]
    | match goal with |- readonly (match ?x with _ => _ end) => destruct x end ].

Lemma readonly_getattribute x n : readonly (getattribute x n).
Proof. unfold getattribute. readonly_tac. Qed.

Lemma readonly_dataclasses_fields x : readonly (dataclasses_fields x).
Proof. unfold dataclasses_fields. readonly_tac. Qed.

Lemma readonly_py_len x : readonly (py_len x).
Proof. unfold py_len. readonly_tac. Qed.

Lemma readonly_getitem x i : readonly (getitem x i).
Proof. unfold getitem. readonly_tac. Qed.

Lemma readonly_shape_attr x : readonly (shape_attr x).
Proof. unfold shape_attr. readonly_tac. Qed.

Lemma readonly_np_expand_dims a axis : readonly (np_expand_dims a axis).
Proof. unfold np_expand_dims. readonly_tac. Qed.

Lemma readonly_guess_input_shape g : readonly (guess_input_shape g).
Proof. unfold guess_input_shape. readonly_tac. Qed.

Lemma wp_setattr x n v Q st :
  (forall e, Q (inl e) st) ->
  (forall l fs, x = VRef l -> heap st !! l = Some (OptimizationObject fs) ->
     Q (inr tt) (mk_state (<[l := OptimizationObject (update_field n v fs)]> (heap st)) (self st))) ->
  wp (setattr x n v) Q st.
Proof.
  intros He Hok. unfold setattr. destruct x; try (apply wp_raise, He).
  wp_steps; auto.
Qed.

Lemma wp_setitem x i v Q st :
  (forall e, Q (inl e) st) ->
  (forall l items, x = VRef l -> heap st !! l = Some (PyList items) -> i < length items ->
     Q (inr tt) (mk_state (<[l := PyList (<[i := v]> items)]> (heap st)) (self st))) ->
  wp (setitem x i v) Q st.
Proof.
  intros He Hok. unfold setitem. destruct x; try (apply wp_raise, He).
  wp_steps; auto.
Qed.

Lemma wp_append x v Q st :
  (forall e, Q (inl e) st) ->
  (forall l items, x = VRef l -> heap st !! l = Some (PyList items) ->
     Q (inr tt) (mk_state (<[l := PyList (items ++ [v])]> (heap st)) (self st))) ->
  wp (append x v) Q st.
Proof.
  intros He Hok. unfold append. destruct x; try (apply wp_raise, He).
  wp_steps; auto.
Qed.

Lemma wp_new_symbol p r c Q st :
  Q (inr (MX_sym p (n_symbols (_solver (self st))) r c))
    (mk_state (heap st) (with_solver (snd (Opti_new_symbol p r c (_solver (self st)))) (self st))) ->
  wp (new_symbol p r c) Q st.
Proof. auto. Qed.

Lemma wp_star_dims p dims Q st :
  (forall e, Q (inl e) st) ->
  (forall r c,
     Q (inr (MX_sym p (n_symbols (_solver (self st))) r c))
       (mk_state (heap st)
          (with_solver (snd (Opti_new_symbol p r c (_solver (self st)))) (self st)))) ->
  wp (star_dims p dims) Q st.
Proof.
  intros He Hok. unfold star_dims.
  destruct dims as [|n [|m [|? ?]]]; first [apply wp_new_symbol | apply wp_raise]; auto.
Qed.

(** [_generate_opti_object] does not touch the heap *)
Lemma _generate_opti_object_heap storage_type name value st :
  wp (_generate_opti_object storage_type name value) (fun _ st' => heap st' = heap st) st.
Proof.
  unfold _generate_opti_object.
  assert (forall v st0, heap st0 = heap st ->
    wp match storage_type with
       | Variable_StorageTypeValue => dims <- shape_attr v;; Opti_variable dims
       | Parameter_StorageTypeValue => dims <- shape_attr v;; Opti_parameter dims
       | Other_StorageTypeValue _ => raise (ValueError "Unsupported input storage type")
       end (fun _ st' => heap st' = heap st) st0) as Htail.
  { intros v st0 H0. destruct storage_type; wp_step; try done;
      (apply wp_readonly; [apply readonly_shape_attr|]; intros [e|dims] _; [done|]);
      apply wp_star_dims; done. }
  destruct value as [| | |a| |]; cbv beta iota;
    try (wp_step; wp_step; by apply Htail).
  - by wp_steps.
  - wp_step. wp_step; [by wp_steps|]. wp_step.
    + wp_step. apply wp_readonly; [apply readonly_np_expand_dims|].
      intros [e|a'] _; [done|]. wp_step. by apply Htail.
    + wp_step. by apply Htail.
Qed.

Lemma wp_setattr_frame h0 x n v st :
  fresh_val (length h0) x -> h0 `prefix_of` heap st ->
  wp (setattr x n v) (fun _ st' => h0 `prefix_of` heap st') st.
Proof.
  intros Hx Hp. apply wp_setattr; [done|].
  intros l fs -> _. by apply prefix_insert_ge.
Qed.

Lemma wp_setitem_frame h0 x i v st :
  fresh_val (length h0) x -> h0 `prefix_of` heap st ->
  wp (setitem x i v) (fun _ st' => h0 `prefix_of` heap st') st.
Proof.
  intros Hx Hp. apply wp_setitem; [done|].
  intros l fs -> _ _. by apply prefix_insert_ge.
Qed.

Lemma wp_append_frame h0 x v st :
  fresh_val (length h0) x -> h0 `prefix_of` heap st ->
  wp (append x v) (fun _ st' => h0 `prefix_of` heap st') st.
Proof.
  intros Hx Hp. apply wp_append; [done|].
  intros l fs -> _. by apply prefix_insert_ge.
Qed.

Lemma generate_field_frame generate h0 output fld st :
  (forall x, grows_heap (generate x)) ->
  fresh_val (length h0) output -> h0 `prefix_of` heap st ->
  wp (generate_field generate output fld) (fun _ st' => h0 `prefix_of` heap st') st.
Proof.
  intros Hgen Hout Hp. destruct fld as [name metadata]. unfold generate_field.
  wp_step. apply wp_readonly; [apply readonly_getattribute|].
  intros [e|composite_value] _; [done|].
  wp_step. wp_step. wp_step.
  - (* a nested structure or a list of them *)
    wp_step. wp_use (Hgen composite_value).
    assert (h0 `prefix_of` heap st') by (by etrans).
    destruct r; [done|]. by apply wp_setattr_frame.
  - destruct metadata as [storage_type|]; [|by wp_step].
    wp_step. apply wp_readonly; [apply readonly_getattribute|].
    intros [e|value_field] _; [done|].
    wp_step. wp_step. wp_step. wp_step. wp_step.
    set (y := length (heap st)).
    assert (length h0 <= y) as Hy by (by apply prefix_length).
    apply wp_for_each with
      (I := fun st' => h0 `prefix_of` heap st').
    + simpl. by apply prefix_app_r.
    + intros value st1 _ Hp1. wp_step.
      wp_use (_generate_opti_object_heap storage_type name value).
      destruct r; [by rewrite H|].
      eapply wp_mono; [apply (wp_append_frame h0); [done | by rewrite H]|].
      intros [e|[]] st2 H2; done.
    + intros st1 Hp1. wp_step.
      * by apply wp_setattr_frame.
      * wp_step. apply wp_readonly; [apply readonly_getitem|].
        intros [e|x] _; [done|]. by apply wp_setattr_frame.
Qed.

Lemma _generate_objects_from_instance_frame fuel generate input_structure :
  (forall x, grows_heap (generate x)) ->
  grows_heap (_generate_objects_from_instance fuel generate input_structure).
Proof.
  intros Hgen st. unfold _generate_objects_from_instance.
  wp_step. wp_use (deepcopy_frame fuel input_structure st).
  destruct H as (Hp & _ & Hr). destruct r as [e|output]; [done|].
  specialize (Hr _ eq_refl).
  wp_step. apply wp_readonly; [apply readonly_dataclasses_fields|].
  intros [e|fields] _; [done|].
  wp_step.
  apply wp_for_each with (I := fun st1 => heap st `prefix_of` heap st1); [done| |].
  - intros fld st1 _ Hp1.
    eapply wp_mono; [by apply generate_field_frame|].
    by intros [e|[]] st2 H2.
  - intros st1 Hp1. by wp_steps.
Qed.

Lemma _generate_objects_from_list_frame fuel generate input_structure :
  (forall x, grows_heap (generate x)) ->
  grows_heap (_generate_objects_from_list fuel generate input_structure).
Proof.
  intros Hgen st. unfold _generate_objects_from_list.
  wp_step. wp_step. wp_step; [|by wp_step].
  wp_step. wp_use (deepcopy_frame fuel input_structure st).
  destruct H as (Hp & _ & Hr). destruct r as [e|output]; [done|].
  specialize (Hr _ eq_refl).
  wp_step. apply wp_readonly; [apply readonly_py_len|].
  intros [e|n] _; [done|].
  wp_step.
  apply wp_for_each with (I := fun st1 => heap st `prefix_of` heap st1); [done| |].
  - intros i st1 _ Hp1.
    wp_step. apply wp_readonly; [apply readonly_getitem|].
    intros [e|x] _; [done|].
    wp_step. wp_use (Hgen x).
    assert (heap st `prefix_of` heap st'0) by (by etrans).
    destruct r; [done|].
    eapply wp_mono; [by apply wp_setitem_frame|].
    by intros [e|[]] st2 H2.
  - intros st1 Hp1. by wp_steps.
Qed.

Lemma generate_optimization_objects_frame fuel :
  forall input_structure, grows_heap (generate_optimization_objects fuel input_structure).
Proof.
  induction fuel as [|fuel IH]; intros input_structure st; simpl.
  - by wp_step.
  - wp_step. wp_step. wp_step.
    + by apply _generate_objects_from_instance_frame.
    + by apply _generate_objects_from_list_frame.
Qed.
(** * The solution extractor keeps the session *)

(** the copy of a container is a container *)
Lemma deepcopy_ref fuel l st :
  wp (deepcopy fuel (VRef l)) (fun r _ => forall v, r = inr v -> exists y, v = VRef y) st.
Proof.
  unfold deepcopy. wp_step. destruct fuel as [|fuel]; simpl.
  - by wp_steps.
  - wp_step. wp_step; [|done]. destruct c.
    + wp_step. wp_step. wp_step. wp_use wp_any. destruct r as [e|r]; [done|].
      wp_steps. intros ? [= <-]. eauto.
    + wp_step. wp_step. wp_step. wp_use wp_any. destruct r as [e|r]; [done|].
      wp_steps. intros ? [= <-]. eauto.
Qed.

Lemma wp_setattr_self s0 x n v st :
  self st = s0 -> wp (setattr x n v) (fun _ st' => self st' = s0) st.
Proof. intros. by apply wp_setattr. Qed.

Lemma wp_setitem_self s0 x i v st :
  self st = s0 -> wp (setitem x i v) (fun _ st' => self st' = s0) st.
Proof. intros. by apply wp_setitem. Qed.

Lemma solution_field_self rec variables output fld st :
  (forall x st, wp (rec x) (fun _ st' => self st' = self st) st) ->
  wp (solution_field rec variables output fld) (fun _ st' => self st' = self st) st.
Proof.
  intros Hrec. destruct fld as [name metadata]. unfold solution_field.
  wp_step.
  - wp_step. apply wp_readonly; [apply readonly_getattribute|].
    intros [e|var] _; [done|].
    wp_step. wp_step. wp_step; [|by wp_step].
    wp_step. wp_step; [|done]. by apply wp_setattr_self.
  - wp_step. apply wp_readonly; [apply readonly_getattribute|].
    intros [e|cv] _; [done|].
    wp_step. wp_step. wp_step; [|by wp_step].
    wp_step. wp_use (Hrec cv). destruct r; [done|].
    by apply wp_setattr_self.
Qed.

Lemma deepcopy_atom fuel x st :
  (forall l, x <> VRef l) -> deepcopy fuel x st = (inr x, st).
Proof. intros Hx. destruct fuel, x; try done; by destruct (Hx l). Qed.

Lemma _generate_solution_output_self fuel :
  forall variables st,
    wp (_generate_solution_output fuel variables)
       (fun r st' => self st' = self st /\ forall out, r = inr out -> exists y, out = VRef y) st.
Proof.
  induction fuel as [|fuel IH]; intros variables st; simpl.
  - by wp_step.
  - assert (forall x st, wp (_generate_solution_output fuel x)
                            (fun _ st' => self st' = self st) st) as IH'.
    { intros x st0. eapply wp_mono; [apply IH|]. by intros ? ? [? _]. }
    destruct variables as [| | | | |l];
      try (wp_step; unfold wp at 1; rewrite deepcopy_atom by done;
           cbv beta iota; simpl; by wp_steps).
    wp_step.
    eapply wp_mono.
    { apply wp_and; [apply (deepcopy_frame fuel (VRef l) st) | apply deepcopy_ref]. }
    intros r st1 [(_ & Hs & _) Href].
    destruct r as [e|output]; [done|].
    destruct (Href _ eq_refl) as [y ->].
    wp_step. wp_step. wp_step.
    + wp_step.
      apply wp_for_each with (I := fun st2 => self st2 = self st); [done| |].
      * intros [i element] st2 _ Hs2. wp_step. wp_use (IH' element).
        destruct r; [split; [congruence|done]|].
        eapply wp_mono; [apply (wp_setitem_self (self st)); congruence|].
        intros [e|[]] st3 H3; [split|]; done.
      * intros st2 Hs2. wp_step. split; [done|]. intros ? [= <-]. eauto.
    + wp_step. apply wp_readonly; [apply readonly_dataclasses_fields|].
      intros [e|fields] _; [done|].
      wp_step.
      apply wp_for_each with (I := fun st2 => self st2 = self st); [done| |].
      * intros fld st2 _ Hs2.
        eapply wp_mono; [apply solution_field_self; apply IH'|].
        intros [e|[]] st3 H3; [split; [congruence|done] | congruence].
      * intros st2 Hs2. wp_step. split; [done|]. intros ? [= <-]. eauto.
Qed.

Lemma solve_spec `{Engine} fuel st :
  wp (solve fuel)
     (fun r st' =>
        match r with
        | inr _ => exists y c, _output_solution (self st') = VRef y /\
                               _output_cost (self st') = Some c
        | inl _ => True
        end) st.
Proof.
  unfold solve. wp_step. wp_step. wp_step. wp_step; [|done].
  wp_step. wp_step. wp_step. wp_step; [|done].
  wp_step. wp_step. wp_step. wp_step; [|done].
  wp_step. wp_step. wp_step. wp_step. wp_step.
  wp_use (_generate_solution_output_self fuel) as [Hs Hout].
  destruct r; [done|].
  destruct (Hout _ eq_refl) as [y ->]. wp_step. simpl. rewrite Hs. simpl. eauto.
Qed.

(** * The generator on a storage field *)



Lemma _generate_opti_object_array storage_type name a r c st :
  supported storage_type -> column_shape (shape a) = [r; c] ->
  _generate_opti_object storage_type name (VArray a) st =
    (inr (MX_sym (is_parameter_type storage_type) (n_symbols (_solver (self st))) r c),
     mk_state (heap st) (with_solver (add_symbol (_solver (self st))) (self st))).
Proof.
  intros Hs Hc. destruct a as [dims d]. simpl in Hc.
  destruct dims as [|n [|m [|? ?]]]; simplify_eq/=.
  - destruct Hs as [-> | ->]; done.
  - destruct Hs as [-> | ->]; done.
Qed.

Lemma matrix_like_column_shape a :
  matrix_like a -> column_shape (shape a) = [fst (rows_cols a); snd (rows_cols a)].
Proof.
  unfold matrix_like, ndim, rows_cols. destruct a as [[|n [|m [|? ?]]] d]; simpl; intros [?|?];
    done.
Qed.

Lemma with_solver_id s : with_solver (_solver s) s = s.
Proof. by destruct s. Qed.

Lemma add_symbols_0 o : add_symbols 0 o = o.
Proof. by destruct o. Qed.

Lemma add_symbols_S n o : add_symbols n (add_symbol o) = add_symbols (S n) o.
Proof. unfold add_symbols, add_symbol. simpl. f_equal. lia. Qed.

Lemma with_solver_twice o o' s : with_solver o (with_solver o' s) = with_solver o s.
Proof. done. Qed.

Lemma storage_loop storage_type name y arrs :
  supported storage_type -> Forall matrix_like arrs ->
  forall acc h s, h !! y = Some (PyList acc) ->
    for_each (fun value =>
                x <- _generate_opti_object storage_type name value ;;
                append (VRef y) (VMX x))
             (map VArray arrs) (mk_state h s) =
    (inr tt,
     mk_state
       (<[y := PyList (acc ++ map VMX (handles (is_parameter_type storage_type)
                                               (n_symbols (_solver s)) arrs))]> h)
       (with_solver (add_symbols (length arrs) (_solver s)) s)).
Proof.
  intros Hs Harrs. induction Harrs as [|a arrs Ha _ IH]; intros acc h s Hy; simpl.
  - rewrite app_nil_r, list_insert_id by done.
    by rewrite add_symbols_0, with_solver_id.
  - erewrite bind_run; [|erewrite bind_run;
      [|by apply _generate_opti_object_array, matrix_like_column_shape];
      by apply append_run].
    simpl. erewrite IH; [|apply list_lookup_insert_eq; by eapply lookup_lt_Some].
    simpl. rewrite list_insert_insert_eq, <- app_assoc. simpl.
    by rewrite add_symbols_S.
Qed.

Lemma gets_run {A B} (f : state -> A) (k : A -> M B) st : bind (gets f) k st = k (f st) st.
Proof. done. Qed.

Lemma alloc_run {B} c (k : loc -> M B) st :
  bind (alloc c) k st = k (length (heap st)) (mk_state (heap st ++ [c]) (self st)).
Proof. done. Qed.

Lemma lookup_snoc (h : list cell) c : (h ++ [c]) !! length h = Some c.
Proof. by apply list_lookup_middle. Qed.

Lemma insert_snoc (h : list cell) c c' : <[length h := c']> (h ++ [c]) = h ++ [c'].
Proof. rewrite insert_app_r_alt by done. by rewrite Nat.sub_diag. Qed.


Lemma generate_field_storage_array generate o fs name storage_type a st :
  supported storage_type ->
  heap st !! o = Some (OptimizationObject fs) ->
  lookup_field name fs = Some (VArray a) ->
  matrix_like a ->
  generate_field generate (VRef o) (name, Some storage_type) st =
    (inr tt,
     let x := MX_sym (is_parameter_type storage_type) (n_symbols (_solver (self st)))
                     (fst (rows_cols a)) (snd (rows_cols a)) in
     mk_state
       (<[o := OptimizationObject (update_field name (VMX x) fs)]>
          (heap st ++ [PyList [VMX x]]))
       (with_solver (add_symbol (_solver (self st))) (self st))).
Proof.
  intros Hs Ho Hn Ha. unfold generate_field, asdict_field.
  erewrite bind_run by (by eapply getattribute_run).
  rewrite gets_run. cbn [isinstance_list isinstance_OptimizationObject orb andb].
  erewrite bind_run by (by eapply getattribute_run).
  rewrite gets_run, alloc_run.
  erewrite bind_run;
    [|destruct st; apply (storage_loop storage_type name _ [a]);
      [done | by constructor | apply lookup_snoc]].
  rewrite insert_snoc.
  erewrite bind_run; [|by eapply getitem_run; [apply lookup_snoc|]].
  erewrite setattr_run.
  - simpl. by rewrite <- add_symbols_S, add_symbols_0.
  - simpl. rewrite lookup_app_l; [done|]. by eapply lookup_lt_Some.
Qed.

Lemma generate_field_storage_raises generate o fs name storage_type value e st :
  heap st !! o = Some (OptimizationObject fs) ->
  lookup_field name fs = Some value ->
  (forall l, value <> VRef l) ->
  (forall st0, _generate_opti_object storage_type name value st0 = (inl e, st0)) ->
  generate_field generate (VRef o) (name, Some storage_type) st =
    (inl e, mk_state (heap st ++ [PyList []]) (self st)).
Proof.
  intros Ho Hn Hv He. unfold generate_field, asdict_field.
  erewrite bind_run by (by eapply getattribute_run).
  rewrite gets_run.
  assert (isinstance_list (heap st) value = false) as ->
    by (destruct value; try done; by destruct (Hv l)).
  assert (isinstance_OptimizationObject (heap st) value = false) as ->
    by (destruct value; try done; by destruct (Hv l)).
  cbn [orb andb].
  erewrite bind_run by (by eapply getattribute_run).
  rewrite gets_run, alloc_run. simpl.
  erewrite bind_fail; [done|]. erewrite bind_fail; [done|].
  erewrite bind_fail; [done|]. apply He.
Qed.



Lemma getattribute_after_setattr o fs name v (h : list cell) s :
  o < length h -> is_Some (lookup_field name fs) ->
  getattribute (VRef o) name
    (mk_state (<[o := OptimizationObject (update_field name v fs)]> h) s) =
  (inr v, mk_state (<[o := OptimizationObject (update_field name v fs)]> h) s).
Proof.
  intros Ho Hn. eapply getattribute_run.
  - simpl. by apply list_lookup_insert_eq.
  - by apply lookup_field_update.
Qed.


Lemma generate_optimization_objects_S fuel input_structure :
  generate_optimization_objects (S fuel) input_structure =
    (h <- gets heap ;;
     if isinstance_OptimizationObject h input_structure
     then _generate_objects_from_instance fuel (generate_optimization_objects fuel)
            input_structure
     else _generate_objects_from_list fuel (generate_optimization_objects fuel)
            input_structure).
Proof. done. Qed.



(** * The binder on a storage field *)

Lemma guess_input_shape_run g st :
  shape g <> [] -> guess_input_shape g st = (inr (column_shape (shape g)), st).
Proof.
  intros Hg. unfold guess_input_shape. destruct g as [[|n [|m dims]] d]; simpl in *; done.
Qed.

Lemma hasattr_true c cfs name v (h : list cell) :
  h !! c = Some (OptimizationObject cfs) -> lookup_field name cfs = Some v ->
  hasattr h (VRef c) name = true.
Proof. intros Hc Hn. simpl. by rewrite Hc, Hn. Qed.

Lemma guess_field_storage rec initial_guess corresponding_variable name storage_type :
  supported storage_type ->
  guess_field rec initial_guess corresponding_variable (name, Some storage_type) =
  guess_storage (if is_parameter_type storage_type then set_value else set_initial)
                (if is_parameter_type storage_type then "parameters" else "variables")
                initial_guess corresponding_variable name.
Proof. by intros [-> | ->]. Qed.

(** * Generation from a list *)

Lemma generate_result_fresh fuel input_structure st :
  wp (generate_optimization_objects fuel input_structure)
     (fun r _ => forall v, r = inr v -> fresh_val (length (heap st)) v) st.
Proof.
  destruct fuel as [|fuel]; [simpl; by wp_step|].
  rewrite generate_optimization_objects_S. wp_step. wp_step. wp_step.
  - unfold _generate_objects_from_instance. wp_step.
    wp_use (deepcopy_frame fuel input_structure st) as (_ & _ & Hr).
    destruct r as [e|output]; [done|]. specialize (Hr _ eq_refl).
    wp_step. wp_use wp_any as _. destruct r as [e|fields]; [done|].
    wp_step. wp_use wp_any as _. destruct r as [e|[]]; [done|].
    wp_steps. by intros ? [= <-].
  - unfold _generate_objects_from_list. wp_step. wp_step. wp_step; [|by wp_step].
    wp_step.
    wp_use (deepcopy_frame fuel input_structure st) as (_ & _ & Hr).
    destruct r as [e|output]; [done|]. specialize (Hr _ eq_refl).
    wp_step. wp_use wp_any as _. destruct r as [e|n]; [done|].
    wp_step. wp_use wp_any as _. destruct r as [e|[]]; [done|].
    wp_steps. by intros ? [= <-].
Qed.

(** the copy of a list is a new list of the same length *)
Lemma deepcopy_list fuel l items st :
  heap st !! l = Some (PyList items) ->
  wp (deepcopy fuel (VRef l))
     (fun r st' =>
        heap st `prefix_of` heap st' /\ self st' = self st /\
        forall v, r = inr v ->
          v = VRef (length (heap st)) /\
          exists items', heap st' !! length (heap st) = Some (PyList items') /\
                         length items' = length items) st.
Proof.
  intros Hl. unfold deepcopy. wp_step. destruct fuel as [|fuel]; simpl.
  - by wp_steps.
  - wp_step. wp_step; [|congruence].
    assert (c = PyList items) as -> by congruence.
    wp_step. wp_step. wp_step.
    wp_use (deepcopy_items_frame (deepcopy_memo fuel) (length (heap st))
              (deepcopy_memo_frame (length (heap st)) fuel)) as (Hp & Hs & Hr).
    { simpl. rewrite length_app. lia. }
    { by apply memo_fresh_cons. }
    simpl in Hp, Hs.
    assert (heap st `prefix_of` heap st') as Hp'.
    { etrans; [|exact Hp]. by apply prefix_app_r. }
    destruct r as [e|[vs memo1]]; [done|].
    destruct (Hr _ _ eq_refl) as (_ & _ & Hlen).
    wp_steps. split; [by apply prefix_insert_ge|]. split; [done|].
    intros ? [= <-]. split; [done|]. exists vs. split; [|done].
    cbn [heap fst]. apply list_lookup_insert_eq.
    apply prefix_length in Hp. rewrite length_app in Hp. simpl in Hp. lia.
Qed.

Lemma bind_ext_post {A B} (m : M A) (k k' : A -> M B) (P : exn + A -> state -> Prop) st :
  wp m P st ->
  (forall a st', P (inr a) st' -> k a st' = k' a st') ->
  bind m k st = bind m k' st.
Proof.
  unfold wp, bind. destruct (m st) as [[e|a] st']; simpl; [done|]. intros HP Hk. by apply Hk.
Qed.

Lemma _generate_objects_from_list_spec fuel generate l items st :
  (forall x, grows_heap (generate x)) ->
  heap st !! l = Some (PyList items) ->
  wp (_generate_objects_from_list fuel generate (VRef l))
     (fun r st' =>
        forall out, r = inr out ->
          out = VRef (length (heap st)) /\
          (exists items', heap st' !! length (heap st) = Some (PyList items') /\
                          length items' = length items) /\
          _variables (self st') = out) st.
Proof.
  intros Hgen Hl. unfold _generate_objects_from_list.
  wp_step. wp_step. wp_step; [|by wp_step].
  wp_step. wp_use (deepcopy_list fuel l items st Hl) as (_ & _ & Hr).
  destruct r as [e|output]; [done|].
  destruct (Hr _ eq_refl) as (-> & items1 & Hy & Hlen).
  wp_step. apply wp_readonly; [apply readonly_py_len|]. intros [e|n] _; [done|].
  wp_step.
  apply wp_for_each with
    (I := fun st1 => exists items', heap st1 !! length (heap st) = Some (PyList items') /\
                                    length items' = length items); [by eauto| |].
  - intros i st1 _ (items2 & Hy2 & Hlen2).
    wp_step. apply wp_readonly; [apply readonly_getitem|]. intros [e|x] _; [done|].
    wp_step. wp_use (Hgen x) as Hp.
    assert (heap st'0 !! length (heap st) = Some (PyList items2)) as Hy3
      by (by eapply prefix_lookup_Some).
    destruct r as [e|r]; [done|].
    apply wp_setitem; [done|]. intros l0 its [= <-] Hits Hi.
    assert (its = items2) as -> by congruence.
    exists (<[i := r]> items2). cbn [heap]. split.
    + apply list_lookup_insert_eq. by eapply lookup_lt_Some.
    + by rewrite length_insert.
  - intros st1 (items2 & Hy2 & Hlen2). wp_steps.
    intros ? [= <-]. split; [done|]. split; [by eauto|done].
Qed.

(** * The binder only talks to the engine *)

Lemma binder_keeps_refl st : binder_keeps st st.
Proof. done. Qed.

Lemma binder_keeps_trans st1 st2 st3 :
  binder_keeps st1 st2 -> binder_keeps st2 st3 -> binder_keeps st1 st3.
Proof. intros [? ?] [? ?]. split; congruence. Qed.

Lemma wp_keeps_readonly {A} (m : M A) st st0 :
  readonly m -> binder_keeps st0 st -> wp m (fun _ st' => binder_keeps st0 st') st.
Proof. intros Hm Hk. apply wp_readonly; [done|]. by intros. Qed.

Lemma guess_storage_keeps push noun initial_guess corresponding_variable name st :
  (forall x g st, wp (push x g) (fun _ st' => binder_keeps st st') st) ->
  wp (guess_storage push noun initial_guess corresponding_variable name)
     (fun _ st' => binder_keeps st st') st.
Proof.
  intros Hpush. unfold guess_storage, asdict_field.
  wp_step. apply wp_readonly; [apply readonly_getattribute|]. intros [e|guess] _; [done|].
  destruct guess; try by wp_step.
  wp_step. wp_step. wp_step; [|by wp_step].
  wp_step. apply wp_readonly; [apply readonly_getattribute|]. intros [e|cv] _; [done|].
  wp_step. apply wp_readonly; [apply readonly_guess_input_shape|]. intros [e|s] _; [done|].
  wp_step. apply wp_readonly; [apply readonly_shape_attr|]. intros [e|s'] _; [done|].
  wp_step; [|by wp_step]. apply Hpush.
Qed.

Lemma set_initial_keeps x g st : wp (set_initial x g) (fun _ st' => binder_keeps st st') st.
Proof. unfold set_initial. destruct x; by wp_step. Qed.

Lemma set_value_keeps x g st : wp (set_value x g) (fun _ st' => binder_keeps st st') st.
Proof. unfold set_value. destruct x; by wp_step. Qed.

Lemma guess_list_loop_keeps variables msg rec elements :
  readonly variables ->
  (forall g s st, wp (rec g s) (fun _ st' => binder_keeps st st') st) ->
  forall i st, wp (guess_list_loop variables msg rec elements i)
                  (fun _ st' => binder_keeps st st') st.
Proof.
  intros Hv Hrec. induction elements as [|element rest IH]; intros i st; simpl.
  - by wp_step.
  - wp_step. apply wp_readonly; [done|]. intros [e|vs] _; [done|].
    wp_step. apply wp_readonly; [apply readonly_py_len|]. intros [e|n] _; [done|].
    wp_step; [by wp_step|].
    wp_step. apply wp_readonly; [apply readonly_getitem|]. intros [e|v] _; [done|].
    wp_step. wp_use (Hrec element v) as Hk. destruct r; [done|].
    wp_use (IH (S i)) as Hk2. by eapply binder_keeps_trans.
Qed.

Lemma guess_field_keeps rec initial_guess corresponding_variable fld st :
  (forall g s st, wp (rec g s) (fun _ st' => binder_keeps st st') st) ->
  wp (guess_field rec initial_guess corresponding_variable fld)
     (fun _ st' => binder_keeps st st') st.
Proof.
  intros Hrec. destruct fld as [name metadata]. unfold guess_field.
  destruct metadata as [[| |tag]|];
    [ apply guess_storage_keeps, set_initial_keeps
    | apply guess_storage_keeps, set_value_keeps
    | .. ];
    (wp_step; apply wp_readonly; [apply readonly_getattribute|];
     intros [e|composite_variable_guess] _; [done|];
     wp_step; wp_step; wp_step;
     [ (* a nested structure *)
       wp_step; [|by wp_step];
       wp_step; apply wp_readonly; [apply readonly_getattribute|];
       intros [e|c] _; [done|]; apply Hrec
     | (* a list of structures *)
       cbv zeta; wp_step; [|by wp_step]; wp_step; [|by wp_step];
       wp_step; apply wp_readonly; [apply readonly_getattribute|];
       intros [e|c] _; [done|];
       wp_step; wp_step; wp_step; [|by wp_step];
       apply guess_list_loop_keeps; [apply readonly_ret | done] ]).
Qed.

Lemma _set_initial_guess_internal_keeps fuel :
  forall initial_guess corresponding_variable st,
    wp (_set_initial_guess_internal fuel initial_guess corresponding_variable)
       (fun _ st' => binder_keeps st st') st.
Proof.
  induction fuel as [|fuel IH]; intros initial_guess corresponding_variable st; simpl.
  - by wp_step.
  - wp_step. apply wp_readonly; [apply readonly_dataclasses_fields|].
    intros [e|fields] _; [done|].
    apply wp_for_each with (I := fun st' => binder_keeps st st'); [done| |done].
    intros fld st1 _ Hk. wp_use (guess_field_keeps _ initial_guess corresponding_variable fld st1 IH) as Hk1.
    destruct r as [e|[]]; by eapply binder_keeps_trans.
Qed.

Lemma bind_assoc {A B C} (m : M A) (f : A -> M B) (g : B -> M C) st :
  bind (bind m f) g st = bind m (fun a => bind (f a) g) st.
Proof. unfold bind. by destruct (m st) as [[e|a] st']. Qed.

(** The loop over a list of guesses is index-wise binding, followed by the
    length error when the guesses outnumber the structures. *)
Lemma guess_list_loop_pairs variables msg rec (I : state -> Prop) v ss :
  (forall st, I st -> variables st = (inr (VRef v), st) /\ heap st !! v = Some (PyList ss)) ->
  (forall g s st, I st -> I (snd (rec g s st))) ->
  forall elements i st, I st -> i <= length ss ->
    guess_list_loop variables msg rec elements i st =
    (for_each (fun p => rec (fst p) (snd p)) (combine elements (drop i ss)) ;;;
     if decide (length ss < i + length elements) then raise (ValueError msg) else ret tt) st.
Proof.
  intros Hvars Hrec. induction elements as [|element rest IH]; intros i st HI Hi; simpl.
  - unfold bind, ret. simpl. destruct (decide _); [lia|done].
  - destruct (Hvars st HI) as [Hv Hss].
    erewrite bind_run by exact Hv.
    erewrite bind_run by (by apply py_len_run).
    destruct (decide (length ss <= i)) as [Hge|Hlt].
    + rewrite drop_ge by done. simpl. unfold bind, ret. simpl.
      destruct (decide _); [done|lia].
    + destruct (lookup_lt_is_Some_2 ss i) as [s Hs]; [lia|].
      erewrite bind_run by (by eapply getitem_run).
      rewrite (drop_S _ _ _ Hs). simpl. rewrite bind_assoc.
      pose proof (Hrec element s st HI) as HI'.
      destruct (rec element s st) as [[e|[]] st'] eqn:Erec;
        [by rewrite !(bind_fail _ _ _ _ _ Erec) | rewrite !(bind_run _ _ _ _ _ Erec)].
      simpl in HI'. rewrite IH by (done || lia).
      by replace (S i + length rest) with (i + S (length rest)) by lia.
Qed.

Lemma _set_initial_guess_internal_inv fuel h vars g s st :
  heap st = h /\ _variables (self st) = vars ->
  heap (snd (_set_initial_guess_internal fuel g s st)) = h /\
  _variables (self (snd (_set_initial_guess_internal fuel g s st))) = vars.
Proof.
  intros [<- <-]. apply (_set_initial_guess_internal_keeps fuel g s st).
Qed.

Lemma combine_take_l {A B} (xs : list A) : forall ys : list B,
  combine xs (take (length xs) ys) = combine xs ys.
Proof. induction xs as [|x xs IH]; intros [|y ys]; simpl; by rewrite ?IH. Qed.

Lemma bind_ret_tt (m : M unit) st : bind m (fun _ => ret tt) st = m st.
Proof. unfold bind, ret. by destruct (m st) as [[e|[]] st']. Qed.

(** * Plain fields *)

Lemma deepcopy_memo_atom fuel x memo st :
  is_atom x -> deepcopy_memo fuel x memo st = (inr (x, memo), st).
Proof. intros Hx. destruct fuel, x; try done; by destruct (Hx l). Qed.

Lemma deepcopy_items_atoms copy items memo st :
  (forall x memo st, is_atom x -> copy x memo st = (inr (x, memo), st)) ->
  Forall is_atom items ->
  deepcopy_items copy items memo st = (inr (items, memo), st).
Proof.
  intros Hcopy Hitems. induction Hitems as [|x items Hx _ IH]; simpl; [done|].
  erewrite bind_run by (by apply Hcopy). simpl.
  erewrite bind_run by exact IH. done.
Qed.

Lemma zip_with_fvalue_id fs : zip_with with_fvalue fs (map fvalue fs) = fs.
Proof. induction fs as [|[n m v] fs IH]; simpl; [done|]. by rewrite IH. Qed.

Lemma deepcopy_plain_atoms fuel o fs st :
  heap st !! o = Some (OptimizationObject fs) -> Forall plain_atom fs ->
  deepcopy (S fuel) (VRef o) st =
    (inr (VRef (length (heap st))), mk_state (heap st ++ [OptimizationObject fs]) (self st)).
Proof.
  intros Ho Hfs. unfold deepcopy. simpl.
  rewrite bind_assoc. erewrite bind_run by (by apply read_run).
  cbv beta iota. rewrite bind_assoc, alloc_run, bind_assoc.
  erewrite bind_run.
  2:{ apply deepcopy_items_atoms; [intros; by apply deepcopy_memo_atom|].
      apply Forall_fmap. eapply Forall_impl; [exact Hfs|]. by intros f [_ Hf]. }
  simpl. unfold bind, write, modify_heap. simpl.
  by rewrite insert_snoc, zip_with_fvalue_id.
Qed.

Lemma generate_field_plain_atom generate o fs f st :
  heap st !! o = Some (OptimizationObject fs) ->
  lookup_field (fname f) fs = Some (fvalue f) ->
  plain_atom f ->
  generate_field generate (VRef o) (fname f, fmetadata f) st = (inr tt, st).
Proof.
  intros Ho Hn [Hm Hv]. unfold generate_field.
  erewrite bind_run by (by eapply getattribute_run).
  rewrite gets_run, Hm.
  by destruct (fvalue f) as [| | | | |l]; [..|destruct (Hv l)].
Qed.

Lemma lookup_field_NoDup fs f :
  NoDup (map fname fs) -> f ∈ fs -> lookup_field (fname f) fs = Some (fvalue f).
Proof.
  induction fs as [|f0 fs IH]; simpl; intros Hnd Hf; [by apply elem_of_nil in Hf|].
  apply NoDup_cons in Hnd as [Hf0 Hnd].
  apply elem_of_cons in Hf as [-> | Hf].
  - by rewrite String.eqb_refl.
  - destruct (String.eqb (fname f0) (fname f)) eqn:E; [|by apply IH].
    apply String.eqb_eq in E. destruct Hf0. rewrite E. by apply list_elem_of_fmap_2.
Qed.

Lemma generate_fields_plain_atoms generate o fs st : forall fs',
  heap st !! o = Some (OptimizationObject fs) ->
  Forall (fun f => lookup_field (fname f) fs = Some (fvalue f) /\ plain_atom f) fs' ->
  for_each (generate_field generate (VRef o)) (map (fun f => (fname f, fmetadata f)) fs') st
    = (inr tt, st).
Proof.
  intros fs' Ho Hfs'. induction Hfs' as [|f fs' [Hn Hf] _ IH]; simpl; [done|].
  erewrite bind_run by (by eapply generate_field_plain_atom). exact IH.
Qed.

(** On an instance whose fields are all untagged and hold no container, the
    generator returns a new object with the very fields of the template. *)
Lemma generate_plain_atoms fuel o fs st :
  heap st !! o = Some (OptimizationObject fs) ->
  NoDup (map fname fs) -> Forall plain_atom fs ->
  generate_optimization_objects (S (S fuel)) (VRef o) st =
    (inr (VRef (length (heap st))),
     mk_state (heap st ++ [OptimizationObject fs])
              (with_variables (VRef (length (heap st))) (self st))).
Proof.
  intros Ho Hnd Hfs. rewrite generate_optimization_objects_S, gets_run.
  assert (isinstance_OptimizationObject (heap st) (VRef o) = true) as ->
    by (simpl; by rewrite Ho).
  unfold _generate_objects_from_instance.
  erewrite bind_run by (by apply deepcopy_plain_atoms).
  erewrite bind_run.
  2:{ unfold dataclasses_fields. erewrite bind_run by (apply read_run, lookup_snoc). done. }
  erewrite bind_run.
  2:{ apply generate_fields_plain_atoms with (fs := fs); [apply lookup_snoc|].
      apply Forall_forall. intros f Hf. split.
      - by apply lookup_field_NoDup.
      - by eapply Forall_forall in Hfs. }
  done.
Qed.
(** * What the generator and the binder leave in the session *)

Lemma generator_keeps_refl s : generator_keeps s s.
Proof. exists 0, (_variables s). by destruct s as [? ? ? ? [] ? ? ? ? ?]. Qed.

Lemma generator_keeps_trans s1 s2 s3 :
  generator_keeps s1 s2 -> generator_keeps s2 s3 -> generator_keeps s1 s3.
Proof.
  intros (n & v & ->) (m & w & ->). exists (m + n), w.
  unfold with_variables, with_solver, add_symbols. simpl. do 2 f_equal. lia.
Qed.

Lemma generator_keeps_symbol s :
  generator_keeps s (with_solver (add_symbol (_solver s)) s).
Proof. exists 1, (_variables s). by destruct s as [? ? ? ? [] ? ? ? ? ?]. Qed.

Lemma generator_keeps_variables v s : generator_keeps s (with_variables v s).
Proof. exists 0, v. by destruct s as [? ? ? ? [] ? ? ? ? ?]. Qed.

Lemma _generate_opti_object_session storage_type name value st :
  wp (_generate_opti_object storage_type name value)
     (fun _ st' => generator_keeps (self st) (self st')) st.
Proof.
  unfold _generate_opti_object.
  assert (forall v, wp match storage_type with
       | Variable_StorageTypeValue => dims <- shape_attr v;; Opti_variable dims
       | Parameter_StorageTypeValue => dims <- shape_attr v;; Opti_parameter dims
       | Other_StorageTypeValue _ => raise (ValueError "Unsupported input storage type")
       end (fun _ st' => generator_keeps (self st) (self st')) st) as Htail.
  { intros v. destruct storage_type; wp_step; try apply generator_keeps_refl;
      (apply wp_readonly; [apply readonly_shape_attr|]; intros [e|dims] _;
       [apply generator_keeps_refl|]);
      apply wp_star_dims; intros; first [apply generator_keeps_refl | apply generator_keeps_symbol]. }
  destruct value as [| | |a| |]; cbv beta iota;
    try (wp_step; wp_step; by apply Htail).
  - wp_steps. apply generator_keeps_refl.
  - wp_step. wp_step; [wp_steps; apply generator_keeps_refl|]. wp_step.
    + wp_step. apply wp_readonly; [apply readonly_np_expand_dims|].
      intros [e|a'] _; [apply generator_keeps_refl|]. wp_step. by apply Htail.
    + wp_step. by apply Htail.
Qed.

Lemma wp_setattr_session s0 x n v st :
  generator_keeps s0 (self st) ->
  wp (setattr x n v) (fun _ st' => generator_keeps s0 (self st')) st.
Proof. intros. by apply wp_setattr. Qed.

Lemma wp_setitem_session s0 x i v st :
  generator_keeps s0 (self st) ->
  wp (setitem x i v) (fun _ st' => generator_keeps s0 (self st')) st.
Proof. intros. by apply wp_setitem. Qed.

Lemma wp_append_session s0 x v st :
  generator_keeps s0 (self st) ->
  wp (append x v) (fun _ st' => generator_keeps s0 (self st')) st.
Proof. intros. by apply wp_append. Qed.

Lemma generate_field_session generate output fld st :
  (forall x st, wp (generate x) (fun _ st' => generator_keeps (self st) (self st')) st) ->
  wp (generate_field generate output fld)
     (fun _ st' => generator_keeps (self st) (self st')) st.
Proof.
  intros Hgen. destruct fld as [name metadata]. unfold generate_field.
  wp_step. apply wp_readonly; [apply readonly_getattribute|].
  intros [e|composite_value] _; [apply generator_keeps_refl|].
  wp_step. wp_step. wp_step.
  - wp_step. wp_use (Hgen composite_value) as Hk.
    destruct r; [done|]. by apply wp_setattr_session.
  - destruct metadata as [storage_type|]; [|wp_step; apply generator_keeps_refl].
    wp_step. apply wp_readonly; [apply readonly_getattribute|].
    intros [e|value_field] _; [apply generator_keeps_refl|].
    wp_step. wp_step. wp_step. wp_step. wp_step.
    apply wp_for_each with (I := fun st' => generator_keeps (self st) (self st')).
    + apply generator_keeps_refl.
    + intros value st1 _ Hk1. wp_step.
      wp_use (_generate_opti_object_session storage_type name value) as Hk2.
      assert (generator_keeps (self st) (self st')) by (by eapply generator_keeps_trans).
      destruct r; [done|].
      eapply wp_mono; [by apply (wp_append_session (self st))|].
      by intros [e|[]] st2 H2.
    + intros st1 Hk1. wp_step.
      * by apply wp_setattr_session.
      * wp_step. apply wp_readonly; [apply readonly_getitem|].
        intros [e|x] _; [done|]. by apply wp_setattr_session.
Qed.

Lemma generate_optimization_objects_session fuel :
  forall input_structure st,
    wp (generate_optimization_objects fuel input_structure)
       (fun _ st' => generator_keeps (self st) (self st')) st.
Proof.
  induction fuel as [|fuel IH]; intros input_structure st; simpl.
  - wp_step. apply generator_keeps_refl.
  - wp_step. wp_step. wp_step.
    + unfold _generate_objects_from_instance.
      wp_step. wp_use (deepcopy_frame fuel input_structure st) as (_ & Hs & _).
      assert (generator_keeps (self st) (self st')) as Hk0
        by (rewrite Hs; apply generator_keeps_refl).
      destruct r as [e|output]; [done|].
      wp_step. apply wp_readonly; [apply readonly_dataclasses_fields|].
      intros [e|fields] _; [done|].
      wp_step.
      apply wp_for_each with (I := fun st1 => generator_keeps (self st) (self st1)); [done| |].
      * intros fld st1 _ Hk1.
        wp_use (generate_field_session _ output fld st1 IH) as Hk2.
        assert (generator_keeps (self st) (self st'0)) by (by eapply generator_keeps_trans).
        by destruct r as [e|[]].
      * intros st1 Hk1. wp_steps. simpl.
        eapply generator_keeps_trans; [exact Hk1|apply generator_keeps_variables].
    + unfold _generate_objects_from_list.
      wp_step. wp_step. wp_step; [|wp_step; apply generator_keeps_refl].
      wp_step. wp_use (deepcopy_frame fuel input_structure st) as (_ & Hs & _).
      assert (generator_keeps (self st) (self st')) as Hk0
        by (rewrite Hs; apply generator_keeps_refl).
      destruct r as [e|output]; [done|].
      wp_step. apply wp_readonly; [apply readonly_py_len|].
      intros [e|n] _; [done|].
      wp_step.
      apply wp_for_each with (I := fun st1 => generator_keeps (self st) (self st1)); [done| |].
      * intros i st1 _ Hk1.
        wp_step. apply wp_readonly; [apply readonly_getitem|].
        intros [e|x] _; [done|].
        wp_step. wp_use (IH x) as Hk2.
        assert (generator_keeps (self st) (self st'0)) by (by eapply generator_keeps_trans).
        destruct r; [done|].
        eapply wp_mono; [by apply (wp_setitem_session (self st))|].
        by intros [e|[]] st2 H2.
      * intros st1 Hk1. wp_steps. simpl.
        eapply generator_keeps_trans; [exact Hk1|apply generator_keeps_variables].
Qed.

(** * The binder only appends guesses to the engine *)

Lemma binder_pushes_refl st : binder_pushes st st.
Proof.
  exists [], []. destruct st as [h [? ? ? ? [] ? ? ? ? ?]].
  unfold add_guesses, with_solver. simpl. by rewrite !app_nil_r.
Qed.

Lemma binder_pushes_trans st1 st2 st3 :
  binder_pushes st1 st2 -> binder_pushes st2 st3 -> binder_pushes st1 st3.
Proof.
  intros (i1 & v1 & ->) (i2 & v2 & ->). exists (i1 ++ i2), (v1 ++ v2).
  unfold add_guesses, with_solver. simpl. by rewrite !app_assoc.
Qed.

Lemma set_initial_pushes x g st : wp (set_initial x g) (fun _ st' => binder_pushes st st') st.
Proof.
  unfold set_initial. destruct x; wp_step; try apply binder_pushes_refl.
  exists [(m, g)], []. unfold add_guesses, Opti_set_initial. simpl. by rewrite app_nil_r.
Qed.

Lemma set_value_pushes x g st : wp (set_value x g) (fun _ st' => binder_pushes st st') st.
Proof.
  unfold set_value. destruct x; wp_step; try apply binder_pushes_refl.
  exists [], [(m, g)]. unfold add_guesses, Opti_set_value. simpl. by rewrite app_nil_r.
Qed.

Section binder_frame.

#[local] Hint Resolve binder_pushes_refl : core.

Lemma guess_storage_pushes push noun initial_guess corresponding_variable name st :
  (forall x g st, wp (push x g) (fun _ st' => binder_pushes st st') st) ->
  wp (guess_storage push noun initial_guess corresponding_variable name)
     (fun _ st' => binder_pushes st st') st.
Proof.
  intros Hpush. unfold guess_storage, asdict_field.
  wp_step. apply wp_readonly; [apply readonly_getattribute|]. intros [e|guess] _; [done|].
  destruct guess; try by wp_step.
  wp_step. wp_step. wp_step; [|by wp_step].
  wp_step. apply wp_readonly; [apply readonly_getattribute|]. intros [e|cv] _; [done|].
  wp_step. apply wp_readonly; [apply readonly_guess_input_shape|]. intros [e|s] _; [done|].
  wp_step. apply wp_readonly; [apply readonly_shape_attr|]. intros [e|s'] _; [done|].
  wp_step; [|by wp_step]. apply Hpush.
Qed.

Lemma guess_list_loop_pushes variables msg rec elements :
  readonly variables ->
  (forall g s st, wp (rec g s) (fun _ st' => binder_pushes st st') st) ->
  forall i st, wp (guess_list_loop variables msg rec elements i)
                  (fun _ st' => binder_pushes st st') st.
Proof.
  intros Hv Hrec. induction elements as [|element rest IH]; intros i st; simpl.
  - by wp_step.
  - wp_step. apply wp_readonly; [done|]. intros [e|vs] _; [done|].
    wp_step. apply wp_readonly; [apply readonly_py_len|]. intros [e|n] _; [done|].
    wp_step; [by wp_step|].
    wp_step. apply wp_readonly; [apply readonly_getitem|]. intros [e|v] _; [done|].
    wp_step. wp_use (Hrec element v) as Hk. destruct r; [done|].
    wp_use (IH (S i)) as Hk2. by eapply binder_pushes_trans.
Qed.

Lemma guess_field_pushes rec initial_guess corresponding_variable fld st :
  (forall g s st, wp (rec g s) (fun _ st' => binder_pushes st st') st) ->
  wp (guess_field rec initial_guess corresponding_variable fld)
     (fun _ st' => binder_pushes st st') st.
Proof.
  intros Hrec. destruct fld as [name metadata]. unfold guess_field.
  destruct metadata as [[| |tag]|];
    [ apply guess_storage_pushes, set_initial_pushes
    | apply guess_storage_pushes, set_value_pushes
    | .. ];
    (wp_step; apply wp_readonly; [apply readonly_getattribute|];
     intros [e|composite_variable_guess] _; [done|];
     wp_step; wp_step; wp_step;
     [ wp_step; [|by wp_step];
       wp_step; apply wp_readonly; [apply readonly_getattribute|];
       intros [e|c] _; [done|]; apply Hrec
     | cbv zeta; wp_step; [|by wp_step]; wp_step; [|by wp_step];
       wp_step; apply wp_readonly; [apply readonly_getattribute|];
       intros [e|c] _; [done|];
       wp_step; wp_step; wp_step; [|by wp_step];
       apply guess_list_loop_pushes; [apply readonly_ret | done] ]).
Qed.

Lemma _set_initial_guess_internal_pushes fuel :
  forall initial_guess corresponding_variable st,
    wp (_set_initial_guess_internal fuel initial_guess corresponding_variable)
       (fun _ st' => binder_pushes st st') st.
Proof.
  induction fuel as [|fuel IH]; intros initial_guess corresponding_variable st; simpl.
  - by wp_step.
  - wp_step. apply wp_readonly; [apply readonly_dataclasses_fields|].
    intros [e|fields] _; [done|].
    apply wp_for_each with (I := fun st' => binder_pushes st st'); [done| |done].
    intros fld st1 _ Hk.
    wp_use (guess_field_pushes _ initial_guess corresponding_variable fld st1 IH) as Hk1.
    destruct r as [e|[]]; by eapply binder_pushes_trans.
Qed.

Lemma set_initial_guess_pushes fuel initial_guess st :
  wp (set_initial_guess fuel initial_guess) (fun _ st' => binder_pushes st st') st.
Proof.
  unfold set_initial_guess. wp_step. wp_step. wp_step.
  - wp_step. wp_step. wp_step; [|by wp_step].
    apply guess_list_loop_pushes; [apply readonly_gets|].
    apply _set_initial_guess_internal_pushes.
  - wp_step. wp_step. apply _set_initial_guess_internal_pushes.
Qed.

End binder_frame.

(** X1.  Whatever [generate_optimization_objects] is given and however it
    ends, all it does to the session is to take symbols from the engine and
    to set the tracked structure: the cost, the cached solution and cost, the
    registered problem and the options are what they were, and so are the
    engine's plugin, initial values, parameter values, objective and
    constraints; the number of symbols handed out can only grow. *)
Theorem generate_session_frame fuel input_structure st :
  exists n v,
    self (snd (generate_optimization_objects fuel input_structure st)) =
      with_variables v (with_solver (add_symbols n (_solver (self st))) (self st)).
Proof. apply (generate_optimization_objects_session fuel input_structure st). Qed.

(** X2.  Whatever [set_initial_guess] is given and however it ends, it only
    appends guesses to the engine's initial values and parameter values:
    the heap is unchanged and the rest of the session and of the engine is
    what it was. *)
Theorem set_initial_guess_only_pushes fuel initial_guess st :
  exists ini vals,
    snd (set_initial_guess fuel initial_guess st) =
      mk_state (heap st)
        (with_solver (add_guesses ini vals (_solver (self st))) (self st)).
Proof. apply (set_initial_guess_pushes fuel initial_guess st). Qed.

Lemma generator_keeps_in_sync s s' :
  generator_keeps s s' -> options_in_sync s -> options_in_sync s'.
Proof. by intros (n & v & ->). Qed.

Lemma binder_pushes_in_sync st st' :
  binder_pushes st st' -> options_in_sync (self st) -> options_in_sync (self st').
Proof. by intros (i & v & ->). Qed.

(** X3.  [__post_init__], whatever fields the constructor has set.  For a
    problem type that the engine does not know it raises the engine's error
    and changes nothing.  Otherwise it leaves a session whose engine is new
    (no symbol, guess, objective or constraint) and configured with the
    solver name and the option dictionaries that the session records; these
    are the init-only arguments, or empty when none is given, whatever
    [_options_solver] and [_options_plugin] were before; the other fields
    are as the constructor set them, so that with the defaults nothing is
    cached or known and the getters raise.  [set_opti_options] keeps the
    recorded value of every argument that is [None] and configures the
    engine again with the recorded values. *)
Theorem session_configuration `{Engine} problem_type options_solver options_plugin
    inner' options_solver' options_plugin' st :
  let run := __post_init__ problem_type options_solver options_plugin st in
  let s := self st in
  let s0 := self (snd run) in
  let s' := self (snd (set_opti_options inner' options_solver' options_plugin' st)) in
  (forall msg, Opti_problem_type_error problem_type = Some msg ->
     run = (inl (EngineError msg), st)) /\
  (Opti_problem_type_error problem_type = None ->
     fst run = inr tt /\ heap (snd run) = heap st /\
     options_in_sync s0 /\
     _solver s0 = Opti_solver (_inner_solver s) (default [] options_plugin)
                    (default [] options_solver) (cs_Opti problem_type) /\
     _inner_solver s0 = _inner_solver s /\
     _options_solver s0 = default [] options_solver /\
     _options_plugin s0 = default [] options_plugin /\
     _cost s0 = _cost s /\ _opti_solution s0 = _opti_solution s /\
     _output_solution s0 = _output_solution s /\ _output_cost s0 = _output_cost s /\
     _variables s0 = _variables s /\ _problem s0 = _problem s /\
     (s = OptiSolver_defaults ->
        get_values (snd run) = (inl SolutionNotAvailableException, snd run) /\
        get_cost_value (snd run) = (inl SolutionNotAvailableException, snd run) /\
        get_problem (snd run) = (inl ProblemNotRegisteredException, snd run) /\
        fst (cost_function (snd run)) = inr None /\
        fst (get_optimization_objects (snd run)) = inr VNone)) /\
  (options_in_sync s' /\
   _inner_solver s' = default (_inner_solver s) inner' /\
   _options_solver s' = default (_options_solver s) options_solver' /\
   _options_plugin s' = default (_options_plugin s) options_plugin' /\
   snd (set_opti_options inner' options_solver' options_plugin' st) =
     mk_state (heap st)
       (with_solver (Opti_solver (_inner_solver s') (_options_plugin s') (_options_solver s')
                       (_solver s))
          (with_options (_inner_solver s') (_options_plugin s') (_options_solver s') s))).
Proof.
  intros run s s0 s'. subst run s s0 s'. unfold __post_init__.
  split; [|split].
  - intros msg Hmsg. by rewrite Hmsg.
  - intros Hok. rewrite Hok. cbn [fst snd modify_self heap self].
    split; [done|]. split; [done|]. split; [done|].
    split; [by destruct options_solver, options_plugin|]. split; [done|].
    split; [by destruct options_solver|]. split; [by destruct options_plugin|].
    split; [done|]. split; [done|]. split; [done|]. split; [done|]. split; [done|].
    split; [done|]. intros Hdef.
    unfold get_values, get_cost_value, get_problem, cost_function,
      get_optimization_objects, bind, gets. cbn [self]. rewrite Hdef. done.
  - split; [done|]. split; [by destruct inner'|]. split; [by destruct options_solver'|].
    split; [by destruct options_plugin'|].
    by destruct inner', options_solver', options_plugin'.
Qed.

Lemma set_opti_options_in_sync st :
  options_in_sync (self st) -> set_opti_options None None None st = (inr tt, st).
Proof.
  unfold options_in_sync, set_opti_options, modify_self.
  destruct st as [h [? ? ? ? [] ? ? ? ? ?]]. simpl. by intros ->.
Qed.

(** [add_cost] changes the cost at most, [add_constraint] the engine's
    constraints at most *)
Lemma add_cost_run `{Engine} c st :
  add_cost c st =
    match _cost (self st) with
    | None => (inr tt, mk_state (heap st) (with_cost (Some c) (self st)))
    | Some c0 =>
        match MX_plus_error c0 c with
        | Some msg => (inl (EngineError msg), st)
        | None => (inr tt, mk_state (heap st) (with_cost (Some (MX_add c0 c)) (self st)))
        end
    end.
Proof.
  unfold add_cost, bind, gets. destruct (_cost (self st)) as [c0|]; [|done].
  by destruct (MX_plus_error c0 c).
Qed.

Lemma add_cost_frame `{Engine} c st :
  exists c', snd (add_cost c st) = mk_state (heap st) (with_cost c' (self st)).
Proof.
  rewrite add_cost_run. destruct (_cost (self st)) as [c0|] eqn:Hc.
  - destruct (MX_plus_error c0 c); [|by eexists].
    exists (Some c0). destruct st as [h []]. simpl in *. by subst.
  - by eexists.
Qed.

Lemma add_constraint_run `{Engine} c st :
  add_constraint c st =
    match Opti_subject_to_error c (_solver (self st)) with
    | Some msg => (inl (EngineError msg), st)
    | None =>
        (inr tt,
         mk_state (heap st) (with_solver (Opti_subject_to c (_solver (self st))) (self st)))
    end.
Proof.
  unfold add_constraint, bind, gets. by destruct (Opti_subject_to_error c (_solver (self st))).
Qed.

(** X4.  Once the engine is configured with the options the session records
    (as it is from construction on), it stays so under
    [generate_optimization_objects], [set_initial_guess], [add_cost],
    [add_constraint] and [register_problem], and [set_opti_options] without
    arguments changes nothing. *)
Theorem options_stay_in_sync `{Engine} st :
  options_in_sync (self st) ->
  (forall fuel x, options_in_sync (self (snd (generate_optimization_objects fuel x st)))) /\
  (forall fuel g, options_in_sync (self (snd (set_initial_guess fuel g st)))) /\
  (forall c, options_in_sync (self (snd (add_cost c st)))) /\
  (forall c, options_in_sync (self (snd (add_constraint c st)))) /\
  (forall p, options_in_sync (self (snd (register_problem p st)))) /\
  set_opti_options None None None st = (inr tt, st).
Proof.
  intros Hs. split; [|split; [|split; [|split; [|split]]]].
  - intros fuel x. eapply generator_keeps_in_sync; [|exact Hs].
    apply (generate_optimization_objects_session fuel x st).
  - intros fuel g. eapply binder_pushes_in_sync; [|exact Hs].
    apply (set_initial_guess_pushes fuel g st).
  - intros c. destruct (add_cost_frame c st) as [c' ->]. done.
  - intros c. rewrite add_constraint_run. by destruct (Opti_subject_to_error _ _).
  - done.
  - by apply set_opti_options_in_sync.
Qed.

Lemma for_each_add_constraint `{Engine} cs : forall st,
  (forall c o, c ∈ cs -> Opti_subject_to_error c o = None) ->
  for_each add_constraint cs st =
    (inr tt,
     mk_state (heap st)
       (with_solver
          (mk_Opti (problem_type (_solver (self st))) (plugin (_solver (self st)))
             (n_symbols (_solver (self st))) (initial_store (_solver (self st)))
             (value_store (_solver (self st))) (objective (_solver (self st)))
             (constraints (_solver (self st)) ++ cs))
          (self st))).
Proof.
  induction cs as [|c cs IH]; intros st Hcs; simpl.
  - destruct st as [h [? ? ? ? [] ? ? ? ? ?]]. unfold ret, with_solver. simpl.
    by rewrite app_nil_r.
  - erewrite bind_run.
    2:{ rewrite add_constraint_run, Hcs; [done|left]. }
    rewrite IH by (intros; apply Hcs; by right). simpl.
    unfold with_solver. simpl. by rewrite <- app_assoc.
Qed.

Lemma generator_keeps_constraints s s' :
  generator_keeps s s' -> constraints (_solver s') = constraints (_solver s).
Proof. by intros (n & v & ->). Qed.

Lemma binder_pushes_constraints st st' :
  binder_pushes st st' -> constraints (_solver (self st')) = constraints (_solver (self st)).
Proof. by intros (i & v & ->). Qed.

(** X5.  Constraints are only ever appended.  [add_constraint] with an
    expression that the engine rejects raises the engine's error and changes
    nothing; with one that it takes for a constraint, the expression is
    appended to the constraints the engine has and nothing else changes.  So
    adding the constraints [cs], all of a kind that the engine accepts, one
    after the other leaves the engine with its former constraints followed
    by [cs], in that order.  Generating objects, setting guesses, adding
    costs, setting options and registering a problem leave the constraints
    as they are. *)
Theorem constraints_append_only `{Engine} cs st :
  (forall c msg, Opti_subject_to_error c (_solver (self st)) = Some msg ->
     add_constraint c st = (inl (EngineError msg), st)) /\
  (forall c, Opti_subject_to_error c (_solver (self st)) = None ->
     add_constraint c st =
       (inr tt,
        mk_state (heap st)
          (with_solver
             (mk_Opti (problem_type (_solver (self st))) (plugin (_solver (self st)))
                (n_symbols (_solver (self st))) (initial_store (_solver (self st)))
                (value_store (_solver (self st))) (objective (_solver (self st)))
                (constraints (_solver (self st)) ++ [c]))
             (self st)))) /\
  ((forall c o, c ∈ cs -> Opti_subject_to_error c o = None) ->
   for_each add_constraint cs st =
     (inr tt,
      mk_state (heap st)
        (with_solver
           (mk_Opti (problem_type (_solver (self st))) (plugin (_solver (self st)))
              (n_symbols (_solver (self st))) (initial_store (_solver (self st)))
              (value_store (_solver (self st))) (objective (_solver (self st)))
              (constraints (_solver (self st)) ++ cs))
           (self st)))) /\
  (forall fuel x,
     constraints (_solver (self (snd (generate_optimization_objects fuel x st)))) =
       constraints (_solver (self st))) /\
  (forall fuel g,
     constraints (_solver (self (snd (set_initial_guess fuel g st)))) =
       constraints (_solver (self st))) /\
  (forall c, constraints (_solver (self (snd (add_cost c st)))) =
               constraints (_solver (self st))) /\
  (forall i os op, constraints (_solver (self (snd (set_opti_options i os op st)))) =
                     constraints (_solver (self st))) /\
  (forall p, constraints (_solver (self (snd (register_problem p st)))) =
               constraints (_solver (self st))).
Proof.
  split; [|split; [|split; [|split; [|split; [|split; [|split]]]]]].
  - intros c msg Hc. by rewrite add_constraint_run, Hc.
  - intros c Hc. by rewrite add_constraint_run, Hc.
  - apply for_each_add_constraint.
  - intros fuel x. apply generator_keeps_constraints.
    apply (generate_optimization_objects_session fuel x st).
  - intros fuel g. apply binder_pushes_constraints.
    apply (set_initial_guess_pushes fuel g st).
  - intros c. destruct (add_cost_frame c st) as [c' ->]. done.
  - done.
  - done.
Qed.

(** * Generation from an instance *)

Lemma field_signature_update n v fs :
  field_signature (update_field n v fs) = field_signature fs.
Proof.
  induction fs as [|f fs IH]; simpl; [done|].
  destruct (String.eqb (fname f) n); simpl; by rewrite ?IH.
Qed.

Lemma field_signature_zip fs : forall vs,
  length vs = length fs -> field_signature (zip_with with_fvalue fs vs) = field_signature fs.
Proof.
  induction fs as [|f fs IH]; intros [|v vs] Hlen; simpl in *; try done.
  rewrite IH by lia. done.
Qed.

(** the copy of an instance is a new instance with the same fields *)
Lemma deepcopy_object fuel o fs st :
  heap st !! o = Some (OptimizationObject fs) ->
  wp (deepcopy fuel (VRef o))
     (fun r st' =>
        heap st `prefix_of` heap st' /\ self st' = self st /\
        forall v, r = inr v ->
          v = VRef (length (heap st)) /\
          exists fs', heap st' !! length (heap st) = Some (OptimizationObject fs') /\
                      field_signature fs' = field_signature fs) st.
Proof.
  intros Ho. unfold deepcopy. wp_step. destruct fuel as [|fuel]; simpl.
  - by wp_steps.
  - wp_step. wp_step; [|congruence].
    assert (c = OptimizationObject fs) as -> by congruence.
    wp_step. wp_step. wp_step.
    wp_use (deepcopy_items_frame (deepcopy_memo fuel) (length (heap st))
              (deepcopy_memo_frame (length (heap st)) fuel)) as (Hp & Hs & Hr).
    { simpl. rewrite length_app. lia. }
    { by apply memo_fresh_cons. }
    simpl in Hp, Hs.
    assert (heap st `prefix_of` heap st') as Hp'.
    { etrans; [|exact Hp]. by apply prefix_app_r. }
    destruct r as [e|[vs memo1]]; [done|].
    destruct (Hr _ _ eq_refl) as (_ & _ & Hlen).
    wp_steps. split; [by apply prefix_insert_ge|]. split; [done|].
    intros ? [= <-]. split; [done|].
    exists (zip_with with_fvalue fs vs). split.
    + cbn [heap fst]. apply list_lookup_insert_eq.
      apply prefix_length in Hp. rewrite length_app in Hp. simpl in Hp. lia.
    + apply field_signature_zip. by rewrite Hlen, length_map.
Qed.

Lemma wp_setattr_signature y sig x n v st :
  x = VRef y ->
  (exists fs, heap st !! y = Some (OptimizationObject fs) /\ field_signature fs = sig) ->
  wp (setattr x n v)
     (fun _ st' => exists fs, heap st' !! y = Some (OptimizationObject fs) /\
                              field_signature fs = sig) st.
Proof.
  intros -> (fs & Hy & Hsig). apply wp_setattr; [by eauto|].
  intros l fs0 [= <-] Hl. assert (fs0 = fs) as -> by congruence.
  exists (update_field n v fs). cbn [heap]. split.
  - apply list_lookup_insert_eq. by eapply lookup_lt_Some.
  - by rewrite field_signature_update.
Qed.

Lemma generate_field_signature generate y sig fld st :
  (forall x, grows_heap (generate x)) ->
  (exists fs, heap st !! y = Some (OptimizationObject fs) /\ field_signature fs = sig) ->
  wp (generate_field generate (VRef y) fld)
     (fun _ st' => exists fs, heap st' !! y = Some (OptimizationObject fs) /\
                              field_signature fs = sig) st.
Proof.
  intros Hgen (fs & Hy & Hsig). destruct fld as [name metadata]. unfold generate_field.
  wp_step. apply wp_readonly; [apply readonly_getattribute|].
  intros [e|composite_value] _; [by eauto|].
  wp_step. wp_step. wp_step.
  - wp_step. wp_use (Hgen composite_value) as Hp.
    assert (heap st' !! y = Some (OptimizationObject fs)) by (by eapply prefix_lookup_Some).
    destruct r; [by eauto|]. apply wp_setattr_signature; by eauto.
  - destruct metadata as [storage_type|]; [|wp_step; by eauto].
    wp_step. apply wp_readonly; [apply readonly_getattribute|].
    intros [e|value_field] _; [by eauto|].
    wp_step. wp_step. wp_step. wp_step. wp_step.
    assert (y < length (heap st)) as Hlt by (by eapply lookup_lt_Some).
    apply wp_for_each with
      (I := fun st' => heap st' !! y = Some (OptimizationObject fs)).
    + simpl. by rewrite lookup_app_l.
    + intros value st1 _ Hy1. wp_step.
      wp_use (_generate_opti_object_heap storage_type name value) as Hh.
      destruct r; [rewrite Hh; by eauto|].
      apply wp_append; [rewrite Hh; by eauto|].
      intros l items [= <-] _. cbn [heap]. rewrite Hh.
      rewrite list_lookup_insert_ne by lia. done.
    + intros st1 Hy1. wp_step.
      * apply wp_setattr_signature; by eauto.
      * wp_step. apply wp_readonly; [apply readonly_getitem|].
        intros [e|x] _; [by eauto|]. apply wp_setattr_signature; by eauto.
Qed.

Lemma _generate_objects_from_instance_spec fuel generate o fs st :
  (forall x, grows_heap (generate x)) ->
  heap st !! o = Some (OptimizationObject fs) ->
  wp (_generate_objects_from_instance fuel generate (VRef o))
     (fun r st' =>
        forall out, r = inr out ->
          out = VRef (length (heap st)) /\
          (exists fs', heap st' !! length (heap st) = Some (OptimizationObject fs') /\
                       field_signature fs' = field_signature fs) /\
          _variables (self st') = out) st.
Proof.
  intros Hgen Ho. unfold _generate_objects_from_instance.
  wp_step. wp_use (deepcopy_object fuel o fs st Ho) as (_ & _ & Hr).
  destruct r as [e|output]; [done|].
  destruct (Hr _ eq_refl) as (-> & Hy).
  wp_step. apply wp_readonly; [apply readonly_dataclasses_fields|].
  intros [e|fields] _; [done|].
  wp_step.
  apply wp_for_each with
    (I := fun st1 => exists fs', heap st1 !! length (heap st) = Some (OptimizationObject fs') /\
                                 field_signature fs' = field_signature fs); [done| |].
  - intros fld st1 _ Hy1.
    wp_use (generate_field_signature generate (length (heap st)) _ fld st1 Hgen Hy1) as Hy2.
    by destruct r as [e|[]].
  - intros st1 Hy1. wp_steps. by intros ? [= <-].
Qed.

(** X6.  On an instance, when [generate_optimization_objects] returns, the
    result is a new object with the field names and the metadata of the
    template, in the same order; it is the structure the session tracks,
    whatever nested calls tracked in between, and
    [get_optimization_objects] returns it. *)
Theorem generate_instance fuel o fs st :
  heap st !! o = Some (OptimizationObject fs) ->
  let run := generate_optimization_objects fuel (VRef o) st in
  forall out, fst run = inr out ->
    out = VRef (length (heap st)) /\
    (exists fs', heap (snd run) !! length (heap st) = Some (OptimizationObject fs') /\
                 map fname fs' = map fname fs /\ map fmetadata fs' = map fmetadata fs) /\
    get_optimization_objects (snd run) = (inr out, snd run).
Proof.
  intros Ho run out Hout. subst run.
  destruct fuel as [|fuel]; [done|].
  rewrite generate_optimization_objects_S in *. rewrite gets_run in *.
  assert (isinstance_OptimizationObject (heap st) (VRef o) = true) as Hi
    by (simpl; by rewrite Ho).
  rewrite Hi in *.
  pose proof (_generate_objects_from_instance_spec fuel (generate_optimization_objects fuel)
                o fs st (generate_optimization_objects_frame fuel) Ho) as Hsp.
  unfold wp in Hsp. destruct (Hsp _ Hout) as (-> & (fs' & Hy & Hsig) & Hv).
  split; [done|]. split.
  - exists fs'. split; [done|]. unfold field_signature in Hsig.
    split.
    + apply (f_equal (map fst)) in Hsig. by rewrite !map_map in Hsig.
    + apply (f_equal (map snd)) in Hsig. by rewrite !map_map in Hsig.
  - unfold get_optimization_objects, gets. by rewrite Hv.
Qed.

(** * Inputs that are no structures *)

Lemma wp_eq {A} (m : M A) (Q : exn + A -> state -> Prop) st r st' :
  m st = (r, st') -> Q r st' -> wp m Q st.
Proof. unfold wp. by intros ->. Qed.

Lemma for_each_app {A} (body : A -> M unit) l1 l2 st :
  for_each body (l1 ++ l2) st = (for_each body l1 ;;; for_each body l2) st.
Proof.
  revert st. induction l1 as [|x l1 IH]; intros st; simpl; [done|].
  unfold bind in *. destruct (body x st) as [[e|[]] st']; [done|]. apply IH.
Qed.

Lemma wp_for_each_app {A} (body : A -> M unit) l1 l2 Q st :
  wp (for_each body l1 ;;; for_each body l2) Q st -> wp (for_each body (l1 ++ l2)) Q st.
Proof. unfold wp. by rewrite for_each_app. Qed.

Lemma generate_atom fuel x st :
  is_atom x -> generate_optimization_objects (S fuel) x st = (inl AssertionError, st).
Proof. intros Hx. destruct x as [| | | | |l]; try done. by destruct (Hx l). Qed.

Lemma generate_atom_fails fuel x st :
  is_atom x -> exists e, generate_optimization_objects fuel x st = (inl e, st).
Proof.
  intros Hx. destruct fuel; [by eexists|]. eexists. by apply generate_atom.
Qed.

Lemma deepcopy_items_atom_at fuel : forall items memo st i a,
  items !! i = Some a -> is_atom a ->
  wp (deepcopy_items (deepcopy_memo fuel) items memo)
     (fun r _ => forall vs m, r = inr (vs, m) -> vs !! i = Some a) st.
Proof.
  induction items as [|x items IH]; intros memo st [|i] a Hi Ha; simpl in *; try done.
  - injection Hi as ->. wp_step.
    eapply wp_eq; [by apply deepcopy_memo_atom|]. cbv beta iota.
    wp_step. wp_use wp_any as _. destruct r as [e|rs]; [done|].
    wp_step. by intros ? ? [= <- <-].
  - wp_step. wp_use wp_any as _. destruct r as [e|r]; [done|].
    wp_step. wp_use (IH (snd r) st' i a Hi Ha) as Hvs. destruct r0 as [e|[vs m]]; [done|].
    wp_step. intros ? ? [= <- <-]. simpl. by eapply Hvs.
Qed.

Lemma deepcopy_list_atom_at fuel l items i a st :
  heap st !! l = Some (PyList items) -> items !! i = Some a -> is_atom a ->
  wp (deepcopy fuel (VRef l))
     (fun r st' => forall v, r = inr v ->
        exists items', heap st' !! length (heap st) = Some (PyList items') /\
                       items' !! i = Some a) st.
Proof.
  intros Hl Hi Ha. unfold deepcopy. wp_step. destruct fuel as [|fuel]; simpl.
  - by wp_steps.
  - wp_step. wp_step; [|congruence].
    assert (c = PyList items) as -> by congruence.
    wp_step. wp_step. wp_step.
    eapply wp_mono.
    { apply wp_and.
      - apply (deepcopy_items_frame (deepcopy_memo fuel) (length (heap st))
                 (deepcopy_memo_frame (length (heap st)) fuel)).
        + simpl. rewrite length_app. lia.
        + by apply memo_fresh_cons.
      - by apply (deepcopy_items_atom_at fuel items _ _ i a). }
    cbv beta. intros r st' [(Hp & _ & _) Hat]. simpl in Hp.
    destruct r as [e|[vs memo1]]; [done|].
    wp_steps. intros ? [= <-]. exists vs. split; [|by eapply Hat].
    cbn [heap fst]. apply list_lookup_insert_eq.
    apply prefix_length in Hp. rewrite length_app in Hp. simpl in Hp. lia.
Qed.

Lemma seq_split_at i n : i < n -> seq 0 n = seq 0 i ++ i :: seq (S i) (n - S i).
Proof.
  intros Hi. replace n with (i + S (n - S i)) at 1 by lia.
  by rewrite seq_app.
Qed.

Lemma generate_list_with_atom fuel l items i a st :
  heap st !! l = Some (PyList items) -> items !! i = Some a -> is_atom a ->
  exists e, fst (generate_optimization_objects fuel (VRef l) st) = inl e.
Proof.
  intros Hl Hi Ha.
  cut (wp (generate_optimization_objects fuel (VRef l))
          (fun r _ => exists e, r = inl e) st); [done|].
  destruct fuel as [|fuel]; [simpl; wp_step; by eauto|].
  rewrite generate_optimization_objects_S. wp_step. wp_step.
  assert (isinstance_OptimizationObject (heap st) (VRef l) = false) as ->
    by (simpl; by rewrite Hl).
  unfold _generate_objects_from_list. wp_step. wp_step. wp_step; [|wp_step; by eauto].
  wp_step.
  eapply wp_mono.
  { apply wp_and; [apply (deepcopy_list fuel l items st Hl)
                  |apply (deepcopy_list_atom_at fuel l items i a st Hl Hi Ha)]. }
  cbv beta. intros r st1 [(_ & _ & Hr) Hat].
  destruct r as [e|output]; [by eauto|].
  destruct (Hr _ eq_refl) as (-> & items1 & Hy & Hlen).
  destruct (Hat _ eq_refl) as (items1' & Hy' & Hi1).
  assert (items1' = items1) as -> by congruence. clear Hy'.
  wp_step. eapply wp_eq; [by eapply py_len_run|]. cbv beta iota.
  assert (i < length items1) as Hlt by (by eapply lookup_lt_Some).
  wp_step. rewrite (seq_split_at i (length items1) Hlt). apply wp_for_each_app.
  wp_step.
  apply wp_for_each with
    (I := fun st2 => exists items', heap st2 !! length (heap st) = Some (PyList items') /\
                                    items' !! i = Some a).
  - by eauto.
  - intros j st2 Hj (items2 & Hy2 & Hi2).
    apply elem_of_seq in Hj.
    wp_step. apply wp_readonly; [apply readonly_getitem|]. intros [e|x] _.
    { by eauto. }
    wp_step. wp_use (generate_optimization_objects_frame fuel x) as Hp.
    assert (heap st' !! length (heap st) = Some (PyList items2)) as Hy3
      by (by eapply prefix_lookup_Some).
    destruct r as [e|r]; [by eauto|].
    apply wp_setitem; [by eauto|].
    intros l0 its [= <-] Hits Hj'.
    assert (its = items2) as -> by congruence.
    exists (<[j := r]> items2). cbn [heap]. split.
    + apply list_lookup_insert_eq. by eapply lookup_lt_Some.
    + rewrite list_lookup_insert_ne by lia. done.
  - intros st2 (items2 & Hy2 & Hi2). simpl.
    wp_step. wp_step. eapply wp_eq; [by eapply getitem_run|]. cbv beta iota.
    wp_step. destruct (generate_atom_fails fuel a st2 Ha) as [e He].
    eapply wp_eq; [exact He|]. cbv beta iota. by eauto.
Qed.

Lemma deepcopy_atoms_list fuel l items st :
  heap st !! l = Some (PyList items) -> Forall is_atom items ->
  deepcopy (S fuel) (VRef l) st =
    (inr (VRef (length (heap st))), mk_state (heap st ++ [PyList items]) (self st)).
Proof.
  intros Hl Hitems. unfold deepcopy. simpl.
  rewrite bind_assoc. erewrite bind_run by (by apply read_run).
  cbv beta iota. rewrite bind_assoc, alloc_run, bind_assoc.
  erewrite bind_run.
  2:{ apply deepcopy_items_atoms; [intros; by apply deepcopy_memo_atom|done]. }
  simpl. unfold bind, write, modify_heap. simpl.
  by rewrite insert_snoc.
Qed.

(** X7.  [generate_optimization_objects] accepts structures and lists of
    structures only.  An input that is neither an instance nor a list
    ([None], a number, an array) raises [AssertionError] and leaves the state
    as it was.  A list that holds such an element, at any position, always
    ends in an exception; when all the elements of a non-empty list are such,
    the exception is the [AssertionError], raised after the list has been
    copied and before the session tracks anything new. *)
Theorem generate_rejects_non_structures fuel st :
  (forall x, is_atom x ->
     generate_optimization_objects (S fuel) x st = (inl AssertionError, st)) /\
  (forall l items i a,
     heap st !! l = Some (PyList items) -> items !! i = Some a -> is_atom a ->
     exists e, fst (generate_optimization_objects fuel (VRef l) st) = inl e) /\
  (forall l items,
     heap st !! l = Some (PyList items) -> items <> [] -> Forall is_atom items ->
     generate_optimization_objects (S (S fuel)) (VRef l) st =
       (inl AssertionError, mk_state (heap st ++ [PyList items]) (self st))).
Proof.
  split; [|split].
  - intros x Hx. by apply generate_atom.
  - intros l items i a. apply generate_list_with_atom.
  - intros l items Hl Hne Hitems.
    rewrite generate_optimization_objects_S, gets_run.
    assert (isinstance_OptimizationObject (heap st) (VRef l) = false) as ->
      by (simpl; by rewrite Hl).
    unfold _generate_objects_from_list. rewrite gets_run.
    assert (isinstance_list (heap st) (VRef l) = true) as -> by (simpl; by rewrite Hl).
    erewrite bind_run by (by apply deepcopy_atoms_list).
    erewrite bind_run by (apply py_len_run; apply lookup_snoc).
    destruct items as [|a items]; [done|].
    apply Forall_cons in Hitems as [Ha _].
    cbn [length seq for_each]. rewrite !bind_assoc.
    erewrite bind_run by (eapply getitem_run; [apply lookup_snoc|done]).
    rewrite !bind_assoc.
    erewrite bind_fail; [done|]. by apply generate_atom.
Qed.

(** * Storage fields the generator refuses *)

Lemma _generate_opti_object_unsupported tag name value st :
  value <> VNone -> (forall a, value = VArray a -> matrix_like a) ->
  _generate_opti_object (Other_StorageTypeValue tag) name value st =
    (inl (ValueError "Unsupported input storage type"), st).
Proof.
  intros Hn Ha. destruct value as [| | |a| |]; try done.
  destruct (Ha a eq_refl) as [H1 | H2]; unfold _generate_opti_object, bind, np_expand_dims.
  - destruct (decide (2 < ndim a)); [lia|]. destruct (decide (ndim a < 2)); [|lia].
    destruct (decide (1 <= ndim a)); [done|lia].
  - destruct (decide (2 < ndim a)); [lia|]. destruct (decide (ndim a < 2)); [lia|done].
Qed.

(** X8.  A field tagged as storage with a role other than Variable and
    Parameter makes the generator raise the "Unsupported input storage type"
    error, for every value that passes the checks made before the role is
    looked at (not [None], and of rank 1 or 2 if an array); no symbol is
    taken from the engine. *)
Theorem unsupported_storage_type generate o fs name tag value st :
  heap st !! o = Some (OptimizationObject fs) ->
  lookup_field name fs = Some value ->
  is_atom value -> value <> VNone ->
  (forall a, value = VArray a -> matrix_like a) ->
  let run := generate_field generate (VRef o) (name, Some (Other_StorageTypeValue tag)) st in
  fst run = inl (ValueError "Unsupported input storage type") /\
  self (snd run) = self st.
Proof.
  intros Ho Hn Hv Hnone Ha run. subst run.
  erewrite generate_field_storage_raises; [done|done|done|done|].
  intros st0. by apply _generate_opti_object_unsupported.
Qed.

(** X9.  A storage field (Variable or Parameter) whose template value has no
    shape, a number or a string, makes the generator raise [AttributeError];
    an array without dimensions raises the axis error of [np.expand_dims],
    whatever the role.  In both cases no symbol is taken from the engine. *)
Theorem storage_value_without_shape generate o fs name storage_type value st :
  heap st !! o = Some (OptimizationObject fs) ->
  lookup_field name fs = Some value ->
  let run := generate_field generate (VRef o) (name, Some storage_type) st in
  (supported storage_type -> (exists z, value = VNum z) \/ (exists s, value = VStr s) ->
     fst run = inl AttributeError /\ self (snd run) = self st) /\
  (forall a, value = VArray a -> ndim a = 0 ->
     fst run = inl AxisError /\ self (snd run) = self st).
Proof.
  intros Ho Hn run. subst run. split.
  - intros Hs Hv.
    erewrite generate_field_storage_raises; [done|done|done| |].
    + by destruct Hv as [[z ->] | [s ->]].
    + intros st0. by destruct Hs as [-> | ->], Hv as [[z ->] | [s ->]].
  - intros a -> Ha.
    erewrite generate_field_storage_raises; [done|done|done|done|].
    intros st0. unfold _generate_opti_object, bind, np_expand_dims.
    destruct (decide (2 < ndim a)); [lia|]. destruct (decide (ndim a < 2)); [|lia].
    destruct (decide (1 <= ndim a)); [lia|done].
Qed.

(** * Fields the binder skips, and fields it misses *)

Lemma guess_field_untagged rec initial_guess corresponding_variable name metadata st :
  is_variable_or_parameter metadata = false ->
  guess_field rec initial_guess corresponding_variable (name, metadata) st =
  guess_field rec initial_guess corresponding_variable (name, None) st.
Proof. by destruct metadata as [[| |?]|]. Qed.

Lemma forallb_elem_false {A} (p : A -> bool) l x : x ∈ l -> p x = false -> forallb p l = false.
Proof.
  induction l as [|y l IH]; intros Hx Hp; [by apply elem_of_nil in Hx|].
  apply elem_of_cons in Hx as [<- | Hx]; simpl.
  - by rewrite Hp.
  - rewrite IH by done. apply andb_false_r.
Qed.

(** X10.  The binder looks at storage fields (Variable or Parameter), nested
    structures and lists of structures only.  A field of a guess with no
    storage role or another one is skipped without a trace when its value is
    no container, or a list that holds an element that is no structure,
    whether or not the symbolic structure has such a field. *)
Theorem guess_skips_plain_fields rec g gfs corresponding_variable name metadata value st :
  heap st !! g = Some (OptimizationObject gfs) ->
  lookup_field name gfs = Some value ->
  is_variable_or_parameter metadata = false ->
  let run := guess_field rec (VRef g) corresponding_variable (name, metadata) st in
  (is_atom value -> run = (inr tt, st)) /\
  (forall l items x,
     value = VRef l -> heap st !! l = Some (PyList items) ->
     x ∈ items -> isinstance_OptimizationObject (heap st) x = false ->
     run = (inr tt, st)).
Proof.
  intros Hg Hn Hm run. subst run. rewrite guess_field_untagged by done.
  unfold guess_field. erewrite bind_run by (by eapply getattribute_run).
  rewrite gets_run. split.
  - intros Hv. by destruct value as [| | | | |l]; [..|destruct (Hv l)].
  - intros l items x -> Hl Hx Hnx. simpl. rewrite Hl.
    by rewrite (forallb_elem_false _ _ x Hx Hnx).
Qed.

(** X11.  Where the symbolic side has nothing ([None], as before anything
    is generated), a guess field that holds a nested structure or a list of
    structures is an error that names the field, "not present in the
    optimization structure", and leaves the state as it was.  A list of
    structures guessed for a field that the symbolic structure has, but that
    holds no list there, raises the "as list" error. *)
Theorem guess_for_missing_field rec g gfs name value st :
  heap st !! g = Some (OptimizationObject gfs) ->
  lookup_field name gfs = Some value ->
  let run corresponding_variable metadata :=
    guess_field rec (VRef g) corresponding_variable (name, metadata) st in
  let absent :=
    (inl (ValueError ("The guess has the field " +:+ name +:+
                      " but it is not present in the optimization " +:+ "structure")), st) in
  (forall metadata, is_variable_or_parameter metadata = false ->
     isinstance_OptimizationObject (heap st) value = true ->
     run VNone metadata = absent) /\
  (forall metadata l items, is_variable_or_parameter metadata = false ->
     value = VRef l -> is_list_of_objects (heap st) l items ->
     run VNone metadata = absent) /\
  (forall metadata l items c cfs v,
     is_variable_or_parameter metadata = false ->
     value = VRef l -> is_list_of_objects (heap st) l items ->
     heap st !! c = Some (OptimizationObject cfs) ->
     lookup_field name cfs = Some v -> isinstance_list (heap st) v = false ->
     run (VRef c) metadata =
       (inl (ValueError ("The guess has the field " +:+ name +:+
                         " as list, but the corresponding structure is not a list")), st)).
Proof.
  intros Hg Hn run absent. subst run absent. cbv beta. split; [|split].
  - intros metadata Hm Hv. rewrite guess_field_untagged by done.
    unfold guess_field. erewrite bind_run by (by eapply getattribute_run).
    rewrite gets_run, Hv. done.
  - intros metadata l items Hm -> [Hl Hall]. rewrite guess_field_untagged by done.
    unfold guess_field. erewrite bind_run by (by eapply getattribute_run).
    rewrite gets_run.
    assert (isinstance_OptimizationObject (heap st) (VRef l) = false) as ->
      by (simpl; by rewrite Hl).
    assert (isinstance_list (heap st) (VRef l) = true) as -> by (simpl; by rewrite Hl).
    assert (list_items (heap st) (VRef l) = items) as -> by (simpl; by rewrite Hl).
    rewrite Hall. done.
  - intros metadata l items c cfs v Hm -> [Hl Hall] Hc Hcn Hv.
    rewrite guess_field_untagged by done.
    unfold guess_field. erewrite bind_run by (by eapply getattribute_run).
    rewrite gets_run.
    assert (isinstance_OptimizationObject (heap st) (VRef l) = false) as ->
      by (simpl; by rewrite Hl).
    assert (isinstance_list (heap st) (VRef l) = true) as -> by (simpl; by rewrite Hl).
    assert (list_items (heap st) (VRef l) = items) as -> by (simpl; by rewrite Hl).
    rewrite Hall. cbn [andb].
    erewrite hasattr_true by done.
    erewrite bind_run by (by eapply getattribute_run).
    rewrite gets_run, Hv. done.
Qed.

Lemma _set_initial_guess_internal_S fuel initial_guess corresponding_variable :
  _set_initial_guess_internal (S fuel) initial_guess corresponding_variable =
    (fields <- dataclasses_fields initial_guess ;;
     for_each (guess_field (_set_initial_guess_internal fuel)
                 initial_guess corresponding_variable) fields).
Proof. done. Qed.

(** X12.  Before any structure is generated the session tracks [None]:
    [set_initial_guess] with a list raises the list error, and with a guess
    whose first field is a Variable or Parameter that holds an array it
    raises the "not present" error for that field; the state is left as it
    was. *)
Theorem guess_before_generate fuel st :
  _variables (self st) = VNone ->
  (forall guess, isinstance_list (heap st) guess = true ->
     set_initial_guess fuel guess st =
       (inl (ValueError
               "The input guess is a list, but the specified variables structure is not"),
        st)) /\
  (forall g name storage_type a gfs,
     heap st !! g =
       Some (OptimizationObject (mk_field name (Some storage_type) (VArray a) :: gfs)) ->
     supported storage_type ->
     set_initial_guess (S fuel) (VRef g) st =
       (inl (ValueError
               ("The guess has the field " +:+ name +:+
                " but it is not present in the optimization " +:+
                (if is_parameter_type storage_type then "parameters" else "variables"))),
        st)).
Proof.
  intros Hv. split.
  - intros guess Hl. unfold set_initial_guess. rewrite gets_run, Hl, gets_run, Hv. done.
  - intros g name storage_type a gfs Hg Hs. unfold set_initial_guess.
    rewrite gets_run.
    assert (isinstance_list (heap st) (VRef g) = false) as -> by (simpl; by rewrite Hg).
    rewrite gets_run, Hv, _set_initial_guess_internal_S.
    erewrite bind_run.
    2:{ unfold dataclasses_fields. erewrite bind_run by (by apply read_run). done. }
    cbn [map for_each fname fmetadata]. erewrite bind_fail; [done|].
    rewrite guess_field_storage by done.
    unfold guess_storage, asdict_field.
    erewrite bind_run.
    2:{ eapply getattribute_run; [done|]. simpl. by rewrite String.eqb_refl. }
    cbv beta iota. rewrite gets_run. simpl. by destruct Hs as [-> | ->].
Qed.

(** X13.  For a storage field (Variable or Parameter) that both sides have:
    a guess that is an array without dimensions raises [IndexError] (its
    shape has no first entry), and a guess for a leaf without a shape
    ([None], a number, a string, or a list such as the list of handles
    generated from a list of arrays) raises [AttributeError]; the state is
    left as it was. *)
Theorem guess_without_shape rec g gfs c cfs name storage_type a leaf st :
  supported storage_type ->
  heap st !! g = Some (OptimizationObject gfs) ->
  lookup_field name gfs = Some (VArray a) ->
  heap st !! c = Some (OptimizationObject cfs) ->
  lookup_field name cfs = Some leaf ->
  let run := guess_field rec (VRef g) (VRef c) (name, Some storage_type) st in
  (shape a = [] -> run = (inl IndexError, st)) /\
  (shape a <> [] -> isinstance_ndarray leaf = false -> (forall m, leaf <> VMX m) ->
     isinstance_OptimizationObject (heap st) leaf = false ->
     run = (inl AttributeError, st)).
Proof.
  intros Hs Hg Hn Hc Hcn run. subst run. rewrite guess_field_storage by done.
  unfold guess_storage, asdict_field.
  erewrite bind_run by (by eapply getattribute_run).
  cbv beta iota. rewrite gets_run. erewrite hasattr_true by done.
  erewrite bind_run by (by eapply getattribute_run).
  split.
  - intros Ha. erewrite bind_fail; [done|]. unfold guess_input_shape. rewrite Ha. done.
  - intros Ha Hleaf Hmx _. erewrite bind_run by (by apply guess_input_shape_run).
    erewrite bind_fail; [done|].
    destruct leaf as [| | | |m|]; try done. by destruct (Hmx m).
Qed.

(** * The binder does not roll back *)

Lemma guess_field_push rec g gfs c cfs name storage_type a leaf st :
  supported storage_type ->
  heap st !! g = Some (OptimizationObject gfs) ->
  lookup_field name gfs = Some (VArray a) ->
  heap st !! c = Some (OptimizationObject cfs) ->
  lookup_field name cfs = Some (VMX leaf) ->
  shape a <> [] ->
  column_shape (shape a) = [fst (MX_shape leaf); snd (MX_shape leaf)] ->
  guess_field rec (VRef g) (VRef c) (name, Some storage_type) st =
    (inr tt,
     mk_state (heap st)
       (with_solver (push_guess storage_type leaf a (_solver (self st))) (self st))).
Proof.
  intros Hs Hg Hn Hc Hcn Ha Hshape. rewrite guess_field_storage by done.
  unfold guess_storage, asdict_field.
  erewrite bind_run by (by eapply getattribute_run).
  cbv beta iota. rewrite gets_run. erewrite hasattr_true by done.
  erewrite bind_run by (by eapply getattribute_run).
  erewrite bind_run by (by apply guess_input_shape_run).
  erewrite bind_run by reflexivity.
  destruct (decide _); [|done]. by destruct Hs as [-> | ->].
Qed.

(** X14.  Binding is not atomic.  When the first field of a guess is a
    Variable or a Parameter whose array matches the symbolic leaf, that guess
    is pushed to the engine first and stays there whatever the remaining
    fields do, an exception included: the engine ends with the stores it
    had, then this guess, then what the remaining fields pushed. *)
Theorem binder_keeps_earlier_guesses fuel g name storage_type a gfs c cfs leaf st :
  supported storage_type ->
  heap st !! g =
    Some (OptimizationObject (mk_field name (Some storage_type) (VArray a) :: gfs)) ->
  heap st !! c = Some (OptimizationObject cfs) ->
  lookup_field name cfs = Some (VMX leaf) ->
  shape a <> [] ->
  column_shape (shape a) = [fst (MX_shape leaf); snd (MX_shape leaf)] ->
  exists ini vals,
    snd (_set_initial_guess_internal (S fuel) (VRef g) (VRef c) st) =
      mk_state (heap st)
        (with_solver
           (add_guesses ini vals (push_guess storage_type leaf a (_solver (self st))))
           (self st)).
Proof.
  intros Hs Hg Hc Hcn Ha Hshape. rewrite _set_initial_guess_internal_S.
  erewrite bind_run.
  2:{ unfold dataclasses_fields. erewrite bind_run by (by apply read_run). done. }
  cbn [map for_each fname fmetadata].
  erewrite bind_run.
  2:{ eapply guess_field_push; try done. simpl. by rewrite String.eqb_refl. }
  set (st1 := mk_state (heap st)
                (with_solver (push_guess storage_type leaf a (_solver (self st))) (self st))).
  assert (wp (for_each (guess_field (_set_initial_guess_internal fuel) (VRef g) (VRef c))
                (map (fun f => (fname f, fmetadata f)) gfs))
             (fun _ st' => binder_pushes st1 st') st1) as Hrest.
  { apply wp_for_each with (I := fun st' => binder_pushes st1 st');
      [apply binder_pushes_refl| |done].
    intros fld st2 _ Hk.
    wp_use (guess_field_pushes _ (VRef g) (VRef c) fld st2
              (_set_initial_guess_internal_pushes fuel)) as Hk1.
    destruct r as [e|[]]; by eapply binder_pushes_trans. }
  destruct Hrest as (ini & vals & Hrest). exists ini, vals. rewrite Hrest.
  subst st1. simpl. by rewrite with_solver_twice.
Qed.

(** * The solution extractor builds new objects *)

Lemma solution_field_frame rec variables output fld h0 st :
  (forall x, grows_heap (rec x)) ->
  fresh_val (length h0) output -> h0 `prefix_of` heap st ->
  wp (solution_field rec variables output fld) (fun _ st' => h0 `prefix_of` heap st') st.
Proof.
  intros Hrec Hout Hp. destruct fld as [name metadata]. unfold solution_field.
  wp_step.
  - wp_step. apply wp_readonly; [apply readonly_getattribute|].
    intros [e|var] _; [done|].
    wp_step. wp_step. wp_step; [|by wp_step].
    wp_step. wp_step; [|done]. by apply wp_setattr_frame.
  - wp_step. apply wp_readonly; [apply readonly_getattribute|].
    intros [e|cv] _; [done|].
    wp_step. wp_step. wp_step; [|by wp_step].
    wp_step. wp_use (Hrec cv) as Hp1.
    assert (h0 `prefix_of` heap st') by (by etrans).
    destruct r; [done|]. by apply wp_setattr_frame.
Qed.

Lemma _generate_solution_output_frame fuel :
  forall variables st,
    wp (_generate_solution_output fuel variables)
       (fun r st' => heap st `prefix_of` heap st' /\
                     forall out, r = inr out -> fresh_val (length (heap st)) out) st.
Proof.
  induction fuel as [|fuel IH]; intros variables st; simpl.
  - by wp_step.
  - assert (forall x, grows_heap (_generate_solution_output fuel x)) as IH'.
    { intros x st0. eapply wp_mono; [apply IH|]. by intros ? ? [? _]. }
    wp_step. wp_use (deepcopy_frame fuel variables st) as (Hp & _ & Hr).
    destruct r as [e|output]; [done|]. specialize (Hr _ eq_refl).
    wp_step. wp_step. wp_step.
    + wp_step.
      apply wp_for_each with (I := fun st2 => heap st `prefix_of` heap st2); [done| |].
      * intros [i element] st2 _ Hp2. wp_step. wp_use (IH' element) as Hp3.
        assert (heap st `prefix_of` heap st'0) by (by etrans).
        destruct r; [done|].
        eapply wp_mono; [by apply wp_setitem_frame|].
        intros [e|[]] st3 H3; [split|]; done.
      * intros st2 Hp2. wp_step. split; [done|]. by intros ? [= <-].
    + wp_step. apply wp_readonly; [apply readonly_dataclasses_fields|].
      intros [e|fields] _; [done|].
      wp_step.
      apply wp_for_each with (I := fun st2 => heap st `prefix_of` heap st2); [done| |].
      * intros fld st2 _ Hp2.
        eapply wp_mono; [by apply solution_field_frame|].
        intros [e|[]] st3 H3; [split|]; done.
      * intros st2 Hp2. wp_step. split; [done|]. by intros ? [= <-].
Qed.

Lemma solve_session `{Engine} fuel st :
  wp (solve fuel)
     (fun r st' =>
        heap st `prefix_of` heap st' /\ solve_keeps (self st) (self st') /\
        (r = inr tt ->
           exists y, _output_solution (self st') = VRef y /\ length (heap st) <= y)) st.
Proof.
  unfold solve. wp_step. wp_step. wp_step. wp_step; [|done].
  wp_step. wp_step. wp_step. wp_step; [|done].
  wp_step. wp_step. wp_step. wp_step; [|done].
  wp_step. wp_step. wp_step. wp_step. wp_step.
  eapply wp_mono.
  { apply wp_and; [apply _generate_solution_output_self
                  |apply _generate_solution_output_frame]. }
  cbv beta. intros r st' [[Hs Hout] [Hp Hfresh]]. simpl in Hs, Hp, Hfresh.
  destruct r as [e|out].
  - split; [done|]. split; [by rewrite Hs|done].
  - destruct (Hout _ eq_refl) as [y ->]. specialize (Hfresh _ eq_refl). simpl in Hfresh.
    wp_step. simpl. rewrite Hs. simpl. split; [done|]. split; [done|]. eauto.
Qed.


(** X15.  [solve] leaves every object that existed before the call as it
    was, the symbolic structure and the guesses included, and it keeps the
    tracked structure, the cost, the registered problem and the options,
    however it ends.  When it succeeds, the cached solution is an object
    created by the call: it is never the symbolic structure itself. *)
Theorem solve_frame `{Engine} fuel st :
  let st' := snd (solve fuel st) in
  take (length (heap st)) (heap st') = heap st /\
  _variables (self st') = _variables (self st) /\
  _cost (self st') = _cost (self st) /\
  _problem (self st') = _problem (self st) /\
  _inner_solver (self st') = _inner_solver (self st) /\
  _options_plugin (self st') = _options_plugin (self st) /\
  _options_solver (self st') = _options_solver (self st) /\
  (fst (solve fuel st) = inr tt ->
     exists y, _output_solution (self st') = VRef y /\ length (heap st) <= y).
Proof.
  intros st'. subst st'.
  destruct (solve_session fuel st) as ([k Hk] & (Hv & Hc & Hp & Hi & Hop & Hos) & Hout).
  split; [by rewrite Hk, take_app_length|]. done.
Qed.

(** X16.  [solve] on a session that tracks no structure (nothing was
    generated), with an engine that accepts the cost, solves and evaluates
    the cost: the engine runs, the solution handle and the cost are cached,
    and the extraction then raises [TypeError].  So after this failure
    [get_cost_value] returns the new cost while [get_values] is as it was
    before the call. *)
Theorem solve_before_generate `{Engine} fuel st o sol c :
  _variables (self st) = VNone ->
  Opti_minimize (_cost (self st)) (_solver (self st)) = inr o ->
  Opti_solve o = inr sol ->
  sol (cost_as_val (_cost (self st))) = inr c ->
  let st' :=
    mk_state (heap st)
      (with_output_cost (Some c) (with_opti_solution (Some sol) (with_solver o (self st)))) in
  solve (S fuel) st = (inl TypeError, st') /\
  get_cost_value st' = (inr c, st') /\
  fst (get_values st') = fst (get_values st).
Proof.
  intros Hv Hm Hs Hc st'. subst st'.
  split; [|split; [done | unfold get_values, bind, gets; simpl;
                          by destruct (_output_solution (self st))]].
  unfold solve. rewrite gets_run, Hm. simpl lift_engine.
  erewrite bind_run by reflexivity. erewrite bind_run by reflexivity.
  rewrite Hs. simpl lift_engine.
  erewrite bind_run by reflexivity. erewrite bind_run by reflexivity.
  rewrite Hc. simpl lift_engine.
  erewrite bind_run by reflexivity. erewrite bind_run by reflexivity.
  rewrite gets_run. simpl. rewrite Hv.
  rewrite bind_assoc. erewrite bind_run by (by apply deepcopy_atom). done.
Qed.

(** * The solution of a flat structure *)

Lemma _generate_solution_output_S fuel variables :
  _generate_solution_output (S fuel) variables =
    (output <- deepcopy fuel variables ;;
     h <- gets heap ;;
     if isinstance_list h variables then
       for_each (fun ie => r <- _generate_solution_output fuel (snd ie) ;;
                           setitem output (fst ie) r)
                (imap pair (list_items h variables)) ;;;
       ret output
     else
       fields <- dataclasses_fields variables ;;
       for_each (solution_field (_generate_solution_output fuel) variables output) fields ;;;
       ret output).
Proof. done. Qed.

Lemma deepcopy_atoms_object fuel o fs st :
  heap st !! o = Some (OptimizationObject fs) -> Forall (fun f => is_atom (fvalue f)) fs ->
  deepcopy (S fuel) (VRef o) st =
    (inr (VRef (length (heap st))), mk_state (heap st ++ [OptimizationObject fs]) (self st)).
Proof.
  intros Ho Hfs. unfold deepcopy. simpl.
  rewrite bind_assoc. erewrite bind_run by (by apply read_run).
  cbv beta iota. rewrite bind_assoc, alloc_run, bind_assoc.
  erewrite bind_run.
  2:{ apply deepcopy_items_atoms; [intros; by apply deepcopy_memo_atom|].
      by apply Forall_fmap. }
  simpl. unfold bind, write, modify_heap. simpl.
  by rewrite insert_snoc, zip_with_fvalue_id.
Qed.

Lemma solved_field_name sol f : fname (solved_field sol f) = fname f.
Proof.
  unfold solved_field. destruct (is_variable_or_parameter _); [|done].
  by destruct (sol _).
Qed.

Lemma update_field_app n v done f todo :
  n ∉ map fname done -> fname f = n ->
  update_field n v (done ++ f :: todo) = done ++ with_fvalue f v :: todo.
Proof.
  intros Hn Hf. subst n. induction done as [|d done IH]; simpl.
  - rewrite String.eqb_refl. done.
  - apply not_elem_of_cons in Hn as [Hd Hn].
    destruct (String.eqb (fname d) (fname f)) eqn:E; [by apply String.eqb_eq in E|].
    by rewrite IH.
Qed.

Lemma solution_field_flat rec o fs sol h s f done todo :
  h !! o = Some (OptimizationObject fs) ->
  lookup_field (fname f) fs = Some (fvalue f) ->
  is_atom (fvalue f) ->
  _opti_solution s = Some sol ->
  (is_variable_or_parameter (fmetadata f) = true -> exists a, sol (fvalue f) = inr a) ->
  fname f ∉ map fname done ->
  solution_field rec (VRef o) (VRef (length h)) (fname f, fmetadata f)
    (mk_state (h ++ [OptimizationObject (done ++ f :: todo)]) s) =
  (inr tt, mk_state (h ++ [OptimizationObject (done ++ solved_field sol f :: todo)]) s).
Proof.
  intros Ho Hlk Hat Hsol Hval Hfresh.
  assert (getattribute (VRef o) (fname f)
            (mk_state (h ++ [OptimizationObject (done ++ f :: todo)]) s) =
          (inr (fvalue f), mk_state (h ++ [OptimizationObject (done ++ f :: todo)]) s)) as Hget.
  { eapply getattribute_run; [|exact Hlk].
    simpl. rewrite lookup_app_l; [done|]. by eapply lookup_lt_Some. }
  unfold solution_field, solved_field, asdict_field.
  destruct (is_variable_or_parameter (fmetadata f)) eqn:Hm.
  - erewrite bind_run by exact Hget.
    rewrite gets_run. cbn [self]. rewrite Hsol.
    destruct (Hval eq_refl) as [a Ha]. rewrite Ha. simpl lift_engine.
    erewrite bind_run by reflexivity.
    erewrite setattr_run by (simpl; apply lookup_snoc).
    cbn [heap self]. by rewrite insert_snoc, update_field_app.
  - erewrite bind_run by exact Hget.
    rewrite gets_run.
    assert (forall h0, isinstance_OptimizationObject h0 (fvalue f) = false) as ->
      by (intros h0; destruct (fvalue f) as [| | | | |l]; try done; by destruct (Hat l)).
    assert (forall h0, isinstance_list h0 (fvalue f) = false) as ->
      by (intros h0; destruct (fvalue f) as [| | | | |l]; try done; by destruct (Hat l)).
    done.
Qed.

Lemma solution_fields_flat rec o fs sol h s :
  h !! o = Some (OptimizationObject fs) ->
  NoDup (map fname fs) ->
  Forall (fun f => is_atom (fvalue f)) fs ->
  _opti_solution s = Some sol ->
  Forall (fun f => is_variable_or_parameter (fmetadata f) = true ->
                   exists a, sol (fvalue f) = inr a) fs ->
  forall todo done, fs = done ++ todo ->
    for_each (solution_field rec (VRef o) (VRef (length h)))
             (map (fun f => (fname f, fmetadata f)) todo)
             (mk_state (h ++ [OptimizationObject (map (solved_field sol) done ++ todo)]) s) =
    (inr tt, mk_state (h ++ [OptimizationObject (map (solved_field sol) fs)]) s).
Proof.
  intros Ho Hnd Hat Hsol Hval. induction todo as [|f todo IH]; intros done Hfs.
  - simpl. rewrite app_nil_r in Hfs. subst done. by rewrite app_nil_r.
  - assert (f ∈ fs) as Hf by (rewrite Hfs; apply elem_of_app; right; left).
    assert (fname f ∉ map fname (map (solved_field sol) done)) as Hfresh.
    { rewrite map_map. erewrite map_ext by (intros; apply solved_field_name).
      rewrite Hfs, map_app in Hnd. apply NoDup_app in Hnd as (_ & Hdis & _).
      intros Hin. apply (Hdis _ Hin). simpl. left. }
    cbn [map for_each].
    erewrite bind_run.
    2:{ apply (solution_field_flat rec o fs sol); try done.
        - by apply lookup_field_NoDup.
        - by eapply Forall_forall in Hat.
        - by eapply Forall_forall in Hval. }
    replace (map (solved_field sol) done ++ solved_field sol f :: todo)
      with (map (solved_field sol) (done ++ [f]) ++ todo)
      by (rewrite map_app; simpl; by rewrite <- app_assoc).
    apply IH. rewrite Hfs, <- app_assoc. done.
Qed.

Lemma _generate_solution_output_flat fuel o fs sol st :
  heap st !! o = Some (OptimizationObject fs) ->
  NoDup (map fname fs) ->
  Forall (fun f => is_atom (fvalue f)) fs ->
  _opti_solution (self st) = Some sol ->
  Forall (fun f => is_variable_or_parameter (fmetadata f) = true ->
                   exists a, sol (fvalue f) = inr a) fs ->
  _generate_solution_output (S (S fuel)) (VRef o) st =
    (inr (VRef (length (heap st))),
     mk_state (heap st ++ [OptimizationObject (map (solved_field sol) fs)]) (self st)).
Proof.
  intros Ho Hnd Hat Hsol Hval. rewrite _generate_solution_output_S.
  erewrite bind_run by (by apply deepcopy_atoms_object).
  rewrite gets_run. cbn [heap].
  assert (isinstance_list (heap st ++ [OptimizationObject fs]) (VRef o) = false) as ->.
  { simpl. rewrite lookup_app_l by (by eapply lookup_lt_Some). by rewrite Ho. }
  erewrite bind_run.
  2:{ unfold dataclasses_fields.
      erewrite bind_run
        by (apply read_run; simpl; rewrite lookup_app_l by (by eapply lookup_lt_Some);
            exact Ho).
      done. }
  erewrite bind_run; [done|].
  apply (solution_fields_flat _ o fs sol (heap st) (self st) Ho Hnd Hat Hsol Hval fs []).
  done.
Qed.

(** X17.  The solution of a flat structure (an instance whose fields hold no
    container), once the engine has solved: a new object with the fields of
    the structure in which every Variable and Parameter holds the value that
    the solution gives to its leaf, every other field being copied as it
    is.  The symbolic structure and the session are left as they were. *)
Theorem solution_of_flat_structure fuel o fs sol st :
  heap st !! o = Some (OptimizationObject fs) ->
  NoDup (map fname fs) ->
  Forall (fun f => is_atom (fvalue f)) fs ->
  _opti_solution (self st) = Some sol ->
  Forall (fun f => is_variable_or_parameter (fmetadata f) = true ->
                   exists a, sol (fvalue f) = inr a) fs ->
  _generate_solution_output (S (S fuel)) (VRef o) st =
    (inr (VRef (length (heap st))),
     mk_state (heap st ++ [OptimizationObject (map (solved_field sol) fs)]) (self st)).
Proof. apply _generate_solution_output_flat. Qed.

(** * The solution has the shape of the structure *)

Lemma solution_field_signature rec variables y sig fld st :
  (forall x, grows_heap (rec x)) ->
  (exists fs, heap st !! y = Some (OptimizationObject fs) /\ field_signature fs = sig) ->
  wp (solution_field rec variables (VRef y) fld)
     (fun _ st' => exists fs, heap st' !! y = Some (OptimizationObject fs) /\
                              field_signature fs = sig) st.
Proof.
  intros Hrec Hy. destruct fld as [name metadata]. unfold solution_field.
  wp_step.
  - wp_step. apply wp_readonly; [apply readonly_getattribute|].
    intros [e|var] _; [done|].
    wp_step. wp_step. wp_step; [|by wp_step].
    wp_step. wp_step; [|done]. by apply wp_setattr_signature.
  - wp_step. apply wp_readonly; [apply readonly_getattribute|].
    intros [e|cv] _; [done|].
    wp_step. wp_step. wp_step; [|by wp_step].
    wp_step. wp_use (Hrec cv) as Hp.
    destruct Hy as (fs & Hy & Hsig).
    assert (heap st' !! y = Some (OptimizationObject fs)) by (by eapply prefix_lookup_Some).
    destruct r; [by eauto|]. apply wp_setattr_signature; by eauto.
Qed.

Lemma _generate_solution_output_grows fuel x : grows_heap (_generate_solution_output fuel x).
Proof.
  intros st. eapply wp_mono; [apply _generate_solution_output_frame|]. by intros ? ? [? _].
Qed.

Lemma _generate_solution_output_object fuel o fs st :
  heap st !! o = Some (OptimizationObject fs) ->
  wp (_generate_solution_output fuel (VRef o))
     (fun r st' =>
        forall out, r = inr out ->
          out = VRef (length (heap st)) /\
          exists fs', heap st' !! length (heap st) = Some (OptimizationObject fs') /\
                      field_signature fs' = field_signature fs) st.
Proof.
  intros Ho. destruct fuel as [|fuel]; [simpl; by wp_step|].
  rewrite _generate_solution_output_S.
  wp_step. wp_use (deepcopy_object fuel o fs st Ho) as (Hp & _ & Hr).
  destruct r as [e|output]; [done|].
  destruct (Hr _ eq_refl) as (-> & Hy).
  wp_step. wp_step.
  assert (isinstance_list (heap st') (VRef o) = false) as ->.
  { simpl. by rewrite (prefix_lookup_Some _ _ _ _ Ho Hp). }
  wp_step. apply wp_readonly; [apply readonly_dataclasses_fields|].
  intros [e|fields] _; [done|].
  wp_step.
  apply wp_for_each with
    (I := fun st1 => exists fs', heap st1 !! length (heap st) = Some (OptimizationObject fs') /\
                                 field_signature fs' = field_signature fs); [done| |].
  - intros fld st1 _ Hy1.
    wp_use (solution_field_signature _ (VRef o) (length (heap st)) _ fld st1
              (_generate_solution_output_grows fuel) Hy1) as Hy2.
    by destruct r as [e|[]].
  - intros st1 Hy1. wp_steps. by intros ? [= <-].
Qed.

Lemma _generate_solution_output_list fuel l items st :
  heap st !! l = Some (PyList items) ->
  wp (_generate_solution_output fuel (VRef l))
     (fun r st' =>
        forall out, r = inr out ->
          out = VRef (length (heap st)) /\
          exists items', heap st' !! length (heap st) = Some (PyList items') /\
                         length items' = length items) st.
Proof.
  intros Hl. destruct fuel as [|fuel]; [simpl; by wp_step|].
  rewrite _generate_solution_output_S.
  wp_step. wp_use (deepcopy_list fuel l items st Hl) as (Hp & _ & Hr).
  destruct r as [e|output]; [done|].
  destruct (Hr _ eq_refl) as (-> & Hy).
  wp_step. wp_step.
  assert (isinstance_list (heap st') (VRef l) = true) as ->.
  { simpl. by rewrite (prefix_lookup_Some _ _ _ _ Hl Hp). }
  wp_step.
  apply wp_for_each with
    (I := fun st1 => exists items', heap st1 !! length (heap st) = Some (PyList items') /\
                                    length items' = length items); [done| |].
  - intros [i element] st1 _ (items1 & Hy1 & Hlen1).
    wp_step. wp_use (_generate_solution_output_grows fuel element) as Hp1.
    assert (heap st'0 !! length (heap st) = Some (PyList items1)) as Hy2
      by (by eapply prefix_lookup_Some).
    destruct r as [e|r]; [done|].
    apply wp_setitem; [done|]. intros l0 its [= <-] Hits Hi.
    assert (its = items1) as -> by congruence.
    exists (<[i := r]> items1). cbn [heap]. split.
    + apply list_lookup_insert_eq. by eapply lookup_lt_Some.
    + by rewrite length_insert.
  - intros st1 Hy1. wp_steps. by intros ? [= <-].
Qed.

Lemma _generate_solution_output_dangling fuel v st :
  heap st !! v = None -> exists e, _generate_solution_output fuel (VRef v) st = (inl e, st).
Proof.
  intros Hv. destruct fuel as [|fuel]; [by eexists|].
  rewrite _generate_solution_output_S.
  destruct fuel as [|fuel]; [by eexists|].
  eexists. unfold deepcopy. simpl. unfold bind, read. by rewrite Hv.
Qed.

(** X21.  When [solve] succeeds, the structure that [get_values] returns has
    the shape of the tracked symbolic structure: for an instance, a new
    object with the same field names and metadata, in the same order; for a
    list, a new list of the same length. *)
Theorem solution_has_the_shape_of_the_structure `{Engine} fuel v st :
  _variables (self st) = VRef v ->
  fst (solve fuel st) = inr tt ->
  let st' := snd (solve fuel st) in
  exists y,
    get_values st' = (inr (VRef y), st') /\
    length (heap st) <= y /\
    (forall fs, heap st !! v = Some (OptimizationObject fs) ->
       exists fs', heap st' !! y = Some (OptimizationObject fs') /\
                   map fname fs' = map fname fs /\ map fmetadata fs' = map fmetadata fs) /\
    (forall items, heap st !! v = Some (PyList items) ->
       exists items', heap st' !! y = Some (PyList items') /\ length items' = length items).
Proof.
  intros Hv Hok st'. subst st'. exists (length (heap st)).
  cut (wp (solve fuel)
          (fun r st' => r = inr tt ->
             _output_solution (self st') = VRef (length (heap st)) /\
             (forall fs, heap st !! v = Some (OptimizationObject fs) ->
                exists fs', heap st' !! length (heap st) = Some (OptimizationObject fs') /\
                            field_signature fs' = field_signature fs) /\
             (forall items, heap st !! v = Some (PyList items) ->
                exists items', heap st' !! length (heap st) = Some (PyList items') /\
                               length items' = length items)) st).
  { intros Hwp. destruct (Hwp Hok) as (Hout & Hobj & Hlist).
    split; [unfold get_values, bind, gets; by rewrite Hout|]. split; [done|].
    split; [|done]. intros fs Hfs. destruct (Hobj fs Hfs) as (fs' & Hy & Hsig).
    exists fs'. split; [done|]. unfold field_signature in Hsig. split.
    - apply (f_equal (map fst)) in Hsig. by rewrite !map_map in Hsig.
    - apply (f_equal (map snd)) in Hsig. by rewrite !map_map in Hsig. }
  unfold solve. wp_step. wp_step. wp_step. wp_step; [|done].
  wp_step. wp_step. wp_step. wp_step; [|done].
  wp_step. wp_step. wp_step. wp_step; [|done].
  wp_step. wp_step. wp_step. wp_step. wp_step. cbn [self heap _variables
    with_output_cost with_opti_solution with_solver]. rewrite Hv.
  destruct (heap st !! v) as [[fs|items]|] eqn:Hcell.
  - eapply wp_mono.
    { apply wp_and; [apply _generate_solution_output_self|].
      by apply (_generate_solution_output_object fuel v fs). }
    cbv beta. intros r st' [[Hs _] Hobj]. destruct r as [e|out]; [done|].
    destruct (Hobj _ eq_refl) as (-> & Hy). wp_step. intros _. cbn [heap self] in *.
    split; [done|]. split; [by intros ? [= <-] | done].
  - eapply wp_mono.
    { apply wp_and; [apply _generate_solution_output_self|].
      by apply (_generate_solution_output_list fuel v items). }
    cbv beta. intros r st' [[Hs _] Hlist]. destruct r as [e|out]; [done|].
    destruct (Hlist _ eq_refl) as (-> & Hy). wp_step. intros _. cbn [heap self] in *.
    split; [done|]. split; [done | by intros ? [= <-]].
  - match goal with
    | |- wp _ _ ?s =>
        destruct (_generate_solution_output_dangling fuel v s Hcell) as [e He]
    end.
    unfold wp. rewrite He. done.
Qed.

(** * Sequences of costs *)

Lemma with_cost_id s : with_cost (_cost s) s = s.
Proof. by destruct s. Qed.

Lemma total_cost_nil c : total_cost c [] = c.
Proof. by destruct c. Qed.

Lemma total_cost_cons c t ts :
  total_cost c (t :: ts) =
    total_cost (Some match c with Some c0 => MX_add c0 t | None => t end) ts.
Proof. by destruct c. Qed.

Lemma for_each_add_cost `{Engine} terms : forall st,
  sums_defined (_cost (self st)) terms ->
  for_each add_cost terms st =
    (inr tt, mk_state (heap st) (with_cost (total_cost (_cost (self st)) terms) (self st))).
Proof.
  induction terms as [|t terms IH]; intros st Hdef.
  - simpl. unfold ret. destruct st as [h s]. simpl.
    by rewrite total_cost_nil, with_cost_id.
  - cbn [for_each]. rewrite total_cost_cons.
    unfold bind. rewrite add_cost_run.
    simpl in Hdef. destruct (_cost (self st)) as [c0|] eqn:Hc.
    + destruct Hdef as [Hplus Hdef]. rewrite Hplus. by rewrite IH.
    + by rewrite IH.
Qed.

(** X18.  Adding the cost terms [terms] one after the other, as long as the
    engine accepts every sum that this asks for, changes nothing but the
    cost, which becomes the sum of the former cost (if any) and the terms,
    nested to the left in the order of the calls.  At the first sum that the
    engine rejects the call raises the engine's error, and the cost stays
    the sum of the terms added before. *)
Theorem add_cost_sequence `{Engine} terms st :
  (sums_defined (_cost (self st)) terms ->
   for_each add_cost terms st =
     (inr tt,
      mk_state (heap st) (with_cost (total_cost (_cost (self st)) terms) (self st)))) /\
  (forall done t rest c0 msg,
     terms = done ++ t :: rest ->
     sums_defined (_cost (self st)) done ->
     total_cost (_cost (self st)) done = Some c0 ->
     MX_plus_error c0 t = Some msg ->
     for_each add_cost terms st =
       (inl (EngineError msg), mk_state (heap st) (with_cost (Some c0) (self st)))).
Proof.
  split; [apply for_each_add_cost|].
  intros done t rest c0 msg -> Hdef Hc0 Hmsg.
  rewrite for_each_app. erewrite bind_run by (by apply for_each_add_cost).
  cbn [for_each]. erewrite bind_fail; [done|].
  rewrite add_cost_run. cbn [self _cost with_cost]. by rewrite Hc0, Hmsg.
Qed.

(** * The registered problem *)

Lemma get_problem_run p st :
  _problem (self st) = p -> p <> VNone -> get_problem st = (inr p, st).
Proof. intros <- Hp. unfold get_problem, bind, gets. by destruct (_problem (self st)). Qed.

Lemma generator_keeps_problem s s' : generator_keeps s s' -> _problem s' = _problem s.
Proof. by intros (n & v & ->). Qed.

Lemma binder_pushes_problem st st' :
  binder_pushes st st' -> _problem (self st') = _problem (self st).
Proof. by intros (i & v & ->). Qed.

(** X19.  A problem that is registered is what [get_problem] returns, until
    another one is registered: generating structures, binding guesses, adding
    costs and constraints, setting options and solving, whether they succeed
    or fail, leave it registered.  Without a registered problem, and after
    [None] is registered, [get_problem] raises
    [ProblemNotRegisteredException]. *)
Theorem registered_problem_persists `{Engine} p st :
  p <> VNone ->
  let st1 := snd (register_problem p st) in
  get_problem st1 = (inr p, st1) /\
  (forall fuel x,
     fst (get_problem (snd (generate_optimization_objects fuel x st1))) = inr p) /\
  (forall fuel g, fst (get_problem (snd (set_initial_guess fuel g st1))) = inr p) /\
  (forall c, fst (get_problem (snd (add_cost c st1))) = inr p) /\
  (forall c, fst (get_problem (snd (add_constraint c st1))) = inr p) /\
  (forall i os op, fst (get_problem (snd (set_opti_options i os op st1))) = inr p) /\
  (forall fuel, fst (get_problem (snd (solve fuel st1))) = inr p) /\
  (forall q, q <> VNone -> fst (get_problem (snd (register_problem q st1))) = inr q) /\
  fst (get_problem (snd (register_problem VNone st1))) = inl ProblemNotRegisteredException /\
  (_problem (self st) = VNone -> get_problem st = (inl ProblemNotRegisteredException, st)).
Proof.
  intros Hp st1.
  assert (_problem (self st1) = p) as H1 by done.
  assert (forall st', _problem (self st') = _problem (self st1) ->
            fst (get_problem st') = inr p) as Hkeep.
  { intros st' Hst'. erewrite get_problem_run; [done| |done]. congruence. }
  split; [by apply get_problem_run|].
  split; [|split; [|split; [|split; [|split; [|split; [|split; [|split]]]]]]].
  - intros fuel x. apply Hkeep, generator_keeps_problem.
    apply (generate_optimization_objects_session fuel x st1).
  - intros fuel g. apply Hkeep, binder_pushes_problem.
    apply (set_initial_guess_pushes fuel g st1).
  - intros c. apply Hkeep. destruct (add_cost_frame c st1) as [c' ->]. done.
  - intros c. apply Hkeep. rewrite add_constraint_run.
    by destruct (Opti_subject_to_error _ _).
  - intros i os op. by apply Hkeep.
  - intros fuel. apply Hkeep.
    destruct (solve_session fuel st1) as (_ & (_ & _ & Hpr & _) & _). exact Hpr.
  - intros q Hq. by erewrite get_problem_run.
  - done.
  - intros Hn. unfold get_problem, bind, gets. by rewrite Hn.
Qed.

(** * A template is a guess for the structure generated from it *)

Lemma symbolic_fields_names fs : forall k, map fname (symbolic_fields k fs) = map fname fs.
Proof.
  induction fs as [|f fs IH]; intros k; simpl; [done|].
  destruct (fmetadata f); [destruct (fvalue f)|]; simpl; by rewrite IH.
Qed.

Lemma lookup_field_app_fresh n done rest :
  n ∉ map fname done -> lookup_field n (done ++ rest) = lookup_field n rest.
Proof.
  induction done as [|d done IH]; simpl; [done|]. intros Hn.
  apply not_elem_of_cons in Hn as [Hd Hn].
  destruct (String.eqb (fname d) n) eqn:E; [apply String.eqb_eq in E; congruence|].
  by apply IH.
Qed.

Lemma lookup_field_head f rest : lookup_field (fname f) (f :: rest) = Some (fvalue f).
Proof. simpl. by rewrite String.eqb_refl. Qed.

Lemma generate_fields_arrays generate y : forall todo done st,
  Forall array_storage todo -> NoDup (map fname (done ++ todo)) ->
  heap st !! y = Some (OptimizationObject (done ++ todo)) ->
  exists st',
    for_each (generate_field generate (VRef y))
             (map (fun f => (fname f, fmetadata f)) todo) st = (inr tt, st') /\
    heap st' !! y =
      Some (OptimizationObject
              (done ++ symbolic_fields (n_symbols (_solver (self st))) todo)) /\
    (forall l, l < length (heap st) -> l <> y -> heap st' !! l = heap st !! l) /\
    self st' = with_solver (add_symbols (length todo) (_solver (self st))) (self st).
Proof.
  induction todo as [|f todo IH]; intros done st Hall Hnd Hy.
  - exists st. simpl. split; [done|]. split; [done|]. split; [done|].
    by rewrite add_symbols_0, with_solver_id.
  - apply Forall_cons in Hall as [(storage_type & a & Hm & Hs & Hv & Ha) Hall].
    assert (fname f ∉ map fname done) as Hfresh.
    { rewrite map_app in Hnd. apply NoDup_app in Hnd as (_ & Hdis & _).
      intros Hin. apply (Hdis _ Hin). simpl. left. }
    assert (lookup_field (fname f) (done ++ f :: todo) = Some (VArray a)) as Hlk.
    { rewrite lookup_field_app_fresh by done. by rewrite lookup_field_head, Hv. }
    assert (y < length (heap st)) as Hlt by (by eapply lookup_lt_Some).
    pose proof (generate_field_storage_array generate y _ (fname f) storage_type a st
                  Hs Hy Hlk Ha) as Hstep.
    cbv zeta in Hstep. rewrite update_field_app in Hstep by done.
    set (x := handle_of storage_type (n_symbols (_solver (self st))) a) in *.
    fold (handle_of storage_type (n_symbols (_solver (self st))) a) in Hstep. fold x in Hstep.
    match type of Hstep with _ = (_, ?s1) => set (st1 := s1) in * end.
    destruct (IH (done ++ [with_fvalue f (VMX x)]) st1 Hall) as (st' & Hrun & Hy' & Hl' & Hs').
    { rewrite <- app_assoc. simpl. rewrite map_app in *. simpl in *. done. }
    { subst st1. cbn [heap]. rewrite <- app_assoc. simpl.
      apply list_lookup_insert_eq. rewrite length_app. simpl. lia. }
    exists st'. cbn [map for_each]. rewrite Hm.
    erewrite bind_run by exact Hstep.
    split; [exact Hrun|]. split; [|split].
    + rewrite Hy'. rewrite <- app_assoc. simpl. by rewrite Hm, Hv.
    + intros l Hl Hne. rewrite Hl'.
      * subst st1. cbn [heap]. rewrite list_lookup_insert_ne by done.
        by rewrite lookup_app_l.
      * subst st1. cbn [heap]. rewrite length_insert, length_app. simpl. lia.
      * done.
    + rewrite Hs'. subst st1. cbn [self _solver with_solver].
      rewrite add_symbols_S. done.
Qed.

Lemma symbolic_fields_app done : forall k rest,
  Forall array_storage done ->
  symbolic_fields k (done ++ rest) =
    symbolic_fields k done ++ symbolic_fields (k + length done) rest.
Proof.
  induction done as [|d done IH]; intros k rest Hall; simpl.
  - by rewrite Nat.add_0_r.
  - apply Forall_cons in Hall as [(storage_type & a & Hm & _ & Hv & _) Hall].
    rewrite Hm, Hv. simpl. rewrite IH by done. do 3 f_equal. lia.
Qed.

Lemma template_guesses_fields rec o y fs k0 h :
  h !! o = Some (OptimizationObject fs) ->
  h !! y = Some (OptimizationObject (symbolic_fields k0 fs)) ->
  NoDup (map fname fs) ->
  forall todo done s, fs = done ++ todo -> Forall array_storage done ->
    Forall array_storage todo ->
    for_each (guess_field rec (VRef o) (VRef y))
             (map (fun f => (fname f, fmetadata f)) todo) (mk_state h s) =
    (inr tt,
     mk_state h (with_solver (template_guesses (k0 + length done) todo (_solver s)) s)).
Proof.
  intros Ho Hy Hnd. induction todo as [|f todo IH]; intros done s Hfs Hdone Hall.
  - simpl. by rewrite with_solver_id.
  - apply Forall_cons in Hall as [Hf Hall].
    destruct Hf as (storage_type & a & Hm & Hs & Hv & Ha).
    assert (fname f ∉ map fname done) as Hfresh.
    { rewrite Hfs, map_app in Hnd. apply NoDup_app in Hnd as (_ & Hdis & _).
      intros Hin. apply (Hdis _ Hin). simpl. left. }
    assert (lookup_field (fname f) fs = Some (VArray a)) as Hlk.
    { rewrite Hfs, lookup_field_app_fresh by done. by rewrite lookup_field_head, Hv. }
    assert (lookup_field (fname f) (symbolic_fields k0 fs) =
            Some (VMX (handle_of storage_type (k0 + length done) a))) as Hleaf.
    { rewrite Hfs, symbolic_fields_app by done.
      rewrite lookup_field_app_fresh by (by rewrite symbolic_fields_names).
      simpl. rewrite Hm, Hv. simpl. by rewrite String.eqb_refl. }
    cbn [map for_each template_guesses]. rewrite Hm, Hv.
    erewrite bind_run.
    2:{ eapply guess_field_push; try done; cbn [heap].
        - destruct Ha as [Ha | Ha]; unfold ndim in Ha; by destruct (shape a).
        - by apply matrix_like_column_shape. }
    rewrite (IH (done ++ [f])).
    + cbn [self _solver with_solver]. rewrite length_app. simpl.
      replace (k0 + (length done + 1)) with (S (k0 + length done)) by lia. done.
    + rewrite Hfs, <- app_assoc. done.
    + apply Forall_app. split; [done|]. apply Forall_singleton.
      by exists storage_type, a.
    + done.
Qed.

(** X20.  A template is a valid guess for the structure generated from it.
    For an instance whose fields are all Variables or Parameters that hold
    arrays of rank 1 or 2: generation returns a new object in which every
    field holds a fresh handle of the column shape of its array, numbered in
    field order; binding the template itself as the initial guess then
    succeeds and pushes each array to the engine for its handle, as an
    initial value for a Variable and as a fixed value for a Parameter. *)
Theorem template_is_its_own_guess fuel o fs st :
  heap st !! o = Some (OptimizationObject fs) ->
  NoDup (map fname fs) ->
  Forall array_storage fs ->
  let gen := generate_optimization_objects (S (S fuel)) (VRef o) st in
  let k := n_symbols (_solver (self st)) in
  fst gen = inr (VRef (length (heap st))) /\
  heap (snd gen) !! length (heap st) = Some (OptimizationObject (symbolic_fields k fs)) /\
  n_symbols (_solver (self (snd gen))) = length fs + k /\
  set_initial_guess (S fuel) (VRef o) (snd gen) =
    (inr tt,
     mk_state (heap (snd gen))
       (with_solver (template_guesses k fs (_solver (self (snd gen)))) (self (snd gen)))).
Proof.
  intros Ho Hnd Hall gen k. subst gen k.
  assert (Forall (fun f => is_atom (fvalue f)) fs) as Hat.
  { eapply Forall_impl; [exact Hall|]. intros f (s & a & _ & _ & -> & _) l. done. }
  assert (o < length (heap st)) as Hlt by (by eapply lookup_lt_Some).
  destruct (generate_fields_arrays (generate_optimization_objects (S fuel))
              (length (heap st)) fs []
              (mk_state (heap st ++ [OptimizationObject fs]) (self st)) Hall Hnd)
    as (st' & Hrun & Hy & Hl & Hs); [apply lookup_snoc|].
  cbn [heap self app] in Hy, Hl, Hs.
  assert (generate_optimization_objects (S (S fuel)) (VRef o) st =
          (inr (VRef (length (heap st))),
           mk_state (heap st') (with_variables (VRef (length (heap st))) (self st')))) as Hgen.
  { rewrite generate_optimization_objects_S, gets_run.
    assert (isinstance_OptimizationObject (heap st) (VRef o) = true) as ->
      by (simpl; by rewrite Ho).
    unfold _generate_objects_from_instance.
    erewrite bind_run by (by apply deepcopy_atoms_object).
    erewrite bind_run.
    2:{ unfold dataclasses_fields. erewrite bind_run by (apply read_run, lookup_snoc). done. }
    erewrite bind_run by exact Hrun. done. }
  rewrite Hgen. cbn [fst snd heap self].
  assert (heap st' !! o = Some (OptimizationObject fs)) as Ho'.
  { rewrite Hl; [by rewrite lookup_app_l | rewrite length_app; simpl; lia | lia]. }
  split; [done|]. split; [done|]. split; [by rewrite Hs|].
  unfold set_initial_guess. rewrite gets_run. cbn [heap].
  assert (isinstance_list (heap st') (VRef o) = false) as -> by (simpl; by rewrite Ho').
  rewrite gets_run. cbn [self _variables with_variables].
  rewrite _set_initial_guess_internal_S.
  erewrite bind_run.
  2:{ unfold dataclasses_fields. erewrite bind_run by (by apply read_run). done. }
  erewrite (template_guesses_fields _ o (length (heap st)) fs
              (n_symbols (_solver (self st))) (heap st') Ho' Hy Hnd fs []); try done.
  by rewrite Nat.add_0_r.
Qed.

(** * A guess without values *)

Lemma guess_fields_none rec g gfs cv st : forall todo,
  heap st !! g = Some (OptimizationObject gfs) ->
  Forall (fun f => lookup_field (fname f) gfs = Some VNone /\
                   is_variable_or_parameter (fmetadata f) = true) todo ->
  for_each (guess_field rec (VRef g) cv) (map (fun f => (fname f, fmetadata f)) todo) st =
    (inr tt, st).
Proof.
  intros todo Hg Hall. induction Hall as [|f todo [Hlk Hm] _ IH]; simpl; [done|].
  erewrite bind_run; [exact IH|].
  destruct (fmetadata f) as [[| |tag]|]; try done;
    unfold guess_field, guess_storage, asdict_field;
    by erewrite bind_run by (by eapply getattribute_run).
Qed.

(** X22.  A guess that supplies no value, all its fields being Variables or
    Parameters that hold [None], is accepted and changes nothing, whatever
    the symbolic structure is, even before anything is generated. *)
Theorem guess_without_values fuel g gfs corresponding_variable st :
  heap st !! g = Some (OptimizationObject gfs) ->
  NoDup (map fname gfs) ->
  Forall (fun f => is_variable_or_parameter (fmetadata f) = true /\ fvalue f = VNone) gfs ->
  _set_initial_guess_internal (S fuel) (VRef g) corresponding_variable st = (inr tt, st) /\
  set_initial_guess (S fuel) (VRef g) st = (inr tt, st).
Proof.
  intros Hg Hnd Hall.
  assert (forall cv, _set_initial_guess_internal (S fuel) (VRef g) cv st = (inr tt, st)) as Hint.
  { intros cv. rewrite _set_initial_guess_internal_S.
    erewrite bind_run.
    2:{ unfold dataclasses_fields. erewrite bind_run by (by apply read_run). done. }
    apply (guess_fields_none _ g gfs); [done|].
    apply Forall_forall. intros f Hf.
    eapply Forall_forall in Hall as [Hm Hv]; [|exact Hf].
    split; [|done]. rewrite <- Hv. by apply lookup_field_NoDup. }
  split; [apply Hint|].
  unfold set_initial_guess. rewrite gets_run.
  assert (isinstance_list (heap st) (VRef g) = false) as -> by (simpl; by rewrite Hg).
  rewrite gets_run. apply Hint.
Qed.

(** * What a failed generation leaves tracked *)

Lemma tracks_since_refl n s : tracks_since n s s.
Proof. by left. Qed.

Lemma tracks_since_trans n m s1 s2 s3 :
  n <= m -> tracks_since n s1 s2 -> tracks_since m s2 s3 -> tracks_since n s1 s3.
Proof.
  intros Hnm [H12 | (z & Hz & Hle)] [H23 | (z' & Hz' & Hle')].
  - left. congruence.
  - right. exists z'. split; [done|lia].
  - right. exists z. split; [congruence|done].
  - right. exists z'. split; [done|lia].
Qed.

Lemma _generate_opti_object_variables storage_type name value st :
  wp (_generate_opti_object storage_type name value)
     (fun _ st' => _variables (self st') = _variables (self st)) st.
Proof.
  unfold _generate_opti_object.
  assert (forall v, wp match storage_type with
       | Variable_StorageTypeValue => dims <- shape_attr v;; Opti_variable dims
       | Parameter_StorageTypeValue => dims <- shape_attr v;; Opti_parameter dims
       | Other_StorageTypeValue _ => raise (ValueError "Unsupported input storage type")
       end (fun _ st' => _variables (self st') = _variables (self st)) st) as Htail.
  { intros v. destruct storage_type; wp_step; try done;
      (apply wp_readonly; [apply readonly_shape_attr|]; intros [e|dims] _; [done|]);
      apply wp_star_dims; done. }
  destruct value as [| | |a| |]; cbv beta iota;
    try (wp_step; wp_step; by apply Htail).
  - by wp_steps.
  - wp_step. wp_step; [by wp_steps|]. wp_step.
    + wp_step. apply wp_readonly; [apply readonly_np_expand_dims|].
      intros [e|a'] _; [done|]. wp_step. by apply Htail.
    + wp_step. by apply Htail.
Qed.

Lemma generate_field_tracks generate output fld st :
  (forall x st, wp (generate x)
                   (fun _ st' => tracks_since (length (heap st)) (self st) (self st')) st) ->
  wp (generate_field generate output fld)
     (fun _ st' => tracks_since (length (heap st)) (self st) (self st')) st.
Proof.
  intros Hgen. destruct fld as [name metadata]. unfold generate_field.
  wp_step. apply wp_readonly; [apply readonly_getattribute|].
  intros [e|composite_value] _; [by left|].
  wp_step. wp_step. wp_step.
  - wp_step. wp_use (Hgen composite_value) as Hk.
    destruct r; [done|]. by apply wp_setattr.
  - destruct metadata as [storage_type|]; [|wp_step; by left].
    wp_step. apply wp_readonly; [apply readonly_getattribute|].
    intros [e|value_field] _; [by left|].
    wp_step. wp_step. wp_step. wp_step. wp_step.
    apply wp_for_each with
      (I := fun st' => _variables (self st') = _variables (self st)); [done| |].
    + intros value st1 _ Hv1. wp_step.
      wp_use (_generate_opti_object_variables storage_type name value) as Hv2.
      destruct r; [left; congruence|].
      apply wp_append; [left; congruence|]. intros. cbn [self]. congruence.
    + intros st1 Hv1. wp_step.
      * apply wp_setattr; by left.
      * wp_step. apply wp_readonly; [apply readonly_getitem|].
        intros [e|x] _; [by left|]. apply wp_setattr; by left.
Qed.

Lemma generate_optimization_objects_tracks fuel :
  forall input_structure st,
    wp (generate_optimization_objects fuel input_structure)
       (fun _ st' => tracks_since (length (heap st)) (self st) (self st')) st.
Proof.
  induction fuel as [|fuel IH]; intros input_structure st.
  - simpl. wp_step. by left.
  - rewrite generate_optimization_objects_S. wp_step. wp_step. wp_step.
    + destruct input_structure as [| | | | |o]; try done.
      unfold _generate_objects_from_instance. wp_step.
      eapply wp_mono.
      { apply wp_and; [apply (deepcopy_frame fuel (VRef o) st) | apply deepcopy_ref]. }
      cbv beta. intros r st1 [(Hp & Hs & Hr) Href].
      destruct r as [e|output]; [left; congruence|].
      destruct (Href _ eq_refl) as [y ->]. specialize (Hr _ eq_refl). simpl in Hr.
      wp_step. apply wp_readonly; [apply readonly_dataclasses_fields|].
      intros [e|fields] _; [left; congruence|].
      wp_step.
      apply wp_for_each with
        (I := fun st2 => heap st `prefix_of` heap st2 /\
                         tracks_since (length (heap st)) (self st) (self st2)).
      * split; [done|]. left. congruence.
      * intros fld st2 _ [Hp2 Hk2].
        eapply wp_mono.
        { apply wp_and;
            [apply (generate_field_frame (generate_optimization_objects fuel) (heap st)
                      (VRef y) fld st2 (generate_optimization_objects_frame fuel) Hr Hp2)
            |apply (generate_field_tracks _ (VRef y) fld st2 IH)]. }
        cbv beta. intros r st3 [Hp3 Hk3].
        assert (tracks_since (length (heap st)) (self st) (self st3)) as Hk.
        { eapply tracks_since_trans; [|exact Hk2|exact Hk3]. by apply prefix_length. }
        by destruct r as [e|[]].
      * intros st2 [Hp2 Hk2]. wp_steps. right. exists y. done.
    + unfold _generate_objects_from_list. wp_step. wp_step. wp_step; [|wp_step; by left].
      destruct input_structure as [| | | | |l]; try done.
      wp_step.
      eapply wp_mono.
      { apply wp_and; [apply (deepcopy_frame fuel (VRef l) st) | apply deepcopy_ref]. }
      cbv beta. intros r st1 [(Hp & Hs & Hr) Href].
      destruct r as [e|output]; [left; congruence|].
      destruct (Href _ eq_refl) as [y ->]. specialize (Hr _ eq_refl). simpl in Hr.
      wp_step. apply wp_readonly; [apply readonly_py_len|].
      intros [e|n] _; [left; congruence|].
      wp_step.
      apply wp_for_each with
        (I := fun st2 => heap st `prefix_of` heap st2 /\
                         tracks_since (length (heap st)) (self st) (self st2)).
      * split; [done|]. left. congruence.
      * intros i st2 _ [Hp2 Hk2].
        wp_step. apply wp_readonly; [apply readonly_getitem|].
        intros [e|x] _; [done|].
        wp_step.
        eapply wp_mono.
        { apply wp_and; [apply (generate_optimization_objects_frame fuel x st2)
                        |apply (IH x st2)]. }
        cbv beta. intros r st3 [Hp3 Hk3].
        assert (heap st `prefix_of` heap st3) as Hp' by (by etrans).
        assert (tracks_since (length (heap st)) (self st) (self st3)) as Hk.
        { eapply tracks_since_trans; [|exact Hk2|exact Hk3]. by apply prefix_length. }
        destruct r as [e|r]; [done|].
        apply wp_setitem; [done|]. intros l0 its [= <-] _ _. cbn [heap self].
        split; [by apply prefix_insert_ge | done].
      * intros st2 [Hp2 Hk2]. wp_steps. right. exists y. done.
Qed.

(** X23.  However [generate_optimization_objects] ends, the structure that
    the session tracks afterwards is the one it tracked before or an object
    created during the call, never another object that existed before.  The
    second case also occurs when the call fails: a nested call has already
    made the session track its own result. *)
Theorem generate_tracks_own_objects fuel input_structure st :
  let st' := snd (generate_optimization_objects fuel input_structure st) in
  _variables (self st') = _variables (self st) \/
  exists z, _variables (self st') = VRef z /\ length (heap st) <= z.
Proof. apply (generate_optimization_objects_tracks fuel input_structure st). Qed.

Example failed_generate_tracks_inner :
  generate_optimization_objects 10 (VRef 1) (new_session nested_failing_template) =
    (inl (ValueError ("Field " +:+ "x" +:+ " is tagged as storage, but it is None.")),
     mk_state
       (nested_failing_template ++
        [OptimizationObject
           [mk_field "inner" None (VRef 4);
            mk_field "x" (Some Variable_StorageTypeValue) VNone];
         OptimizationObject [mk_field "gain" None (VNum 2)];
         OptimizationObject [mk_field "gain" None (VNum 2)];
         PyList []])
       (with_variables (VRef 4) (self (new_session nested_failing_template)))).
Proof. reflexivity. Qed.

(** * Nested structures, and generating again *)

Lemma generate_instance_spec fuel o fs st :
  heap st !! o = Some (OptimizationObject fs) ->
  wp (generate_optimization_objects fuel (VRef o))
     (fun r st' =>
        heap st `prefix_of` heap st' /\
        forall out, r = inr out ->
          out = VRef (length (heap st)) /\
          (exists fs', heap st' !! length (heap st) = Some (OptimizationObject fs') /\
                       field_signature fs' = field_signature fs) /\
          _variables (self st') = out) st.
Proof.
  intros Ho. apply wp_and; [apply generate_optimization_objects_frame|].
  destruct fuel as [|fuel]; [simpl; by wp_step|].
  rewrite generate_optimization_objects_S. wp_step. wp_step.
  assert (isinstance_OptimizationObject (heap st) (VRef o) = true) as ->
    by (simpl; by rewrite Ho).
  apply _generate_objects_from_instance_spec; [apply generate_optimization_objects_frame|done].
Qed.

Lemma field_signature_names fs fs' :
  field_signature fs' = field_signature fs ->
  map fname fs' = map fname fs /\ map fmetadata fs' = map fmetadata fs.
Proof.
  unfold field_signature. intros Hsig. split.
  - apply (f_equal (map fst)) in Hsig. by rewrite !map_map in Hsig.
  - apply (f_equal (map snd)) in Hsig. by rewrite !map_map in Hsig.
Qed.

(** X24.  A field that holds a nested structure is generated recursively,
    whatever its metadata: when the turn of the field succeeds, the field of
    the object under generation holds a new object with the field names and
    metadata of the nested structure, which is itself left as it was. *)
Theorem nested_structure_field fuel o fs name metadata c cfs st :
  heap st !! o = Some (OptimizationObject fs) ->
  lookup_field name fs = Some (VRef c) ->
  heap st !! c = Some (OptimizationObject cfs) ->
  o <> c ->
  let run := generate_field (generate_optimization_objects fuel) (VRef o) (name, metadata) st in
  let y := length (heap st) in
  fst run = inr tt ->
  getattribute (VRef o) name (snd run) = (inr (VRef y), snd run) /\
  (exists fs', heap (snd run) !! y = Some (OptimizationObject fs') /\
               map fname fs' = map fname cfs /\ map fmetadata fs' = map fmetadata cfs) /\
  heap (snd run) !! c = Some (OptimizationObject cfs).
Proof.
  intros Ho Hn Hc Hne run y. subst run y.
  assert (o < length (heap st)) as Hlo by (by eapply lookup_lt_Some).
  assert (c < length (heap st)) as Hlc by (by eapply lookup_lt_Some).
  cut (wp (generate_field (generate_optimization_objects fuel) (VRef o) (name, metadata))
          (fun r st' => r = inr tt ->
             getattribute (VRef o) name st' = (inr (VRef (length (heap st))), st') /\
             (exists fs', heap st' !! length (heap st) = Some (OptimizationObject fs') /\
                          field_signature fs' = field_signature cfs) /\
             heap st' !! c = Some (OptimizationObject cfs)) st).
  { intros Hwp Hok. destruct (Hwp Hok) as (Hget & (fs' & Hy & Hsig) & Hc').
    split; [done|]. split; [|done]. exists fs'. split; [done|].
    by apply field_signature_names. }
  unfold generate_field.
  wp_step. eapply wp_eq; [by eapply getattribute_run|]. cbv beta iota.
  wp_step. wp_step.
  assert (isinstance_OptimizationObject (heap st) (VRef c) = true) as ->
    by (simpl; by rewrite Hc).
  cbn [orb]. wp_step.
  wp_use (generate_instance_spec fuel c cfs st Hc) as [Hp Hout].
  destruct r as [e|out]; [done|].
  destruct (Hout _ eq_refl) as (-> & (fs' & Hy & Hsig) & _).
  pose proof (prefix_lookup_Some _ _ _ _ Ho Hp) as Ho'.
  pose proof (prefix_lookup_Some _ _ _ _ Hc Hp) as Hc'.
  eapply wp_eq; [by eapply setattr_run|]. intros _.
  split; [|split].
  - destruct st' as [h' s']. apply getattribute_after_setattr; [|by rewrite Hn].
    by eapply lookup_lt_Some.
  - exists fs'. split; [|done]. cbn [heap]. rewrite list_lookup_insert_ne by lia. done.
  - cbn [heap]. rewrite list_lookup_insert_ne by done. done.
Qed.

(** X25.  Generating again from the same template, after a first generation
    that returned, gives a second object, different from the first, with the
    field names and metadata of the template; the session then tracks the
    second object, and the first one is left as the first call made it. *)
Theorem generate_again fuel fuel' o fs st out1 out2 :
  heap st !! o = Some (OptimizationObject fs) ->
  let st1 := snd (generate_optimization_objects fuel (VRef o) st) in
  let st2 := snd (generate_optimization_objects fuel' (VRef o) st1) in
  fst (generate_optimization_objects fuel (VRef o) st) = inr out1 ->
  fst (generate_optimization_objects fuel' (VRef o) st1) = inr out2 ->
  exists y1 y2 fs2,
    out1 = VRef y1 /\ out2 = VRef y2 /\ y1 < y2 /\
    heap st2 !! y1 = heap st1 !! y1 /\
    heap st2 !! y2 = Some (OptimizationObject fs2) /\
    map fname fs2 = map fname fs /\ map fmetadata fs2 = map fmetadata fs /\
    get_optimization_objects st2 = (inr out2, st2).
Proof.
  intros Ho st1 st2 H1 H2. subst st1 st2.
  destruct (generate_instance_spec fuel o fs st Ho) as [Hp1 Hout1].
  destruct (Hout1 _ H1) as (-> & (fs1 & Hy1 & _) & _).
  pose proof (prefix_lookup_Some _ _ _ _ Ho Hp1) as Ho1.
  destruct (generate_instance_spec fuel' o fs _ Ho1) as [Hp2 Hout2].
  destruct (Hout2 _ H2) as (-> & (fs2 & Hy2 & Hsig) & Hv).
  apply field_signature_names in Hsig as [Hnames Hmeta].
  exists (length (heap st)),
         (length (heap (snd (generate_optimization_objects fuel (VRef o) st)))), fs2.
  split; [done|]. split; [done|].
  split; [by eapply lookup_lt_Some|].
  split; [by rewrite (prefix_lookup_Some _ _ _ _ Hy1 Hp2)|].
  split; [done|]. split; [done|]. split; [done|].
  unfold get_optimization_objects, gets. by rewrite Hv.
Qed.

(** * The claims *)

(** C1.  [solve] on a session where [add_cost] was never called, so that the
    cost is still [None]: the first thing [solve] does is to hand the cost to
    the engine's [minimize], which rejects [None].  [solve] fails with that
    error before the engine's [solve] is attempted, whatever this would have
    done, and the session is left as it was. *)
Theorem solve_without_cost `{Engine} fuel st :
  _cost (self st) = None ->
  exists msg,
    Opti_minimize None (_solver (self st)) = inl msg /\
    solve fuel st = (inl (EngineError msg), st).
Proof.
  intros Hc. destruct (Opti_minimize_None (_solver (self st))) as [msg Hmsg].
  exists msg. split; [done|]. unfold solve, bind, gets. by rewrite Hc, Hmsg.
Qed.




(** C4.  Binding a list of guesses against a list of structures, at top level
    ([set_initial_guess]) and at a field that holds a list of structures
    ([guess_field]), is index-wise binding of the guesses against the
    structures of the same index, followed by the length error exactly when
    the guesses outnumber the structures.  So more guesses than structures
    always fail, with the length error once the structures at hand are bound;
    fewer guesses behave as index-wise binding against the leading structures
    alone, the trailing ones being left out. *)
Theorem guess_list_binding fuel st :
  (* at top level *)
  (forall g gs v ss,
     heap st !! g = Some (PyList gs) ->
     _variables (self st) = VRef v -> heap st !! v = Some (PyList ss) ->
     set_initial_guess fuel (VRef g) st =
       list_guess_outcome fuel
         "The input guess is a list, but the specified variables structure is not" gs ss st) /\
  (* at a field that holds a list of structures *)
  (forall gi gfs name metadata g gs c cfs v ss,
     is_variable_or_parameter metadata = false ->
     heap st !! gi = Some (OptimizationObject gfs) -> lookup_field name gfs = Some (VRef g) ->
     is_list_of_objects (heap st) g gs ->
     heap st !! c = Some (OptimizationObject cfs) -> lookup_field name cfs = Some (VRef v) ->
     heap st !! v = Some (PyList ss) ->
     guess_field (_set_initial_guess_internal fuel) (VRef gi) (VRef c) (name, metadata) st =
       list_guess_outcome fuel
         ("The input guess is the list " +:+ name +:+
          " but the corresponding variable structure is not a list") gs ss st) /\
  (* more guesses than structures: always an error, the length error once
     the structures at hand are bound *)
  (forall msg gs ss,
     length ss < length gs ->
     (exists e, fst (list_guess_outcome fuel msg gs ss st) = inl e) /\
     (fst (bind_pairwise fuel gs ss st) = inr tt ->
      fst (list_guess_outcome fuel msg gs ss st) = inl (ValueError msg))) /\
  (* fewer guesses: index-wise binding, the trailing structures play no part *)
  (forall msg gs ss,
     length gs <= length ss ->
     list_guess_outcome fuel msg gs ss st = bind_pairwise fuel gs (take (length gs) ss) st).
Proof.
  split; [|split; [|split]].
  - intros g gs v ss Hg Hv Hss. unfold set_initial_guess. rewrite gets_run.
    assert (isinstance_list (heap st) (VRef g) = true) as -> by (simpl; by rewrite Hg).
    rewrite gets_run, Hv.
    assert (isinstance_list (heap st) (VRef v) = true) as -> by (simpl; by rewrite Hss).
    assert (list_items (heap st) (VRef g) = gs) as -> by (simpl; by rewrite Hg).
    erewrite (guess_list_loop_pairs _ _ _
                (fun st' => heap st' = heap st /\ _variables (self st') = VRef v) v ss);
      [by rewrite drop_0 | | | done | lia].
    + intros st' [Hh Hvars]. unfold gets. rewrite Hvars, Hh. done.
    + intros. by apply _set_initial_guess_internal_inv.
  - intros gi gfs name metadata g gs c cfs v ss Hm Hgi Hn [Hg Hall] Hc Hcn Hss.
    assert (guess_field (_set_initial_guess_internal fuel) (VRef gi) (VRef c) (name, metadata) st
            = guess_field (_set_initial_guess_internal fuel) (VRef gi) (VRef c) (name, None) st)
      as -> by (by destruct metadata as [[| |?]|]).
    unfold guess_field.
    erewrite bind_run by (by eapply getattribute_run).
    rewrite gets_run.
    assert (isinstance_OptimizationObject (heap st) (VRef g) = false) as ->
      by (simpl; by rewrite Hg).
    assert (isinstance_list (heap st) (VRef g) = true) as -> by (simpl; by rewrite Hg).
    assert (list_items (heap st) (VRef g) = gs) as -> by (simpl; by rewrite Hg).
    rewrite Hall. cbn [andb]. erewrite hasattr_true by done.
    erewrite bind_run by (by eapply getattribute_run).
    rewrite gets_run.
    assert (isinstance_list (heap st) (VRef v) = true) as -> by (simpl; by rewrite Hss).
    assert (list_items (heap st) (VRef g) = gs) as -> by (simpl; by rewrite Hg).
    erewrite (guess_list_loop_pairs _ _ _ (fun st' => heap st' = heap st) v ss);
      [by rewrite drop_0 | | | done | lia].
    + intros st' Hh. by rewrite Hh.
    + intros g0 s0 st0 Hh.
      by apply (_set_initial_guess_internal_inv fuel (heap st) (_variables (self st0))).
  - intros msg gs ss Hlen. unfold list_guess_outcome, bind.
    destruct (bind_pairwise fuel gs ss st) as [[e|[]] st']; simpl.
    + split; [by eauto|done].
    + destruct (decide _); [|lia]. split; [by eauto|done].
  - intros msg gs ss Hlen. unfold list_guess_outcome, bind_pairwise.
    rewrite combine_take_l. destruct (decide _); [lia|]. apply bind_ret_tt.
Qed.





(** C7.  Whatever [generate_optimization_objects] is given and however it
    ends, every object that existed before the call, the template and all it
    refers to included, is afterwards what it was: the heap before the call is
    an initial segment of the heap after it.  A structure that is returned is
    an object created by the call. *)
Theorem generate_leaves_input_unchanged fuel input_structure st :
  take (length (heap st))
       (heap (snd (generate_optimization_objects fuel input_structure st))) = heap st /\
  match fst (generate_optimization_objects fuel input_structure st) with
  | inr (VRef y) => length (heap st) <= y
  | _ => True
  end.
Proof.
  split.
  - destruct (generate_optimization_objects_frame fuel input_structure st) as [k Hk].
    rewrite Hk. by rewrite take_app_length.
  - pose proof (generate_result_fresh fuel input_structure st) as Hf. unfold wp in Hf.
    destruct (fst _) as [e|[| | | | |y]]; try done. by apply (Hf (VRef y)).
Qed.

(** C8.  On a list of templates, [generate_optimization_objects] is the deep
    copy of the list followed by the generation of element 0, 1, ... in this
    order, each result stored at the index of its element.  When it returns,
    the result is a new list of the length of the input, it is the structure
    the session tracks, whatever was tracked before, and
    [get_optimization_objects] returns it. *)
Theorem generate_list fuel l items st :
  heap st !! l = Some (PyList items) ->
  let run := generate_optimization_objects (S fuel) (VRef l) st in
  run =
    (output <- deepcopy fuel (VRef l) ;;
     for_each (fun i => x <- getitem output i ;;
                        r <- generate_optimization_objects fuel x ;;
                        setitem output i r)
              (seq 0 (length items)) ;;;
     modify_self (with_variables output) ;;;
     ret output) st /\
  forall out, fst run = inr out ->
    out = VRef (length (heap st)) /\
    (exists items', heap (snd run) !! length (heap st) = Some (PyList items') /\
                    length items' = length items) /\
    _variables (self (snd run)) = out /\
    get_optimization_objects (snd run) = (inr out, snd run).
Proof.
  intros Hl run.
  assert (run = _generate_objects_from_list fuel (generate_optimization_objects fuel)
                  (VRef l) st) as Hrun.
  { unfold run. rewrite generate_optimization_objects_S, gets_run.
    simpl. by rewrite Hl. }
  split.
  - rewrite Hrun. unfold _generate_objects_from_list. rewrite gets_run.
    assert (isinstance_list (heap st) (VRef l) = true) as -> by (simpl; by rewrite Hl).
    eapply bind_ext_post; [apply (deepcopy_list fuel l items st Hl)|].
    intros a st' (_ & _ & Hr). destruct (Hr _ eq_refl) as (-> & items' & Hy & Hlen).
    erewrite bind_run by (by apply py_len_run). by rewrite Hlen.
  - intros out Hout.
    pose proof (_generate_objects_from_list_spec fuel (generate_optimization_objects fuel)
                  l items st (generate_optimization_objects_frame fuel) Hl) as Hspec.
    unfold wp in Hspec. rewrite <- Hrun in Hspec.
    destruct (Hspec _ Hout) as (-> & Hitems & Hvars).
    split; [done|]. split; [done|]. split; [done|].
    unfold get_optimization_objects, gets. by rewrite Hvars.
Qed.

(** C9, at the input where the code fails.  A template whose only field is
    untagged and holds a list of lists of numbers: the generator takes the
    inner lists for structures, descends to the numbers and fails its own
    [assert isinstance(input_structure, list)]. *)
Theorem plain_nested_list_AssertionError fuel :
  isinstance_OptimizationObject plain_nested_template (VRef 2) = true /\
  fst (generate_optimization_objects (5 + fuel) (VRef 2) (new_session plain_nested_template))
    = inl AssertionError.
Proof. split; reflexivity. Qed.


(** * Witnesses *)

Lemma solve_without_cost_witness :
  _cost (self session_without_cost) = None /\
  exists msg,
    @Opti_minimize strict_engine None (_solver (self session_without_cost)) = inl msg /\
    @solve strict_engine 10 session_without_cost =
      (inl (EngineError msg), session_without_cost).
Proof.
  split; [reflexivity|].
  exact (@solve_without_cost strict_engine 10 session_without_cost eq_refl).
Defined.



Lemma guess_list_binding_witness :
  set_initial_guess 5 (VRef 11) guess_list_state =
    bind_pairwise 5 [VRef 10] [VRef 4] guess_list_state /\
  fst (set_initial_guess 5 (VRef 11) guess_list_state) = inr tt /\
  initial_store (_solver (self (snd (set_initial_guess 5 (VRef 11) guess_list_state)))) =
    [(MX_sym false 0 2 1, mk_ndarray [2] [3; 4]%Z)] /\
  fst (set_initial_guess 5 (VRef 12) guess_list_state) =
    inl (ValueError "The input guess is a list, but the specified variables structure is not").
Proof.
  destruct (guess_list_binding 5 guess_list_state) as (Htop & _ & Hmore & Hfewer).
  pose proof (Htop 11 [VRef 10] 2 [VRef 4; VRef 6; VRef 8] eq_refl eq_refl eq_refl) as H1.
  pose proof (Htop 12 [VRef 10; VRef 10; VRef 10; VRef 10] 2 [VRef 4; VRef 6; VRef 8]
                eq_refl eq_refl eq_refl) as H4.
  split; [|split; [|split]].
  - rewrite H1. apply (Hfewer _ [VRef 10] [VRef 4; VRef 6; VRef 8]). simpl. lia.
  - reflexivity.
  - reflexivity.
  - rewrite H4. apply Hmore; [simpl; lia | reflexivity].
Defined.



Lemma generate_list_witness :
  fst (generate_optimization_objects 10 (VRef 1) (new_session list_template)) = inr (VRef 2) /\
  exists items',
    heap (snd (generate_optimization_objects 10 (VRef 1) (new_session list_template))) !! 2
      = Some (PyList items') /\
    length items' = 3.
Proof.
  destruct (generate_list 9 1 [VRef 0; VRef 0; VRef 0] (new_session list_template) eq_refl)
    as [_ H].
  destruct (H (VRef 2) eq_refl) as (_ & Hitems & _).
  split; [reflexivity | exact Hitems].
Defined.

(** * Witnesses for the rest of the session *)

Lemma options_stay_in_sync_witness :
  options_in_sync
    (self (snd (generate_optimization_objects 10 (VRef 0) (new_session example_template)))) /\
  set_opti_options None None None (new_session example_template) =
    (inr tt, new_session example_template).
Proof.
  destruct (@options_stay_in_sync strict_engine (new_session example_template) eq_refl)
    as (Hgen & _ & _ & _ & _ & Hset).
  exact (conj (Hgen 10 (VRef 0)) Hset).
Defined.

Lemma session_configuration_witness :
  @__post_init__ strict_engine "bogus" None None (mk_state [] OptiSolver_defaults) =
    (inl (EngineError "Unknown problem type"), mk_state [] OptiSolver_defaults) /\
  fst (@__post_init__ strict_engine "conic" (Some [("max_iter", VNum 10)]) None
         (mk_state [] OptiSolver_defaults)) = inr tt /\
  _options_solver
    (self (snd (@__post_init__ strict_engine "conic" (Some [("max_iter", VNum 10)]) None
                  (mk_state [] OptiSolver_defaults)))) = [("max_iter", VNum 10)] /\
  get_values (snd (@__post_init__ strict_engine "conic" (Some [("max_iter", VNum 10)]) None
                     (mk_state [] OptiSolver_defaults))) =
    (inl SolutionNotAvailableException,
     snd (@__post_init__ strict_engine "conic" (Some [("max_iter", VNum 10)]) None
            (mk_state [] OptiSolver_defaults))).
Proof.
  pose proof (@session_configuration strict_engine "bogus" None None None None None
                (mk_state [] OptiSolver_defaults)) as Hbad.
  pose proof (@session_configuration strict_engine "conic" (Some [("max_iter", VNum 10)]) None
                None None None (mk_state [] OptiSolver_defaults)) as Hgood.
  cbv zeta in Hbad, Hgood.
  destruct Hbad as (Hbad & _ & _). destruct Hgood as (_ & Hgood & _).
  split; [exact (Hbad _ eq_refl)|].
  destruct (Hgood eq_refl) as (H1 & _ & _ & _ & _ & H6 & _ & _ & _ & _ & _ & _ & _ & Hdef).
  split; [exact H1|]. split; [exact H6|]. exact (proj1 (Hdef eq_refl)).
Defined.

Lemma constraints_append_only_witness :
  @add_constraint strict_engine (MX_const 1) (new_session []) =
    (inl (EngineError "subject_to: the expression is not a constraint"), new_session []) /\
  constraints
    (_solver (self (snd (for_each (@add_constraint strict_engine)
                           [MX_le (MX_sym false 0 1 1) (MX_const 1);
                            MX_eq (MX_sym false 0 1 1) (MX_const 0)] (new_session []))))) =
    [MX_le (MX_sym false 0 1 1) (MX_const 1); MX_eq (MX_sym false 0 1 1) (MX_const 0)].
Proof.
  destruct (@constraints_append_only strict_engine
              [MX_le (MX_sym false 0 1 1) (MX_const 1);
               MX_eq (MX_sym false 0 1 1) (MX_const 0)] (new_session []))
    as (Hbad & _ & Hall & _).
  split; [exact (Hbad (MX_const 1) _ eq_refl)|].
  rewrite Hall; [reflexivity|].
  intros c o Hc. inversion Hc as [|? ? ? Hc']; [reflexivity|].
  apply list_elem_of_singleton in Hc'. rewrite Hc'. reflexivity.
Defined.

Lemma generate_instance_witness :
  exists fs',
    heap (snd (generate_optimization_objects 10 (VRef 0) (new_session example_template))) !! 1 =
      Some (OptimizationObject fs') /\
    map fname fs' = ["x"; "p"] /\
    map fmetadata fs' = [Some Variable_StorageTypeValue; Some Parameter_StorageTypeValue].
Proof.
  destruct (generate_instance 10 0
              [mk_field "x" (Some Variable_StorageTypeValue) (array [2]);
               mk_field "p" (Some Parameter_StorageTypeValue) (array [1])]
              (new_session example_template) eq_refl (VRef 1) eq_refl) as (_ & H & _).
  exact H.
Defined.

Lemma generate_rejects_non_structures_witness :
  generate_optimization_objects 1 VNone (new_session []) =
    (inl AssertionError, new_session []) /\
  (exists e, fst (generate_optimization_objects 4 (VRef 1)
                    (new_session [OptimizationObject []; PyList [VRef 0; VNum 7]])) = inl e) /\
  generate_optimization_objects 2 (VRef 0) (new_session [PyList [VNum 1; VNum 2]]) =
    (inl AssertionError,
     mk_state ([PyList [VNum 1; VNum 2]] ++ [PyList [VNum 1; VNum 2]])
              (self (new_session [PyList [VNum 1; VNum 2]]))).
Proof.
  assert (forall z, is_atom (VNum z)) as Hnum by (intros z l; discriminate).
  split; [|split].
  - apply (proj1 (generate_rejects_non_structures 0 (new_session [])) VNone).
    intros l. discriminate.
  - apply (proj1 (proj2 (generate_rejects_non_structures 4
               (new_session [OptimizationObject []; PyList [VRef 0; VNum 7]])))
             1 [VRef 0; VNum 7] 1 (VNum 7)); [reflexivity | reflexivity | apply Hnum].
  - apply (proj2 (proj2 (generate_rejects_non_structures 0
               (new_session [PyList [VNum 1; VNum 2]]))) 0 [VNum 1; VNum 2]);
      [reflexivity | discriminate |].
    apply List.Forall_cons; [apply Hnum|]. apply List.Forall_cons; [apply Hnum|].
    apply List.Forall_nil.
Defined.

Lemma unsupported_storage_type_witness :
  fst (generate_field (generate_optimization_objects 5) (VRef 0)
         ("u", Some (Other_StorageTypeValue "gain"))
         (new_session [OptimizationObject
                         [mk_field "u" (Some (Other_StorageTypeValue "gain")) (array [2])]])) =
  inl (ValueError "Unsupported input storage type").
Proof.
  apply (unsupported_storage_type (generate_optimization_objects 5) 0
           [mk_field "u" (Some (Other_StorageTypeValue "gain")) (array [2])]
           "u" "gain" (array [2])
           (new_session [OptimizationObject
                           [mk_field "u" (Some (Other_StorageTypeValue "gain")) (array [2])]])
           eq_refl eq_refl).
  - intros l. discriminate.
  - discriminate.
  - intros a Ha. injection Ha as <-. left. reflexivity.
Defined.

Lemma storage_value_without_shape_witness :
  fst (generate_field (generate_optimization_objects 5) (VRef 0)
         ("x", Some Variable_StorageTypeValue)
         (new_session [OptimizationObject
                         [mk_field "x" (Some Variable_StorageTypeValue) (VNum 3)]])) =
    inl AttributeError /\
  fst (generate_field (generate_optimization_objects 5) (VRef 0)
         ("x", Some Variable_StorageTypeValue)
         (new_session [OptimizationObject
                         [mk_field "x" (Some Variable_StorageTypeValue) (array [])]])) =
    inl AxisError.
Proof.
  split.
  - apply (proj1 (storage_value_without_shape (generate_optimization_objects 5) 0
             [mk_field "x" (Some Variable_StorageTypeValue) (VNum 3)]
             "x" Variable_StorageTypeValue (VNum 3)
             (new_session [OptimizationObject
                             [mk_field "x" (Some Variable_StorageTypeValue) (VNum 3)]])
             eq_refl eq_refl));
      [left; reflexivity | left; exists 3%Z; reflexivity].
  - apply (proj2 (storage_value_without_shape (generate_optimization_objects 5) 0
             [mk_field "x" (Some Variable_StorageTypeValue) (array [])]
             "x" Variable_StorageTypeValue (array [])
             (new_session [OptimizationObject
                             [mk_field "x" (Some Variable_StorageTypeValue) (array [])]])
             eq_refl eq_refl) (mk_ndarray [] [])); reflexivity.
Defined.

Lemma guess_skips_plain_fields_witness :
  guess_field (_set_initial_guess_internal 5) (VRef 0) VNone ("note", None)
    (new_session [OptimizationObject [mk_field "note" None (VStr "draft")]]) =
  (inr tt, new_session [OptimizationObject [mk_field "note" None (VStr "draft")]]).
Proof.
  apply (proj1 (guess_skips_plain_fields (_set_initial_guess_internal 5) 0
                  [mk_field "note" None (VStr "draft")] VNone "note" None (VStr "draft")
                  (new_session [OptimizationObject [mk_field "note" None (VStr "draft")]])
                  eq_refl eq_refl eq_refl)).
  intros l. discriminate.
Defined.

Lemma guess_for_missing_field_witness :
  guess_field (_set_initial_guess_internal 5) (VRef 1) VNone ("inner", None)
    (new_session nested_template) =
    (inl (ValueError ("The guess has the field " +:+ "inner" +:+
                      " but it is not present in the optimization " +:+ "structure")),
     new_session nested_template) /\
  guess_field (_set_initial_guess_internal 5) (VRef 2) (VRef 1) ("inner", None)
    (new_session (nested_template ++
                  [OptimizationObject [mk_field "inner" None (VRef 3)]; PyList [VRef 0]])) =
    (inl (ValueError ("The guess has the field " +:+ "inner" +:+
                      " as list, but the corresponding structure is not a list")),
     new_session (nested_template ++
                  [OptimizationObject [mk_field "inner" None (VRef 3)]; PyList [VRef 0]])).
Proof.
  split.
  - pose proof (guess_for_missing_field (_set_initial_guess_internal 5) 1
                  [mk_field "inner" None (VRef 0)] "inner" (VRef 0)
                  (new_session nested_template) eq_refl eq_refl) as H.
    cbv zeta in H. destruct H as (H & _ & _). exact (H None eq_refl eq_refl).
  - pose proof (guess_for_missing_field (_set_initial_guess_internal 5) 2
                  [mk_field "inner" None (VRef 3)] "inner" (VRef 3)
                  (new_session
                     (nested_template ++
                      [OptimizationObject [mk_field "inner" None (VRef 3)]; PyList [VRef 0]]))
                  eq_refl eq_refl) as H.
    cbv zeta in H. destruct H as (_ & _ & H).
    exact (H None 3 [VRef 0] 1 [mk_field "inner" None (VRef 0)] (VRef 0)
             eq_refl eq_refl (conj eq_refl eq_refl) eq_refl eq_refl eq_refl).
Defined.

Lemma guess_before_generate_witness :
  set_initial_guess 5 (VRef 0)
    (new_session [OptimizationObject
                    [mk_field "x" (Some Variable_StorageTypeValue) (array [2])]]) =
  (inl (ValueError ("The guess has the field " +:+ "x" +:+
                    " but it is not present in the optimization " +:+ "variables")),
   new_session [OptimizationObject
                  [mk_field "x" (Some Variable_StorageTypeValue) (array [2])]]).
Proof.
  apply (proj2 (guess_before_generate 4
                  (new_session [OptimizationObject
                                  [mk_field "x" (Some Variable_StorageTypeValue) (array [2])]])
                  eq_refl) 0 "x" Variable_StorageTypeValue (mk_ndarray [2] []) []);
    [reflexivity | left; reflexivity].
Defined.

Lemma guess_without_shape_witness :
  guess_field (_set_initial_guess_internal 5) (VRef 0) (VRef 1)
    ("x", Some Variable_StorageTypeValue)
    (new_session
       [OptimizationObject [mk_field "x" (Some Variable_StorageTypeValue) (array [])];
        OptimizationObject
          [mk_field "x" (Some Variable_StorageTypeValue) (VMX (MX_sym false 0 1 1))]]) =
  (inl IndexError,
   new_session
     [OptimizationObject [mk_field "x" (Some Variable_StorageTypeValue) (array [])];
      OptimizationObject
        [mk_field "x" (Some Variable_StorageTypeValue) (VMX (MX_sym false 0 1 1))]]).
Proof.
  apply (proj1 (guess_without_shape (_set_initial_guess_internal 5) 0
                  [mk_field "x" (Some Variable_StorageTypeValue) (array [])] 1
                  [mk_field "x" (Some Variable_StorageTypeValue) (VMX (MX_sym false 0 1 1))]
                  "x" Variable_StorageTypeValue (mk_ndarray [] []) (VMX (MX_sym false 0 1 1))
                  (new_session
                     [OptimizationObject
                        [mk_field "x" (Some Variable_StorageTypeValue) (array [])];
                      OptimizationObject
                        [mk_field "x" (Some Variable_StorageTypeValue)
                           (VMX (MX_sym false 0 1 1))]])
                  (or_introl eq_refl) eq_refl eq_refl eq_refl eq_refl)).
  reflexivity.
Defined.

Lemma binder_keeps_earlier_guesses_witness :
  fst (_set_initial_guess_internal 5 (VRef 4) (VRef 1) partial_guess_state) =
    inl (ValueError
           ("The guess has the field " +:+ "p" +:+
            " but its dimension does not match with the corresponding optimization variable")) /\
  exists ini vals,
    snd (_set_initial_guess_internal 5 (VRef 4) (VRef 1) partial_guess_state) =
      mk_state (heap partial_guess_state)
        (with_solver
           (add_guesses ini vals
              (push_guess Variable_StorageTypeValue (MX_sym false 0 2 1)
                 (mk_ndarray [2] [3; 4]%Z) (_solver (self partial_guess_state))))
           (self partial_guess_state)).
Proof.
  split; [reflexivity|].
  apply (binder_keeps_earlier_guesses 4 4 "x" Variable_StorageTypeValue
           (mk_ndarray [2] [3; 4]%Z)
           [mk_field "p" (Some Parameter_StorageTypeValue) (VArray (mk_ndarray [5] []))]
           1
           [mk_field "x" (Some Variable_StorageTypeValue) (VMX (MX_sym false 0 2 1));
            mk_field "p" (Some Parameter_StorageTypeValue) (VMX (MX_sym true 1 1 1))]
           (MX_sym false 0 2 1) partial_guess_state
           (or_introl eq_refl) eq_refl eq_refl eq_refl);
    [discriminate | reflexivity].
Defined.

Lemma solve_frame_witness :
  exists y,
    _output_solution (self (snd (@solve strict_engine 10 session_with_cost))) = VRef y /\
    length (heap session_with_cost) <= y.
Proof.
  destruct (@solve_frame strict_engine 10 session_with_cost) as (_ & _ & _ & _ & _ & _ & _ & H).
  exact (H eq_refl).
Defined.

Lemma solve_before_generate_witness :
  fst (@solve strict_engine 3 constant_cost_session) = inl TypeError /\
  fst (get_cost_value (snd (@solve strict_engine 3 constant_cost_session))) =
    inr (mk_ndarray [] [0%Z]) /\
  fst (get_values (snd (@solve strict_engine 3 constant_cost_session))) =
    inl SolutionNotAvailableException.
Proof.
  destruct (@solve_before_generate strict_engine 2 constant_cost_session
              _ zero_solution (mk_ndarray [] [0%Z]) eq_refl eq_refl eq_refl eq_refl)
    as (H1 & _ & _).
  split; [rewrite H1; reflexivity|]. split; reflexivity.
Defined.

Lemma solution_of_flat_structure_witness :
  _generate_solution_output 5 (VRef 1) solved_session =
    (inr (VRef (length (heap solved_session))),
     mk_state
       (heap solved_session ++
        [OptimizationObject
           [mk_field "x" (Some Variable_StorageTypeValue)
              (VArray (zeros (MX_sym false 0 2 1)));
            mk_field "p" (Some Parameter_StorageTypeValue)
              (VArray (zeros (MX_sym true 1 1 1)))]])
       (self solved_session)).
Proof.
  apply (solution_of_flat_structure 3 1
           [mk_field "x" (Some Variable_StorageTypeValue) (VMX (MX_sym false 0 2 1));
            mk_field "p" (Some Parameter_StorageTypeValue) (VMX (MX_sym true 1 1 1))]
           zero_solution solved_session eq_refl).
  - apply NoDup_cons_2; [|apply NoDup_cons_2; [apply not_elem_of_nil | apply NoDup_nil_2]].
    intros Hx. apply list_elem_of_singleton in Hx. discriminate.
  - apply List.Forall_cons; [intros l; discriminate|].
    apply List.Forall_cons; [intros l; discriminate|]. apply List.Forall_nil.
  - reflexivity.
  - apply List.Forall_cons; [intros _; eexists; reflexivity|].
    apply List.Forall_cons; [intros _; eexists; reflexivity|]. apply List.Forall_nil.
Defined.

Lemma add_cost_sequence_witness :
  for_each (@add_cost strict_engine)
    [MX_sym false 0 2 1; MX_const 1; MX_sym false 1 2 1] mismatch_session =
    (inr tt,
     mk_state (heap mismatch_session)
       (with_cost
          (Some (MX_add (MX_add (MX_sym false 0 2 1) (MX_const 1)) (MX_sym false 1 2 1)))
          (self mismatch_session))) /\
  for_each (@add_cost strict_engine)
    [MX_sym false 0 2 1; MX_sym false 1 3 1; MX_const 1] mismatch_session =
    (inl (EngineError "Dimension mismatch for x+y"),
     mk_state (heap mismatch_session)
       (with_cost (Some (MX_sym false 0 2 1)) (self mismatch_session))).
Proof.
  split.
  - apply (proj1 (@add_cost_sequence strict_engine
                    [MX_sym false 0 2 1; MX_const 1; MX_sym false 1 2 1] mismatch_session)).
    simpl. split; [reflexivity|]. split; reflexivity.
  - apply (proj2 (@add_cost_sequence strict_engine
                    [MX_sym false 0 2 1; MX_sym false 1 3 1; MX_const 1] mismatch_session)
             [MX_sym false 0 2 1] (MX_sym false 1 3 1) [MX_const 1] (MX_sym false 0 2 1)
             "Dimension mismatch for x+y" eq_refl);
      [exact I | reflexivity | reflexivity].
Defined.

Lemma registered_problem_persists_witness :
  get_problem (snd (register_problem (VStr "jump") (new_session []))) =
    (inr (VStr "jump"), snd (register_problem (VStr "jump") (new_session []))) /\
  fst (get_problem
         (snd (@solve failing_engine 5
                 (snd (register_problem (VStr "jump") (new_session []))))))
    = inr (VStr "jump").
Proof.
  destruct (@registered_problem_persists failing_engine (VStr "jump") (new_session []))
    as (H1 & _ & _ & _ & _ & _ & H7 & _); [discriminate|].
  exact (conj H1 (H7 5)).
Defined.

Lemma template_is_its_own_guess_witness :
  fst (generate_optimization_objects 10 (VRef 0) (new_session example_template)) =
    inr (VRef 1) /\
  fst (set_initial_guess 9 (VRef 0)
         (snd (generate_optimization_objects 10 (VRef 0) (new_session example_template)))) =
    inr tt.
Proof.
  assert (Forall array_storage
            [mk_field "x" (Some Variable_StorageTypeValue) (array [2]);
             mk_field "p" (Some Parameter_StorageTypeValue) (array [1])]) as Hall.
  { apply List.Forall_cons.
    { exists Variable_StorageTypeValue, (mk_ndarray [2] []).
      split; [reflexivity|]. split; [left; reflexivity|]. split; [reflexivity|].
      left. reflexivity. }
    apply List.Forall_cons; [|apply List.Forall_nil].
    exists Parameter_StorageTypeValue, (mk_ndarray [1] []).
    split; [reflexivity|]. split; [right; reflexivity|]. split; [reflexivity|].
    left. reflexivity. }
  assert (NoDup (map fname
            [mk_field "x" (Some Variable_StorageTypeValue) (array [2]);
             mk_field "p" (Some Parameter_StorageTypeValue) (array [1])])) as Hnd.
  { apply NoDup_cons_2; [|apply NoDup_cons_2; [apply not_elem_of_nil | apply NoDup_nil_2]].
    intros Hx. apply list_elem_of_singleton in Hx. discriminate. }
  destruct (template_is_its_own_guess 8 0 _ (new_session example_template) eq_refl Hnd Hall)
    as (H1 & _ & _ & H4).
  split; [exact H1|]. rewrite H4. reflexivity.
Defined.

Lemma solution_has_the_shape_of_the_structure_witness :
  exists y,
    get_values (snd (@solve strict_engine 10 session_with_cost)) =
      (inr (VRef y), snd (@solve strict_engine 10 session_with_cost)) /\
    exists fs',
      heap (snd (@solve strict_engine 10 session_with_cost)) !! y =
        Some (OptimizationObject fs') /\
      map fname fs' = ["x"; "p"].
Proof.
  destruct (@solution_has_the_shape_of_the_structure strict_engine 10 1 session_with_cost
              eq_refl eq_refl) as (y & Hget & _ & Hobj & _).
  destruct (Hobj [mk_field "x" (Some Variable_StorageTypeValue) (VMX (MX_sym false 0 2 1));
                  mk_field "p" (Some Parameter_StorageTypeValue) (VMX (MX_sym true 1 1 1))]
              eq_refl) as (fs' & Hy & Hnames & _).
  exists y. split; [exact Hget|]. exists fs'. split; [exact Hy | exact Hnames].
Defined.

Lemma guess_without_values_witness :
  set_initial_guess 3 (VRef 0)
    (new_session [OptimizationObject
                    [mk_field "x" (Some Variable_StorageTypeValue) VNone;
                     mk_field "p" (Some Parameter_StorageTypeValue) VNone]]) =
  (inr tt,
   new_session [OptimizationObject
                  [mk_field "x" (Some Variable_StorageTypeValue) VNone;
                   mk_field "p" (Some Parameter_StorageTypeValue) VNone]]).
Proof.
  apply (guess_without_values 2 0
           [mk_field "x" (Some Variable_StorageTypeValue) VNone;
            mk_field "p" (Some Parameter_StorageTypeValue) VNone] VNone
           (new_session [OptimizationObject
                           [mk_field "x" (Some Variable_StorageTypeValue) VNone;
                            mk_field "p" (Some Parameter_StorageTypeValue) VNone]])
           eq_refl).
  - apply NoDup_cons_2; [|apply NoDup_cons_2; [apply not_elem_of_nil | apply NoDup_nil_2]].
    intros Hx. apply list_elem_of_singleton in Hx. discriminate.
  - apply List.Forall_cons; [split; reflexivity|].
    apply List.Forall_cons; [split; reflexivity|]. apply List.Forall_nil.
Defined.

Lemma nested_structure_field_witness :
  getattribute (VRef 1) "inner"
    (snd (generate_field (generate_optimization_objects 5) (VRef 1) ("inner", None)
            (new_session nested_template))) =
  (inr (VRef 2),
   snd (generate_field (generate_optimization_objects 5) (VRef 1) ("inner", None)
          (new_session nested_template))).
Proof.
  destruct (nested_structure_field 5 1 [mk_field "inner" None (VRef 0)] "inner" None 0
              [mk_field "x" (Some Variable_StorageTypeValue) (array [2])]
              (new_session nested_template) eq_refl eq_refl eq_refl ltac:(discriminate)
              eq_refl) as (H & _).
  exact H.
Defined.

Lemma generate_again_witness :
  exists y1 y2 fs2,
    VRef 1 = VRef y1 /\ VRef 4 = VRef y2 /\ y1 < y2 /\
    heap (snd (generate_optimization_objects 10 (VRef 0) session_without_cost)) !! y1 =
      heap session_without_cost !! y1 /\
    heap (snd (generate_optimization_objects 10 (VRef 0) session_without_cost)) !! y2 =
      Some (OptimizationObject fs2) /\
    map fname fs2 = ["x"; "p"] /\
    map fmetadata fs2 = [Some Variable_StorageTypeValue; Some Parameter_StorageTypeValue] /\
    get_optimization_objects
      (snd (generate_optimization_objects 10 (VRef 0) session_without_cost)) =
    (inr (VRef 4), snd (generate_optimization_objects 10 (VRef 0) session_without_cost)).
Proof.
  exact (generate_again 10 10 0
           [mk_field "x" (Some Variable_StorageTypeValue) (array [2]);
            mk_field "p" (Some Parameter_StorageTypeValue) (array [1])]
           (new_session example_template) (VRef 1) (VRef 4) eq_refl eq_refl eq_refl).
Defined.

(** * The scenario of the specification, run through the whole functions *)

(** generation: [x] of template shape [(2,)] and [p] of template shape [(1,)]
    become a variable of shape [(2, 1)] and a parameter of shape [(1, 1)] *)
Example scenario_generate :
  fst (generate_optimization_objects 10 (VRef 0) (new_session example_template)) = inr (VRef 1) /\
  getattribute (VRef 1) "x" session_without_cost
    = (inr (VMX (MX_sym false 0 2 1)), session_without_cost) /\
  getattribute (VRef 1) "p" session_without_cost
    = (inr (VMX (MX_sym true 1 1 1)), session_without_cost) /\
  heap session_without_cost !! 0 = example_template !! 0.
Proof. vm_compute. done. Qed.

(** a template value of rank 3 *)
Example scenario_rank3 :
  fst (generate_optimization_objects 10 (VRef 0)
         (new_session
            [OptimizationObject
               [mk_field "x" (Some Variable_StorageTypeValue) (array [2; 2; 2])]]))
  = inl (ValueError "Field x has number of dimensions greater than 2.").
Proof. vm_compute. done. Qed.

(** a guess: the value of [x] becomes the initial value of its handle, the
    absent value of [p] is skipped *)
Example scenario_set_initial_guess :
  fst (set_initial_guess 10 (VRef 4) guess_state) = inr tt /\
  initial_store (_solver (self (snd (set_initial_guess 10 (VRef 4) guess_state))))
    = [(MX_sym false 0 2 1, mk_ndarray [2] [3; 4]%Z)] /\
  value_store (_solver (self (snd (set_initial_guess 10 (VRef 4) guess_state)))) = [].
Proof. vm_compute. done. Qed.

(** a guess of shape [(3, 1)] against a leaf of shape [(2, 1)] *)
Example scenario_shape_mismatch :
  fst (set_initial_guess 10 (VRef 4)
         (mk_state
            (heap session_without_cost ++
             [OptimizationObject
                [mk_field "x" (Some Variable_StorageTypeValue) (array [3; 1]);
                 mk_field "p" (Some Parameter_StorageTypeValue) VNone]])
            (self session_without_cost)))
  = inl (ValueError
           "The guess has the field x but its dimension does not match with the corresponding optimization variable").
Proof. vm_compute. done. Qed.

(** a storage field that holds a list of arrays *)
Example scenario_storage_list :
  let st := snd (generate_optimization_objects 10 (VRef 1) (new_session storage_list_template)) in
  fst (generate_optimization_objects 10 (VRef 1) (new_session storage_list_template))
    = inr (VRef 2) /\
  getattribute (VRef 2) "xs" st = (inr (VRef 4), st) /\
  heap st !! 4 = Some (PyList [VMX (MX_sym false 0 3 1); VMX (MX_sym false 1 2 4)]).
Proof. vm_compute. done. Qed.

(** solving the scenario with a cost; the getters before and after *)
Example scenario_solve :
  fst (get_values session_with_cost) = inl SolutionNotAvailableException /\
  fst (@solve strict_engine 10 session_with_cost) = inr tt /\
  fst (get_values (snd (@solve strict_engine 10 session_with_cost))) = inr (VRef 4) /\
  fst (@solve failing_engine 10 session_with_cost)
    = inl (EngineError "Infeasible_Problem_Detected").
Proof. vm_compute. done. Qed.
